(** * Outgoing-transaction reconciliation pipeline of safe-react

    A shallow embedding of
    [src/routes/safe/store/actions/transactions/fetchTransactions/loadOutgoingTransactions.js]:
    the transaction normalizer [buildTransactionFrom], the batch code lookup
    [batchTxTokenRequest] and the fetch loop [loadOutgoingTransactions],
    followed by the properties of the pipeline. *)

From Stdlib Require Import ZArith String Ascii List Lia Bool.
From stdpp Require Import gmap strings list.

Local Open Scope string_scope.
Local Open Scope list_scope.
Local Open Scope Z_scope.

(** ** JavaScript primitives used by the module *)

Module Js.

(** A string seen as its sequence of characters. *)
Definition chars (s : string) : list ascii := list_ascii_of_string s.
Definition str (l : list ascii) : string := string_of_list_ascii l.
Definition strlen (s : string) : Z := Z.of_nat (String.length s).

(** Index normalisation of [String.prototype.slice]: a negative index
    counts from the end, and every index is clamped to [0, len]. *)
Definition clamp_index (len i : Z) : Z :=
  if i <? 0 then Z.max (len + i) 0 else Z.min i len.

(** [s.slice(b, e)] *)
Definition slice (s : string) (b e : Z) : string :=
  let len := strlen s in
  let from := clamp_index len b in
  let upto := clamp_index len e in
  str (take (Z.to_nat (upto - from)) (drop (Z.to_nat from) (chars s))).

(** [s.slice(b)] *)
Definition slice_from (s : string) (b : Z) : string := slice s b (strlen s).

(** [s.padStart(target, pad)] for a one-character pad string. *)
Definition padStart (s : string) (target : Z) (pad : ascii) : string :=
  str (replicate (Z.to_nat (target - strlen s)) pad ++ chars s).

(** Decimal digits of a positive integer, most significant first; the
    fuel bounds the number of digits. *)
Fixpoint digits_fuel (fuel : nat) (n : Z) : list Z :=
  match fuel with
  | O => []
  | S f => if n <=? 0 then [] else digits_fuel f (n / 10) ++ [n mod 10]
  end.

Definition digits (n : Z) : list Z :=
  digits_fuel (S (Z.to_nat (Z.log2 n))) n.

Definition digit_char (d : Z) : ascii := ascii_of_nat (48 + Z.to_nat d).

(** All the decimal digits of an integer, with its sign. *)
Definition decimal (n : Z) : string :=
  if n =? 0 then "0"
  else if n <? 0 then String "-" (str (map digit_char (digits (- n))))
  else str (map digit_char (digits n)).

(** A Number that holds an integer is that integer. Every integer up to
    [MAX_SAFE_INTEGER] in magnitude is a Number; above, a Number keeps 53
    significant bits, and from [2 ^ 1024] on it is [Infinity]. *)
Definition MAX_SAFE_INTEGER : Z := 2 ^ 53 - 1.
Definition Infinity : Z := 2 ^ 1024.

(** The Number nearest to an integer, ties to the even significand. *)
Definition round_double (x : Z) : Z :=
  let a := Z.abs x in
  if a <=? MAX_SAFE_INTEGER then x
  else
    let e := Z.log2 a - 52 in
    let q := a / 2 ^ e in
    let r := a mod 2 ^ e in
    let half := 2 ^ (e - 1) in
    let q' := if r <? half then q
              else if half <? r then q + 1
              else if Z.even q then q else q + 1 in
    Z.sgn x * Z.min (q' * 2 ^ e) Infinity.

(** [a + b] and [a * b] on Numbers. *)
Definition add (a b : Z) : Z := round_double (a + b).
Definition mul (a b : Z) : Z := round_double (a * b).

(** The integer with [k] significant digits that is nearest to the Number
    [x], when it is read back as [x]. *)
Definition candidate (x : Z) (k : Z) : option Z :=
  let e := Z.of_nat (length (digits x)) - k in
  if e <? 0 then None
  else
    let lo := x / 10 ^ e * 10 ^ e in
    let hi := lo + 10 ^ e in
    let okl := round_double lo =? x in
    let okh := round_double hi =? x in
    if okl && okh then
      if x - lo <? hi - x then Some lo
      else if hi - x <? x - lo then Some hi
      else if Z.even (x / 10 ^ e) then Some lo else Some hi
    else if okl then Some lo
    else if okh then Some hi
    else None.

Fixpoint shortest_from (fuel : nat) (k : Z) (x : Z) : Z :=
  match fuel with
  | O => x
  | S f => match candidate x k with
           | Some v => v
           | None => shortest_from f (k + 1) x
           end
  end.

(** The integer with the fewest significant digits that is read back as
    the Number [x]; seventeen digits always suffice. *)
Definition shortest (x : Z) : Z := shortest_from 17 1 x.

Fixpoint strip_zeros (rev_ds : list Z) : list Z :=
  match rev_ds with
  | 0 :: l => strip_zeros l
  | l => l
  end.

(** The exponent notation of the integer with digits [ds]. *)
Definition exponential (ds : list Z) : string :=
  let e := decimal (Z.of_nat (length ds) - 1) in
  match rev (strip_zeros (rev ds)) with
  | [] => "0"
  | [d] => String (digit_char d) ("e+" +:+ e)
  | d :: l =>
      String (digit_char d) ("." +:+ str (map digit_char l) +:+ "e+" +:+ e)
  end.

Definition toString_positive (x : Z) : string :=
  if x <=? MAX_SAFE_INTEGER then str (map digit_char (digits x))
  else if Infinity <=? x then "Infinity"
  else
    let ds := digits (shortest x) in
    if Z.of_nat (length ds) <=? 21 then str (map digit_char ds)
    else exponential ds.

(** [n.toString()] of [Number.prototype]: every digit of a safe integer;
    above, the shortest digits that are read back as the same Number,
    followed by zeros, and the exponent notation from [1e21] on. *)
Definition toString (n : Z) : string :=
  let x := round_double n in
  if x =? 0 then "0"
  else if x <? 0 then String "-" (toString_positive (- x))
  else toString_positive x.

(** Truthiness of a nullable string: [null], [undefined] and the empty
    string are falsy. *)
Definition truthy (s : option string) : bool :=
  match s with
  | None => false
  | Some EmptyString => false
  | Some _ => true
  end.

(** [s.includes(p)] *)
Fixpoint includes (s p : string) : bool :=
  String.prefix p s ||
  match s with
  | EmptyString => false
  | String _ s' => includes s' p
  end.

(** [a || b] on strings. *)
Definition or_else (a b : string) : string :=
  match a with EmptyString => b | _ => a end.

(** A value that is [null], [undefined] or a string; [===] on such values. *)
Inductive nullable := Null | Undefined | Str (s : string).

Definition strict_eq (a b : nullable) : bool :=
  match a, b with
  | Null, Null => true
  | Undefined, Undefined => true
  | Str x, Str y => String.eqb x y
  | _, _ => false
  end.

(** A plain object whose properties hold strings, as an ordered list of
    its own properties. *)
Definition object := list (string * string).

(** What a rejected promise or a [throw] carries: [err.response.status]
    when the error has a response. *)
Record error := { response_status : option Z; message : string }.

Definition TypeError (msg : string) : error :=
  {| response_status := None; message := msg |}.

(** The settled state of an awaited promise. *)
Inductive promise (A : Type) : Type :=
| Resolved (a : A)
| Rejected (e : error).
Arguments Resolved {A} a.
Arguments Rejected {A} e.

Definition bind {A B} (p : promise A) (k : A -> promise B) : promise B :=
  match p with
  | Resolved a => k a
  | Rejected e => Rejected e
  end.

Fixpoint values {A} (ps : list (promise A)) : list A :=
  match ps with
  | [] => []
  | Resolved a :: ps' => a :: values ps'
  | Rejected _ :: ps' => values ps'
  end.

Fixpoint rejections {A} (ps : list (promise A)) : list error :=
  match ps with
  | [] => []
  | Resolved _ :: ps' => rejections ps'
  | Rejected e :: ps' => e :: rejections ps'
  end.

(** [Promise.all(ps)]: the values in order when every promise resolves;
    otherwise the rejection of the promise that rejects first in time,
    [first] giving its position among the rejections. *)
Definition all {A} (first : list error -> nat) (ps : list (promise A)) :
  promise (list A) :=
  match rejections ps with
  | [] => Resolved (values ps)
  | e :: es =>
      Rejected (nth (Nat.modulo (first (e :: es)) (S (length es))) (e :: es) e)
  end.

(** [Promise.all(p)] of a promise [p]: a promise is not iterable, and the
    call rejects with a [TypeError] whatever [p] settles to. *)
Definition all_of_promise {A B} (p : promise A) : promise B :=
  Rejected (TypeError "object is not iterable").

(** The promise of a two-method batch: both values, or a rejection. *)
Definition all2 {A B} (pa : promise A) (pb : promise B) : promise (A * B) :=
  bind pa (fun a => bind pb (fun b => Resolved (a, b))).

(** [List(l).groupBy(key)] of Immutable.js: every element is appended to
    the list stored under its key, in iteration order. *)
Definition groupBy {A} (key : A -> string) (l : list A) : gmap string (list A) :=
  foldl (fun m x => <[key x := default [] (m !! key x) ++ [x]]> m) ∅ l.

End Js.

Notation "'let*' x ':=' p 'in' k" := (Js.bind p (fun x => k))
  (at level 10, x name, p at level 100, k at level 200, only parsing).
Notation "'let*' ' pat ':=' p 'in' k" :=
  (Js.bind p (fun x => match x with pat => k end))
  (at level 10, pat pattern, p at level 100, k at level 200, only parsing).

(** ** Data model *)

(** [ConfirmationServiceModel] *)
Module ConfirmationServiceModel.
Record t := {
  owner : string;
  submissionDate : string;
  signature : string;
  transactionHash : string;
}.
End ConfirmationServiceModel.

(** The record built by [makeConfirmation]. *)
Module Confirmation.
Record t := {
  owner : string;
  hash : string;
  signature : string;
}.
End Confirmation.

(** [TxServiceModel], with the [origin] property that
    [buildTransactionFrom] also reads. *)
Module TxServiceModel.
Record t := {
  to : string;
  value : Z;
  data : option string;
  operation : Z;
  nonce : option Z;
  blockNumber : option Z;
  safeTxGas : Z;
  baseGas : Z;
  gasPrice : Z;
  gasToken : string;
  refundReceiver : string;
  safeTxHash : string;
  submissionDate : option string;
  executor : string;
  executionDate : option string;
  confirmations : list ConfirmationServiceModel.t;
  isExecuted : bool;
  isSuccessful : bool;
  transactionHash : option string;
  creationTx : option bool;
  origin : option string;
}.
End TxServiceModel.

(** What [getTokenInfos] resolves to and what the token registry holds. *)
Module Token.
Record t := {
  address : string;
  symbol : string;
  decimals : Z;
}.
End Token.

Module RefundParams.
Record t := {
  fee : string;
  symbol : string;
}.
End RefundParams.

(** The properties handed to [makeTransaction]. *)
Module Transaction.
Record t := {
  symbol : string;
  nonce : option Z;
  blockNumber : option Z;
  value : string;
  confirmations : list Confirmation.t;
  decimals : Z;
  recipient : string;
  data : string;
  operation : Z;
  safeTxGas : Z;
  baseGas : Z;
  gasPrice : Z;
  gasToken : string;
  refundReceiver : string;
  refundParams : option RefundParams.t;
  isExecuted : bool;
  isSuccessful : bool;
  submissionDate : option string;
  executor : string;
  executionDate : option string;
  executionTxHash : option string;
  safeTxHash : string;
  isTokenTransfer : bool;
  multiSendTx : bool;
  upgradeTx : bool;
  decodedParams : option Js.object;
  modifySettingsTx : bool;
  customTx : bool;
  cancellationTx : bool;
  creationTx : option bool;
  origin : option string;
}.
End Transaction.

(** [SafeTransactionsType]: two Immutable maps; a key may be bound to
    [undefined], which is [None] here. *)
Record SafeTransactionsType := {
  outgoing : gmap string (option (list Transaction.t));
  cancel : gmap string (option (list Transaction.t));
}.

(** ** Collaborators

    [loadOutgoingTransactions.js] imports the following names from modules
    of the repository that are outside the embedded sources.  The pure
    helpers and constants are the fields of [Imports]; the outcomes of the
    asynchronous calls are the fields of [Network]. *)

Class Imports := {
  (** [~/logic/wallets/ethAddresses] *)
  ZERO_ADDRESS : string;
  sameAddress : string -> string -> bool;
  (** [~/logic/wallets/ethTransactions] *)
  EMPTY_DATA : string;
  (** [~/logic/tokens/utils/tokenHelpers] *)
  SAFE_TRANSFER_FROM_WITHOUT_DATA_HASH : string;
  isTokenTransfer : option string -> Z -> bool;
  isMultisendTransaction : option string -> Z -> bool;
  isUpgradeTransaction : option string -> bool;
  (** [~/logic/contracts/methodIds]; [None] is [undefined] *)
  decodeParamsFromSafeMethod : string -> option Js.object;
  (** [~/logic/safe/transactions/txHistory] *)
  buildTxServiceUrl : string -> string;
  (** [../utils/addMockSafeCreationTx] *)
  addMockSafeCreationTx : string -> list TxServiceModel.t;
}.

(** The part of an axios response the module reads:
    [response.data.count], [response.data.results] and
    [response.headers.etag]. *)
Module Response.
Record t := {
  count : Z;
  results : list TxServiceModel.t;
  etag : Js.nullable;
}.
End Response.

Class Network := {
  (** [getTokenInfos(address)] of [~/logic/tokens/store/actions/fetchTokens] *)
  getTokenInfos : string -> Js.promise Token.t;
  (** the two calls of [generateBatchRequests] with [ALTERNATIVE_TOKEN_ABI]
      and methods [symbol] and [decimals] *)
  alternativeSymbol : string -> Js.promise string;
  alternativeDecimals : string -> Js.promise Z;
  (** [web3ReadOnly.eth.abi.decodeParameters(['address', 'uint256'], _)]:
      [params[0]] and [params[1]], or the exception it throws *)
  decodeParameters : string -> Js.promise (string * string);
  (** the [getCode] request of [generateBatchRequests] in a batch; the
      code may be [null] *)
  getCode : string -> Js.promise (option string);
  (** [axios.get(url, config)], [config] being the [If-None-Match] header
      when there is one *)
  axios_get : string -> option string -> Js.promise Response.t;
  (** which of several rejections, given in the order of their promises,
      comes first in time *)
  settlesFirst : list Js.error -> nat;
}.

(** ** The transaction normalizer *)

Section Normalizer.
Context `{Imports} `{Network}.

Import TxServiceModel.

(** Lines 68-76: one [makeConfirmation] per service confirmation. *)
Definition makeConfirmations (tx : TxServiceModel.t) : list Confirmation.t :=
  map (fun conf =>
         {| Confirmation.owner := ConfirmationServiceModel.owner conf;
            Confirmation.hash := ConfirmationServiceModel.transactionHash conf;
            Confirmation.signature := ConfirmationServiceModel.signature conf |})
      (confirmations tx).

(** Lines 77-85: the flags computed before any lookup. *)
Definition modifySettingsTx_of (safeAddress : string) (tx : TxServiceModel.t) : bool :=
  sameAddress (to tx) safeAddress && (value tx =? 0) && Js.truthy (data tx).

Definition cancellationTx_of (safeAddress : string) (tx : TxServiceModel.t) : bool :=
  sameAddress (to tx) safeAddress && (value tx =? 0) && negb (Js.truthy (data tx)).

Definition isERC721Token_of (tx : TxServiceModel.t)
    (knownTokens : gmap string Token.t) (code : option string) : bool :=
  (Js.truthy code &&
     match code with
     | Some c => Js.includes c SAFE_TRANSFER_FROM_WITHOUT_DATA_HASH
     | None => false
     end)
  || (isTokenTransfer (data tx) (value tx)
        && negb (bool_decide (is_Some (knownTokens !! to tx)))).

Definition isSendTokenTx_of (tx : TxServiceModel.t)
    (knownTokens : gmap string Token.t) (code : option string) : bool :=
  negb (isERC721Token_of tx knownTokens code)
  && isTokenTransfer (data tx) (value tx).

Definition isMultiSendTx_of (tx : TxServiceModel.t) : bool :=
  isMultisendTransaction (data tx) (value tx).

Definition isUpgradeTx_of (tx : TxServiceModel.t) : bool :=
  isMultiSendTx_of tx && isUpgradeTransaction (data tx).

Definition customTx_of (safeAddress : string) (tx : TxServiceModel.t)
    (knownTokens : gmap string Token.t) (code : option string) : bool :=
  negb (sameAddress (to tx) safeAddress) && Js.truthy (data tx)
  && negb (isSendTokenTx_of tx knownTokens code)
  && negb (isUpgradeTx_of tx)
  && negb (isERC721Token_of tx knownTokens code).

(** Lines 96-100: the fee as a decimal string. *)
Definition formatFee (fee refundDecimals : Z) : string :=
  let feeString := Js.padStart (Js.toString fee) refundDecimals "0"%char in
  let whole :=
    Js.or_else (Js.slice feeString 0 (Js.strlen feeString - refundDecimals)) "0" in
  let fraction := Js.slice_from feeString (Js.strlen feeString - refundDecimals) in
  whole +:+ "." +:+ fraction.

(** Lines 87-105. *)
Definition refundParams_of (tx : TxServiceModel.t)
    : Js.promise (option RefundParams.t) :=
  if 0 <? gasPrice tx then
    let* '(refundSymbol, refundDecimals) :=
      (if negb (String.eqb (gasToken tx) ZERO_ADDRESS) then
         let* gasToken := getTokenInfos (gasToken tx) in
         Js.Resolved (Token.symbol gasToken, Token.decimals gasToken)
       else Js.Resolved ("ETH", 18)) in
    let formattedFee :=
      formatFee (Js.mul (gasPrice tx) (Js.add (baseGas tx) (safeTxGas tx)))
        refundDecimals in
    Js.Resolved (Some {| RefundParams.fee := formattedFee;
                         RefundParams.symbol := refundSymbol |})
  else Js.Resolved None.

(** Modelled from the spec: [generateBatchRequests] is outside the
    embedded sources.  For the methods [symbol] and [decimals] of
    [ALTERNATIVE_TOKEN_ABI] it makes two independent calls that must both
    succeed.  What it returns is one promise of the values: lines 186-199
    hand what it returns to [Promise.all] as one of the promises, and line
    243 reads what that promise resolves to as [[tx, code]]. *)
Definition alternativeTokenRequest (address : string) : Js.promise (string * Z) :=
  Js.all2 (alternativeSymbol address) (alternativeDecimals address).

(** Lines 111-135: symbol, decimals and the two flags the [catch] block
    may overwrite.  Line 118 hands the promise of the batch to
    [Promise.all]. *)
Definition resolveToken (tx : TxServiceModel.t) (customTx : bool)
    : string * Z * bool * bool :=
  match getTokenInfos (to tx) with
  | Js.Resolved token => (Token.symbol token, Token.decimals token, true, customTx)
  | Js.Rejected _ =>
      match Js.all_of_promise (alternativeTokenRequest (to tx)) with
      | Js.Resolved (tokenSymbol, tokenDecimals) =>
          (tokenSymbol, tokenDecimals, true, customTx)
      | Js.Rejected _ => ("ETH", 18, false, true)
      end
  end.

(** Lines 137-141; [tx.data.slice] throws on a missing [data]. *)
Definition decodeTransfer (tx : TxServiceModel.t) : Js.promise Js.object :=
  match data tx with
  | None => Js.Rejected (Js.TypeError "Cannot read property 'slice' of null")
  | Some d =>
      let* params := decodeParameters (Js.slice_from d 10) in
      Js.Resolved [("recipient", params.1); ("value", params.2)]
  end.

Definition buildTransactionFrom (safeAddress : string) (tx : TxServiceModel.t)
    (knownTokens : gmap string Token.t) (code : option string)
    : Js.promise Transaction.t :=
  let confirmations := makeConfirmations tx in
  let modifySettingsTx := modifySettingsTx_of safeAddress tx in
  let cancellationTx := cancellationTx_of safeAddress tx in
  let isSendTokenTx0 := isSendTokenTx_of tx knownTokens code in
  let isMultiSendTx := isMultiSendTx_of tx in
  let isUpgradeTx := isUpgradeTx_of tx in
  let customTx0 := customTx_of safeAddress tx knownTokens code in
  let* refundParams := refundParams_of tx in
  let* '(symbol, decimals, isSendTokenTx, customTx, decodedParams) :=
    (if isSendTokenTx0 then
       let '(symbol, decimals, isSendTokenTx, customTx) := resolveToken tx customTx0 in
       let* decodedParams := decodeTransfer tx in
       Js.Resolved (symbol, decimals, isSendTokenTx, customTx, Some decodedParams)
     else if modifySettingsTx && Js.truthy (data tx) then
       Js.Resolved ("ETH", 18, isSendTokenTx0, customTx0,
                    decodeParamsFromSafeMethod (default "" (data tx)))
     else if customTx0 && Js.truthy (data tx) then
       Js.Resolved ("ETH", 18, isSendTokenTx0, customTx0,
                    decodeParamsFromSafeMethod (default "" (data tx)))
     else Js.Resolved ("ETH", 18, isSendTokenTx0, customTx0, None)) in
  Js.Resolved
    {| Transaction.symbol := symbol;
       Transaction.nonce := nonce tx;
       Transaction.blockNumber := blockNumber tx;
       Transaction.value := Js.toString (value tx);
       Transaction.confirmations := confirmations;
       Transaction.decimals := decimals;
       Transaction.recipient := to tx;
       Transaction.data := if Js.truthy (data tx) then default "" (data tx) else EMPTY_DATA;
       Transaction.operation := operation tx;
       Transaction.safeTxGas := safeTxGas tx;
       Transaction.baseGas := baseGas tx;
       Transaction.gasPrice := gasPrice tx;
       Transaction.gasToken := Js.or_else (gasToken tx) ZERO_ADDRESS;
       Transaction.refundReceiver := Js.or_else (refundReceiver tx) ZERO_ADDRESS;
       Transaction.refundParams := refundParams;
       Transaction.isExecuted := isExecuted tx;
       Transaction.isSuccessful := isSuccessful tx;
       Transaction.submissionDate := submissionDate tx;
       Transaction.executor := executor tx;
       Transaction.executionDate := executionDate tx;
       Transaction.executionTxHash := transactionHash tx;
       Transaction.safeTxHash := safeTxHash tx;
       Transaction.isTokenTransfer := isSendTokenTx;
       Transaction.multiSendTx := isMultiSendTx;
       Transaction.upgradeTx := isUpgradeTx;
       Transaction.decodedParams := decodedParams;
       Transaction.modifySettingsTx := modifySettingsTx;
       Transaction.customTx := customTx;
       Transaction.cancellationTx := cancellationTx;
       Transaction.creationTx := creationTx tx;
       Transaction.origin := origin tx |}.

End Normalizer.

(** ** The history fetch and reconciliation loop *)

(** The Redux state as far as the module reads it:
    [state[TOKEN_REDUCER_ID]]. *)
Record AppState := { tokens : gmap string Token.t }.

(** What an invocation does to the outside, in program order: the GET
    request with its [If-None-Match] header, a [console.error], the batch
    of [getCode] requests sent by [batch.execute()], and a call of
    [buildTransactionFrom]. *)
Inductive event :=
| HttpGet (url : string) (ifNoneMatch : option string)
| ConsoleError (msg : string) (err : Js.error)
| BatchExecute (addresses : list string)
| Normalize (tx : TxServiceModel.t) (code : option string).

(** The module-level variable [prevSaveTransactionsEtag], initially [null],
    together with the events so far. *)
Record ModuleState := {
  prevSaveTransactionsEtag : Js.nullable;
  trace : list event;
}.

Definition initialState : ModuleState :=
  {| prevSaveTransactionsEtag := Js.Null; trace := [] |}.

Definition emit (evs : list event) (st : ModuleState) : ModuleState :=
  {| prevSaveTransactionsEtag := prevSaveTransactionsEtag st;
     trace := trace st ++ evs |}.

Definition setEtag (e : Js.nullable) (st : ModuleState) : ModuleState :=
  {| prevSaveTransactionsEtag := e; trace := trace st |}.

Section Loop.
Context `{Imports} `{Network}.

(** Lines 183-200: one [getCode] request per transaction, the
    transaction itself being the context handed back with the code. *)
Definition batchTxTokenRequest (txs : list TxServiceModel.t)
    : Js.promise (list (TxServiceModel.t * option string)) :=
  Js.all settlesFirst
    (map (fun tx =>
            let* code := getCode (TxServiceModel.to tx) in
            Js.Resolved (tx, code)) txs).

(** The key function of the [groupBy] at line 246. *)
Definition groupKey (tx : Transaction.t) : string :=
  if Transaction.cancellationTx tx then "cancel" else "outgoing".

(** Lines 248-251. *)
Definition groupTransactions (safeAddress : string)
    (txsRecord : list Transaction.t) : SafeTransactionsType :=
  let groupedTxs := Js.groupBy groupKey txsRecord in
  {| outgoing := <[safeAddress := groupedTxs !! "outgoing"]> ∅;
     cancel := <[safeAddress := groupedTxs !! "cancel"]> ∅ |}.

(** Lines 238-251: what follows the [try] block. *)
Definition normalizeAndGroup (safeAddress : string) (getState : unit -> AppState)
    (transactions : list TxServiceModel.t) (st : ModuleState)
    : Js.promise (option SafeTransactionsType) * ModuleState :=
  let state := getState tt in
  let knownTokens := tokens state in
  let st := emit [BatchExecute (map TxServiceModel.to transactions)] st in
  match batchTxTokenRequest transactions with
  | Js.Rejected e => (Js.Rejected e, st)
  | Js.Resolved txsWithData =>
      let st := emit (map (fun '(tx, code) => Normalize tx code) txsWithData) st in
      match Js.all settlesFirst
              (map (fun '(tx, code) =>
                      buildTransactionFrom safeAddress tx knownTokens code)
                   txsWithData) with
      | Js.Rejected e => (Js.Rejected e, st)
      | Js.Resolved txsRecord =>
          (Js.Resolved (Some (groupTransactions safeAddress txsRecord)), st)
      end
  end.

(** Lines 210-216: the [If-None-Match] header, sent when the stored
    ETag is truthy. *)
Definition requestConfig (etag : Js.nullable) : option string :=
  match etag with
  | Js.Str s => if Js.truthy (Some s) then Some s else None
  | _ => None
  end.

(** The message of the [console.error] at line 234. *)
Definition failureMessage (safeAddress : string) : string :=
  "Requests for outgoing transactions for " +:+ safeAddress
    +:+ " failed with 404".

(** Lines 203-252.  The result [Resolved None] is the bare [return],
    that is [undefined]. *)
Definition loadOutgoingTransactions (safeAddress : string)
    (getState : unit -> AppState) (st : ModuleState)
    : Js.promise (option SafeTransactionsType) * ModuleState :=
  let transactions := addMockSafeCreationTx safeAddress in
  let config := requestConfig (prevSaveTransactionsEtag st) in
  let url := buildTxServiceUrl safeAddress in
  let st := emit [HttpGet url config] st in
  match axios_get url config with
  | Js.Resolved response =>
      if 0 <? Response.count response then
        if Js.strict_eq (prevSaveTransactionsEtag st) (Response.etag response)
        then (Js.Resolved None, st)
        else
          normalizeAndGroup safeAddress getState
            (transactions ++ Response.results response)
            (setEtag (Response.etag response) st)
      else normalizeAndGroup safeAddress getState transactions st
  | Js.Rejected err =>
      if bool_decide (Js.response_status err = Some 304)
      then (Js.Resolved None, st)
      else
        normalizeAndGroup safeAddress getState transactions
          (emit [ConsoleError (failureMessage safeAddress) err] st)
  end.

(** The value of [transactions] when line 238 is reached: the seed of
    line 204, followed by the fetched results after line 225. *)
Definition fetchedTransactions (safeAddress : string) (st : ModuleState)
    : list TxServiceModel.t :=
  let transactions := addMockSafeCreationTx safeAddress in
  match axios_get (buildTxServiceUrl safeAddress)
          (requestConfig (prevSaveTransactionsEtag st)) with
  | Js.Resolved response =>
      if 0 <? Response.count response
      then transactions ++ Response.results response
      else transactions
  | Js.Rejected _ => transactions
  end.

(** How a record of an output relates to the transaction it comes from:
    it is the normalization of that transaction with the code found at
    its destination. *)
Definition normalizes (safeAddress : string) (getState : unit -> AppState)
    (tx : TxServiceModel.t) (r : Transaction.t) : Prop :=
  exists code,
    getCode (TxServiceModel.to tx) = Js.Resolved code
    /\ buildTransactionFrom safeAddress tx (tokens (getState tt)) code
       = Js.Resolved r.

End Loop.

(** ** Definitions that follow the specification's words *)

(** The [k] low decimal digits of [m], most significant first. *)
Fixpoint fixed_digits (k : nat) (m : Z) : list Z :=
  match k with
  | O => []
  | S k' => fixed_digits k' (m / 10) ++ [m mod 10]
  end.

(** "fee rendered in the refund token's decimal precision": the integer
    [fee] read as a fixed-point number with [decimals] fractional digits,
    written as its integral part, a point, and exactly [decimals]
    fractional digits. *)
Definition decimalRendering (fee decimals : Z) : string :=
  Js.decimal (fee / 10 ^ decimals) +:+ "." +:+
  Js.str (map Js.digit_char (fixed_digits (Z.to_nat decimals) (fee mod 10 ^ decimals))).

(** The five classification flags of a normalized transaction, in the
    order the specification lists them. *)
Definition classificationFlags (r : Transaction.t) : list bool :=
  [Transaction.modifySettingsTx r; Transaction.cancellationTx r;
   Transaction.isTokenTransfer r; Transaction.multiSendTx r;
   Transaction.customTx r].

(** "exactly one of the classification flags is true" *)
Definition exactlyOneFlag (r : Transaction.t) : Prop :=
  length (filter (fun b => b = true) (classificationFlags r)) = 1%nat.

(** The list [Map.get] finds under key [k] after a [groupBy]: the
    elements with that key in their original order, and [undefined] when
    there is none. *)
Definition group_of {A} (key : A -> string) (k : string) (l : list A)
    : option (list A) :=
  match filter (fun x => key x = k) l with
  | [] => None
  | g => Some g
  end.

(** ** A concrete set of collaborators

    Used to run the pipeline on concrete transactions. *)

Module Sample.

(** Call data that starts with the selector [sel]. *)
Definition startsWith (sel : string) (data : option string) : bool :=
  match data with
  | Some d => String.prefix sel d
  | None => false
  end.

(** Modelled from the spec: [addMockSafeCreationTx] is outside the embedded
    sources.  The genesis record is one synthetic record marked as the
    wallet creation, already executed, without destination, value, call
    data, gas price or confirmations. *)
Definition creationRecord : TxServiceModel.t :=
  {| TxServiceModel.to := "";
     TxServiceModel.value := 0;
     TxServiceModel.data := None;
     TxServiceModel.operation := 0;
     TxServiceModel.nonce := None;
     TxServiceModel.blockNumber := None;
     TxServiceModel.safeTxGas := 0;
     TxServiceModel.baseGas := 0;
     TxServiceModel.gasPrice := 0;
     TxServiceModel.gasToken := "0x0000000000000000000000000000000000000000";
     TxServiceModel.refundReceiver := "0x0000000000000000000000000000000000000000";
     TxServiceModel.safeTxHash := "";
     TxServiceModel.submissionDate := None;
     TxServiceModel.executor := "";
     TxServiceModel.executionDate := None;
     TxServiceModel.confirmations := [];
     TxServiceModel.isExecuted := true;
     TxServiceModel.isSuccessful := true;
     TxServiceModel.transactionHash := None;
     TxServiceModel.creationTx := Some true;
     TxServiceModel.origin := None |}.

(** Modelled from the spec: [tokenHelpers], [ethAddresses],
    [ethTransactions], [methodIds] and [txHistory] are outside the embedded
    sources.  A token transfer and a multi-send are call data that start
    with the selector of [transfer(address,uint256)] and of
    [multiSend(bytes)], with a zero value; an upgrade is a multi-send whose
    batch holds a [changeMasterCopy] call; two addresses are the same when
    they are equal; call data of no known wallet method decodes to an
    object without properties; the history endpoint is
    [/safes/{address}/transactions]. *)
Definition imports : Imports :=
  {| ZERO_ADDRESS := "0x0000000000000000000000000000000000000000";
     sameAddress := String.eqb;
     EMPTY_DATA := "0x";
     SAFE_TRANSFER_FROM_WITHOUT_DATA_HASH := "42842e0e";
     isTokenTransfer := fun data value => startsWith "0xa9059cbb" data && (value =? 0);
     isMultisendTransaction := fun data value => startsWith "0x8d80ff0a" data && (value =? 0);
     isUpgradeTransaction := fun data =>
       match data with Some d => Js.includes d "7de7edef" | None => false end;
     decodeParamsFromSafeMethod := fun _ => Some [];
     buildTxServiceUrl := fun a => "/safes/" +:+ a +:+ "/transactions";
     addMockSafeCreationTx := fun _ => [creationRecord] |}.

Definition failure : Js.error :=
  {| Js.response_status := None; Js.message := "Network Error" |}.

Definition notModified : Js.error :=
  {| Js.response_status := Some 304; Js.message := "Not Modified" |}.

(** A network described by the token registry of the chain, the tokens
    that answer on the alternative interface, and the answer of the
    history service.  Every address has empty code and the transfer
    parameters are the two 32-byte words of the call data. *)
Definition network (primary alternative : list (string * (string * Z)))
    (history : option string -> Js.promise Response.t) : Network :=
  let lookup (tbl : list (string * (string * Z))) (a : string) :=
    snd <$> list_find (fun e => String.eqb (fst e) a = true) tbl in
  {| getTokenInfos := fun a =>
       match lookup primary a with
       | Some (_, (s, d)) =>
           Js.Resolved {| Token.address := a; Token.symbol := s; Token.decimals := d |}
       | None => Js.Rejected failure
       end;
     alternativeSymbol := fun a =>
       match lookup alternative a with
       | Some (_, (s, _)) => Js.Resolved s
       | None => Js.Rejected failure
       end;
     alternativeDecimals := fun a =>
       match lookup alternative a with
       | Some (_, (_, d)) => Js.Resolved d
       | None => Js.Rejected failure
       end;
     decodeParameters := fun payload =>
       if (Js.strlen payload =? 128)
       then Js.Resolved (Js.slice payload 0 64, Js.slice payload 64 128)
       else Js.Rejected failure;
     getCode := fun _ => Js.Resolved (Some "0x");
     axios_get := fun _ config => history config;
     settlesFirst := fun _ => 0%nat |}.

(** The collaborators [net] when the node rejects every [getCode]
    request. *)
Definition nodeDown (net : Network) : Network :=
  {| getTokenInfos := @getTokenInfos net;
     alternativeSymbol := @alternativeSymbol net;
     alternativeDecimals := @alternativeDecimals net;
     decodeParameters := @decodeParameters net;
     getCode := fun _ => Js.Rejected failure;
     axios_get := @axios_get net;
     settlesFirst := @settlesFirst net |}.

Definition safe : string := "0xSafe".
Definition other : string := "0xOther".
Definition token : string := "0xToken".

Definition getState (known : list string) (_ : unit) : AppState :=
  {| tokens := list_to_map
       (map (fun a => (a, {| Token.address := a; Token.symbol := "TKN";
                             Token.decimals := 2 |})) known) |}.

(** A transaction to [dest] of [amount] with call data [calldata]. *)
Definition rawTx (dest : string) (amount : Z) (calldata : option string)
    : TxServiceModel.t :=
  {| TxServiceModel.to := dest;
     TxServiceModel.value := amount;
     TxServiceModel.data := calldata;
     TxServiceModel.operation := 0;
     TxServiceModel.nonce := Some 1;
     TxServiceModel.blockNumber := None;
     TxServiceModel.safeTxGas := 4;
     TxServiceModel.baseGas := 3;
     TxServiceModel.gasPrice := 0;
     TxServiceModel.gasToken := "0x0000000000000000000000000000000000000000";
     TxServiceModel.refundReceiver := "";
     TxServiceModel.safeTxHash := "0xhash";
     TxServiceModel.submissionDate := None;
     TxServiceModel.executor := "";
     TxServiceModel.executionDate := None;
     TxServiceModel.confirmations := [];
     TxServiceModel.isExecuted := false;
     TxServiceModel.isSuccessful := false;
     TxServiceModel.transactionHash := None;
     TxServiceModel.creationTx := None;
     TxServiceModel.origin := None |}.

(** A transfer of one wei to [other] that refunds in ETH, with the given
    gas fields. *)
Definition pricedTx (price base gas : Z) : TxServiceModel.t :=
  {| TxServiceModel.to := other;
     TxServiceModel.value := 1;
     TxServiceModel.data := None;
     TxServiceModel.operation := 0;
     TxServiceModel.nonce := Some 7;
     TxServiceModel.blockNumber := None;
     TxServiceModel.safeTxGas := gas;
     TxServiceModel.baseGas := base;
     TxServiceModel.gasPrice := price;
     TxServiceModel.gasToken := "0x0000000000000000000000000000000000000000";
     TxServiceModel.refundReceiver := "";
     TxServiceModel.safeTxHash := "0xhash";
     TxServiceModel.submissionDate := None;
     TxServiceModel.executor := "";
     TxServiceModel.executionDate := None;
     TxServiceModel.confirmations := [];
     TxServiceModel.isExecuted := false;
     TxServiceModel.isSuccessful := false;
     TxServiceModel.transactionHash := None;
     TxServiceModel.creationTx := None;
     TxServiceModel.origin := None |}.

(** [transfer(address,uint256)] call data: selector and two words. *)
Definition transferData : string :=
  "0xa9059cbb"
  +:+ "000000000000000000000000aaaaaaaaaaaaaaaaaaaaaaaaaaaaaaaaaaaaaaaa"
  +:+ "0000000000000000000000000000000000000000000000000000000000000064".

Definition multiSendData : string := "0x8d80ff0a00".

End Sample.

(** ** Reading a fee string back

    The inverse of the formatting of lines 96-100, used to state that the
    formatting loses nothing: the digits of the string, the point left
    out, read as one decimal number. *)

Definition digit_of_char (c : ascii) : Z := Z.of_nat (nat_of_ascii c) - 48.

Definition readDigits (s : string) : Z :=
  foldl (fun acc c => acc * 10 + digit_of_char c) 0
        (filter (fun c => c <> "."%char) (Js.chars s)).

(** ** The sidebar

    [src/components/Sidebar/index.jsx], lines 34-78: the filter of the safe
    list and the handlers of the component state.  The effect of lines
    47-51 starts a timer whose callback empties the filter; when the timer
    fires is not part of the embedding, the callback is. *)

Module Sidebar.

(** The strings of the embedding are sequences of bytes, and a string
    made of ASCII characters is the JavaScript string with the same
    characters. *)
Definition isAscii (s : string) : bool :=
  forallb (fun c => (nat_of_ascii c <? 128)%nat) (Js.chars s).

(** [c.toLowerCase()] for a character of an ASCII string. *)
Definition lower_char (c : ascii) : ascii :=
  let n := nat_of_ascii c in
  if ((65 <=? n) && (n <=? 90))%nat then ascii_of_nat (n + 32) else c.

(** [s.toLowerCase()] for an ASCII string [s], where it changes the
    letters [A] to [Z] and nothing else.  Outside ASCII the Unicode case
    mapping of JavaScript is not this function. *)
Definition toLowerCase (s : string) : string :=
  Js.str (map lower_char (Js.chars s)).

(** The two properties of a safe that [filterBy] reads. *)
Record Safe := { address : string; name : string }.

(** Lines 36-39: the predicate handed to [safes.filter]. *)
Definition shown (filter : string) (safe : Safe) : bool :=
  negb (Js.truthy (Some filter))
  || Js.includes (toLowerCase (address safe)) (toLowerCase filter)
  || Js.includes (toLowerCase (name safe)) (toLowerCase filter).

(** Lines 34-40. *)
Definition filterBy (filter : string) (safes : list Safe) : list Safe :=
  base.filter (fun safe => shown filter safe = true) safes.

(** Lines 43-44: the state of the component. *)
Record State := { isOpen : bool; filter : string }.

Definition initial : State := {| isOpen := false; filter := "" |}.

(** Lines 60-62. *)
Definition toggleSidebar (st : State) : State :=
  {| isOpen := negb (isOpen st); filter := filter st |}.

(** Lines 64-66. *)
Definition handleFilterChange (value : string) (st : State) : State :=
  {| isOpen := isOpen st; filter := value |}.

(** Lines 68-70. *)
Definition handleFilterCancel (st : State) : State :=
  {| isOpen := isOpen st; filter := "" |}.

(** Lines 72-76, on [e.keyCode]. *)
Definition handleEsc (keyCode : Z) (st : State) : State :=
  if keyCode =? 27 then toggleSidebar st else st.

(** Line 78. *)
Definition filteredSafes (safes : list Safe) (st : State) : list Safe :=
  filterBy (filter st) safes.

(** What can happen to the component: a key pressed in the drawer, a
    click away from it, on its backdrop, on the add-safe button or on a
    safe of the list, a call of the [toggleSidebar] of the context, text
    typed in the search bar, the search cancelled, and the callback of the
    timer of lines 47-51. *)
Inductive input :=
| KeyDown (keyCode : Z)
| ClickAway
| BackdropClick
| AddSafeClick
| SafeClick
| ContextToggle
| Type_ (value : string)
| CancelSearch
| ResetTimer.

(** Lines 47-51 and 81-123: the handler bound to each input. *)
Definition handle (st : State) (i : input) : State :=
  match i with
  | KeyDown k => handleEsc k st
  | ClickAway | BackdropClick | AddSafeClick | SafeClick | ContextToggle =>
      toggleSidebar st
  | Type_ v => handleFilterChange v st
  | CancelSearch => handleFilterCancel st
  | ResetTimer => handleFilterCancel st
  end.

(** Whether an input toggles the drawer. *)
Definition toggles (i : input) : bool :=
  match i with
  | KeyDown k => k =? 27
  | ClickAway | BackdropClick | AddSafeClick | SafeClick | ContextToggle => true
  | Type_ _ | CancelSearch | ResetTimer => false
  end.

End Sidebar.

(** ** The storage middleware

    The second module of [src/components/Sidebar/index.jsx], lines
    141-234: [recalculateActiveTokens] and [safeStorageMware]. *)

Module SafeStorage.

(** The action types the module imports. *)
Class ActionTypes := {
  ADD_SAFE : string;
  UPDATE_SAFE : string;
  REMOVE_SAFE : string;
  ADD_SAFE_OWNER : string;
  REMOVE_SAFE_OWNER : string;
  REPLACE_SAFE_OWNER : string;
  EDIT_SAFE_OWNER : string;
  ACTIVATE_TOKEN_FOR_ALL_SAFES : string;
  SET_DEFAULT_SAFE : string;
}.

(** Lines 163-173. *)
Definition watchedActions `{ActionTypes} : list string :=
  [ADD_SAFE; UPDATE_SAFE; REMOVE_SAFE; ADD_SAFE_OWNER; REMOVE_SAFE_OWNER;
   REPLACE_SAFE_OWNER; EDIT_SAFE_OWNER; ACTIVATE_TOKEN_FOR_ALL_SAFES;
   SET_DEFAULT_SAFE].

Section Middleware.
(** The Redux state, the JSON of the safes, what [next] returns and an
    owner of a safe are opaque to the module. *)
Variables (GlobalState SafesJSON Handled Owner : Type).

(** What [action.payload] can be: [undefined]; the [{ safe }] of
    [ADD_SAFE], of which [safe.owners.toJS()] is read; the object of
    [UPDATE_SAFE] with the address of the safe, whose [activeTokens] is a
    set when present; the address of [SET_DEFAULT_SAFE]. *)
Inductive payload :=
| NoPayload
| SafePayload (owners : list Owner)
| UpdatePayload (address : string) (activeTokens : option (gset string))
| AddressPayload (address : string).

Record action := { type : string; payload_of : payload }.

(** What the middleware does to the outside, in program order. *)
Inductive effect :=
| Next (a : action)
| SaveSafes (safes : SafesJSON)
| SaveActiveTokens (activeTokens : gmap string Token.t)
| DispatchAddAddressBookEntry (owner : Owner) (isOwner : bool)
| SaveDefaultSafe (p : payload).

(** The selectors, the store and the awaited [saveSafes];
    [safesMapSelector] here gives the [toJSON()] of the selected map, and
    [getState] the state after [next]. *)
Variables
  (tokensSelector : GlobalState -> gmap string Token.t)
  (getActiveTokensAddressesForAllSafes : GlobalState -> gset string)
  (safesMapSelector : GlobalState -> SafesJSON)
  (getState : unit -> GlobalState)
  (next : action -> Handled)
  (saveSafes : SafesJSON -> Js.promise unit).

(** Lines 175-188: the map handed to [saveActiveTokens].  [forEach] runs
    over the entries of [tokens]; each token whose address is not active
    has the key equal to its address removed from the mutable copy. *)
Definition recalculateActiveTokens (state : GlobalState) : gmap string Token.t :=
  let tokens := tokensSelector state in
  let activeTokenAddresses := getActiveTokensAddressesForAllSafes state in
  map_fold (fun _ token map =>
              if decide (Token.address token ∈ activeTokenAddresses) then map
              else delete (Token.address token) map)
           tokens tokens.

(** Truthiness of a payload: [undefined] and the empty string are falsy. *)
Definition truthy_payload (p : payload) : bool :=
  match p with
  | NoPayload => false
  | AddressPayload a => Js.truthy (Some a)
  | _ => true
  end.

(** Lines 199-228: the [switch]; the trace is what follows [saveSafes]. *)
Definition handleWatched `{ActionTypes} (state : GlobalState) (a : action)
    : Js.promise unit * list effect :=
  if String.eqb (type a) ACTIVATE_TOKEN_FOR_ALL_SAFES then
    (Js.Resolved tt, [SaveActiveTokens (recalculateActiveTokens state)])
  else if String.eqb (type a) ADD_SAFE then
    match payload_of a with
    | SafePayload owners =>
        (Js.Resolved tt, map (fun owner => DispatchAddAddressBookEntry owner true) owners)
    | _ => (Js.Rejected (Js.TypeError "Cannot read property 'owners' of undefined"), [])
    end
  else if String.eqb (type a) UPDATE_SAFE then
    match payload_of a with
    | NoPayload =>
        (Js.Rejected (Js.TypeError "Cannot destructure property 'activeTokens'"), [])
    | UpdatePayload _ (Some _) =>
        (Js.Resolved tt, [SaveActiveTokens (recalculateActiveTokens state)])
    | _ => (Js.Resolved tt, [])
    end
  else if String.eqb (type a) SET_DEFAULT_SAFE then
    if truthy_payload (payload_of a)
    then (Js.Resolved tt, [SaveDefaultSafe (payload_of a)])
    else (Js.Resolved tt, [])
  else (Js.Resolved tt, []).

(** Whether an effect is a call of [saveActiveTokens]. *)
Definition savesActiveTokens (e : effect) : bool :=
  match e with
  | SaveActiveTokens _ => true
  | _ => false
  end.

(** Lines 190-232. *)
Definition safeStorageMware `{ActionTypes} (a : action)
    : Js.promise Handled * list effect :=
  let handledAction := next a in
  if existsb (String.eqb (type a)) watchedActions then
    let state := getState tt in
    let safes := safesMapSelector state in
    match saveSafes safes with
    | Js.Rejected e => (Js.Rejected e, [Next a; SaveSafes safes])
    | Js.Resolved _ =>
        let '(outcome, effects) := handleWatched state a in
        (let* _ := outcome in Js.Resolved handledAction,
         [Next a; SaveSafes safes] ++ effects)
    end
  else (Js.Resolved handledAction, [Next a]).

(** [src/routes/safe/store/actions/updateActiveTokens.js], lines 18-22:
    the thunk dispatches the action that [updateSafe] makes of the address
    and the active tokens; it does not wait for what [dispatch] returns.
    [updateSafe] is imported from [./updateSafe]. *)
Definition updateActiveTokens (updateSafe : payload -> action)
    (safeAddress : string) (activeTokens : gset string)
    (dispatch : action -> Js.promise Handled * list effect)
    : Js.promise unit * list effect :=
  (Js.Resolved tt,
   (dispatch (updateSafe (UpdatePayload safeAddress (Some activeTokens)))).2).

End Middleware.

Arguments NoPayload {Owner}.
Arguments SafePayload {Owner} owners.
Arguments UpdatePayload {Owner} address activeTokens.
Arguments AddressPayload {Owner} address.
Arguments Build_action {Owner} type payload_of.
Arguments type {Owner} a.
Arguments payload_of {Owner} a.
Arguments Next {SafesJSON Owner} a.
Arguments SaveSafes {SafesJSON Owner} safes.
Arguments SaveActiveTokens {SafesJSON Owner} activeTokens.
Arguments DispatchAddAddressBookEntry {SafesJSON Owner} owner isOwner.
Arguments SaveDefaultSafe {SafesJSON Owner} p.
Arguments truthy_payload {Owner} p.
Arguments savesActiveTokens {SafesJSON Owner} e.
Arguments recalculateActiveTokens {GlobalState} _ _ state.
Arguments handleWatched {GlobalState SafesJSON Owner} _ _ {_} state a.
Arguments safeStorageMware {GlobalState SafesJSON Handled Owner} _ _ _ _ _ _ {_} a.
Arguments updateActiveTokens {SafesJSON Handled Owner} updateSafe safeAddress activeTokens dispatch.

(** Action types and a store to run the middleware on. *)
Definition sampleTypes : ActionTypes :=
  {| ADD_SAFE := "ADD_SAFE";
     UPDATE_SAFE := "UPDATE_SAFE";
     REMOVE_SAFE := "REMOVE_SAFE";
     ADD_SAFE_OWNER := "ADD_SAFE_OWNER";
     REMOVE_SAFE_OWNER := "REMOVE_SAFE_OWNER";
     REPLACE_SAFE_OWNER := "REPLACE_SAFE_OWNER";
     EDIT_SAFE_OWNER := "EDIT_SAFE_OWNER";
     ACTIVATE_TOKEN_FOR_ALL_SAFES := "ACTIVATE_TOKEN_FOR_ALL_SAFES";
     SET_DEFAULT_SAFE := "SET_DEFAULT_SAFE" |}.

Definition sampleToken (a : string) : Token.t :=
  {| Token.address := a; Token.symbol := "TKN"; Token.decimals := 18 |}.

(** A state that is its token registry and its set of active addresses,
    with two tokens of which only the first is active. *)
Definition sampleState : gmap string Token.t * gset string :=
  (<["0xA" := sampleToken "0xA"]> (<["0xB" := sampleToken "0xB"]> ∅), {["0xA"]}).

(** The middleware on a store in that state: [next] returns the type of
    the action, the JSON of the safes is a list of addresses, an owner is
    its address, and [saveSafes] succeeds. *)
Definition sampleMiddleware (a : action string)
    : Js.promise string * list (effect (list string) string) :=
  safeStorageMware (H := sampleTypes)
    fst snd (fun _ => ["0xSafe"]) (fun _ => sampleState) type
    (fun _ => Js.Resolved tt) a.

End SafeStorage.

(** ** Decimal strings *)

Section DecimalStrings.

Lemma digits_fuel_nonpos (f : nat) (n : Z) : n <= 0 -> Js.digits_fuel f n = [].
Proof.
  intros Hn. destruct f as [|f]; simpl; [reflexivity|].
  destruct (Z.leb_spec n 0); [reflexivity | lia].
Qed.

Lemma digits_fuel_stable (f : nat) :
  forall (n : Z) (f' : nat),
    n < 10 ^ Z.of_nat f -> n < 10 ^ Z.of_nat f' ->
    Js.digits_fuel f n = Js.digits_fuel f' n.
Proof.
  induction f as [|f IH]; intros n f' Hf Hf'.
  - simpl in Hf. rewrite !digits_fuel_nonpos by lia. reflexivity.
  - destruct (Z.leb_spec n 0) as [Hn|Hn].
    + rewrite !digits_fuel_nonpos by lia. reflexivity.
    + destruct f' as [|f']; [simpl in Hf'; lia|].
      simpl. destruct (Z.leb_spec n 0); [lia|].
      f_equal. apply IH.
      * apply Z.div_lt_upper_bound; [lia|].
        rewrite Nat2Z.inj_succ, Z.pow_succ_r in Hf by lia. lia.
      * apply Z.div_lt_upper_bound; [lia|].
        rewrite Nat2Z.inj_succ, Z.pow_succ_r in Hf' by lia. lia.
Qed.

Lemma digits_fuel_bound (n : Z) :
  n < 10 ^ Z.of_nat (S (Z.to_nat (Z.log2 n))).
Proof.
  destruct (Z.leb_spec n 0) as [Hn|Hn].
  - assert (0 < 10 ^ Z.of_nat (S (Z.to_nat (Z.log2 n)))) by (apply Z.pow_pos_nonneg; lia).
    lia.
  - pose proof (Z.log2_spec n Hn) as [_ Hlt].
    pose proof (Z.log2_nonneg n) as Hl.
    rewrite Nat2Z.inj_succ, Z2Nat.id by lia.
    eapply Z.lt_le_trans; [exact Hlt|].
    apply Z.pow_le_mono_l. lia.
Qed.

Lemma digits_nonpos (n : Z) : n <= 0 -> Js.digits n = [].
Proof. intros. unfold Js.digits. apply digits_fuel_nonpos. assumption. Qed.

(** The recursion that [digits] solves. *)
Lemma digits_step (n : Z) :
  0 < n -> Js.digits n = Js.digits (n / 10) ++ [n mod 10].
Proof.
  intros Hn. unfold Js.digits at 1. simpl.
  destruct (Z.leb_spec n 0); [lia|]. f_equal.
  apply digits_fuel_stable.
  - pose proof (digits_fuel_bound n) as Hb.
    rewrite Nat2Z.inj_succ, Z.pow_succ_r in Hb by lia.
    apply Z.div_lt_upper_bound; lia.
  - apply digits_fuel_bound.
Qed.

Lemma fixed_digits_zero (k : nat) : fixed_digits k 0 = replicate k 0.
Proof.
  induction k as [|k IH]; [reflexivity|].
  simpl fixed_digits. rewrite Zdiv_0_l, Zmod_0_l, IH.
  symmetry. apply replicate_S_end.
Qed.

Lemma length_fixed_digits (k : nat) (m : Z) : length (fixed_digits k m) = k.
Proof.
  revert m. induction k as [|k IH]; intros m; [reflexivity|].
  simpl. rewrite length_app, IH. simpl. lia.
Qed.

(** Padding the digits of [n] to [k] places and cutting [k] places from
    the right leaves the digits of the quotient and the [k] digits of the
    remainder. *)
Lemma digits_split (k : nat) :
  forall n : Z, 0 <= n ->
    let padded := replicate (k - length (Js.digits n)) 0 ++ Js.digits n in
    take (length padded - k) padded = Js.digits (n / 10 ^ Z.of_nat k)
    /\ drop (length padded - k) padded = fixed_digits k (n mod 10 ^ Z.of_nat k).
Proof.
  induction k as [|k IH]; intros n Hn padded.
  - subst padded. simpl. rewrite Nat.sub_0_r, Z.div_1_r.
    rewrite firstn_all, skipn_all. split; reflexivity.
  - destruct (Z.eq_dec n 0) as [->|Hnz].
    + subst padded. rewrite digits_nonpos by lia.
      rewrite app_nil_r, length_replicate. simpl length.
      rewrite Nat.sub_0_r, Nat.sub_diag, Zdiv_0_l, Zmod_0_l.
      rewrite digits_nonpos by lia. rewrite fixed_digits_zero.
      split; reflexivity.
    + assert (Hpos : 0 < n) by lia.
      assert (Hq : 0 <= n / 10) by (apply Z.div_pos; lia).
      specialize (IH (n / 10) Hq). cbv zeta in IH.
      set (padded' := replicate (k - length (Js.digits (n / 10))) 0
                        ++ Js.digits (n / 10)) in *.
      assert (Hp : padded = padded' ++ [n mod 10]).
      { subst padded padded'. rewrite (digits_step n Hpos).
        rewrite length_app. simpl length.
        replace (S k - (length (Js.digits (n / 10)) + 1))%nat
          with (k - length (Js.digits (n / 10)))%nat by lia.
        rewrite app_assoc. reflexivity. }
      assert (Hlen : (k <= length padded')%nat).
      { subst padded'. rewrite length_app, length_replicate. lia. }
      destruct IH as [IHt IHd].
      rewrite Hp, length_app. simpl length.
      replace (length padded' + 1 - S k)%nat with (length padded' - k)%nat by lia.
      rewrite take_app_le, drop_app_le by lia.
      rewrite IHt, IHd.
      rewrite Nat2Z.inj_succ, Z.pow_succ_r by lia.
      assert (H10k : 0 < 10 ^ Z.of_nat k) by (apply Z.pow_pos_nonneg; lia).
      assert (Hrem : n mod (10 * 10 ^ Z.of_nat k)
                     = n mod 10 + ((n / 10) mod 10 ^ Z.of_nat k) * 10)
        by (rewrite Z.rem_mul_r; lia).
      pose proof (Z.mod_pos_bound n 10 ltac:(lia)) as Hdigit.
      split.
      * rewrite Z.div_div by lia. reflexivity.
      * simpl fixed_digits. rewrite Hrem. f_equal.
        -- f_equal. rewrite Z.div_add by lia.
           rewrite (Z.div_small (n mod 10) 10) by lia. reflexivity.
        -- f_equal. rewrite Z_mod_plus_full. symmetry. apply Z.mod_mod. lia.
Qed.

Lemma digits_nonempty (n : Z) : 0 < n -> Js.digits n <> [].
Proof.
  intros Hn. rewrite (digits_step n Hn).
  intros Heq. apply app_eq_nil in Heq. destruct Heq as [_ Heq]. discriminate.
Qed.

Lemma strlen_str (l : list ascii) : Js.strlen (Js.str l) = Z.of_nat (length l).
Proof.
  unfold Js.strlen, Js.str. f_equal.
  induction l as [|c l IH]; simpl; [reflexivity | now rewrite IH].
Qed.

Lemma chars_str (l : list ascii) : Js.chars (Js.str l) = l.
Proof. apply list_ascii_of_string_of_list_ascii. Qed.

Lemma str_chars (s : string) : Js.str (Js.chars s) = s.
Proof. apply string_of_list_ascii_of_string. Qed.

Lemma strlen_chars (s : string) : Js.strlen s = Z.of_nat (length (Js.chars s)).
Proof. rewrite <- (str_chars s) at 1. apply strlen_str. Qed.

(** A safe integer is a Number, and is printed with all its digits. *)
Lemma round_double_safe (n : Z) :
  Z.abs n <= Js.MAX_SAFE_INTEGER -> Js.round_double n = n.
Proof.
  intros Hn. unfold Js.round_double.
  destruct (Z.leb_spec (Z.abs n) Js.MAX_SAFE_INTEGER); [reflexivity | lia].
Qed.

Lemma toString_safe (n : Z) :
  Z.abs n <= Js.MAX_SAFE_INTEGER -> Js.toString n = Js.decimal n.
Proof.
  intros Hn. unfold Js.toString, Js.decimal, Js.toString_positive.
  rewrite (round_double_safe n Hn).
  destruct (Z.eqb_spec n 0); [reflexivity|].
  destruct (Z.ltb_spec n 0).
  - destruct (Z.leb_spec (- n) Js.MAX_SAFE_INTEGER); [reflexivity | lia].
  - destruct (Z.leb_spec n Js.MAX_SAFE_INTEGER); [reflexivity | lia].
Qed.

(** Above the safe integers the product is rounded and the printed
    digits are the shortest that are read back as the same Number. *)
Example numbers_above_safe_integers :
  Js.mul 30000000001 500001 = 15000030000500000
  /\ Js.add (2 ^ 53) 1 = 2 ^ 53
  /\ Js.toString (2 ^ 53) = "9007199254740992"
  /\ Js.toString (2 ^ 60) = "1152921504606847000"
  /\ Js.toString (2 ^ 64) = "18446744073709552000"
  /\ Js.toString (10 ^ 21) = "1e+21"
  /\ Js.toString (2 ^ 70) = "1.1805916207174113e+21"
  /\ Js.toString (- (10 ^ 18)) = "-1000000000000000000"
  /\ Js.toString (2 ^ 1024) = "Infinity".
Proof. vm_compute. repeat split. Qed.

(** [formatFee] in terms of the characters of the padded fee string. *)
Lemma formatFee_chars (fee d : Z) :
  0 <= d ->
  let k := Z.to_nat d in
  let cs := Js.chars (Js.toString fee) in
  let fs := replicate (k - length cs) "0"%char ++ cs in
  formatFee fee d =
    Js.or_else (Js.str (take (length fs - k) fs)) "0" +:+ "." +:+
    Js.str (drop (length fs - k) fs).
Proof.
  intros Hd k cs fs. unfold formatFee, Js.padStart.
  fold cs. rewrite (strlen_chars (Js.toString fee)). fold cs.
  replace (Z.to_nat (d - Z.of_nat (length cs))) with (k - length cs)%nat by lia.
  fold fs. unfold Js.slice_from, Js.slice.
  rewrite !strlen_str, !chars_str.
  assert (Hlen : (k <= length fs)%nat).
  { subst fs. rewrite length_app, length_replicate. lia. }
  assert (Hc0 : Js.clamp_index (Z.of_nat (length fs)) 0 = 0).
  { unfold Js.clamp_index. simpl. lia. }
  assert (Hc1 : Js.clamp_index (Z.of_nat (length fs)) (Z.of_nat (length fs) - d)
                = Z.of_nat (length fs - k)).
  { unfold Js.clamp_index.
    destruct (Z.ltb_spec (Z.of_nat (length fs) - d) 0); lia. }
  assert (Hc2 : Js.clamp_index (Z.of_nat (length fs)) (Z.of_nat (length fs))
                = Z.of_nat (length fs)).
  { unfold Js.clamp_index.
    destruct (Z.ltb_spec (Z.of_nat (length fs)) 0); lia. }
  rewrite Hc0, Hc1, Hc2. simpl (Z.to_nat 0). rewrite drop_0.
  rewrite Z.sub_0_r, Nat2Z.id.
  rewrite (take_ge (drop _ _)) by (rewrite length_drop; lia).
  reflexivity.
Qed.

Lemma digit_char_replicate (j : nat) :
  map Js.digit_char (replicate j 0) = replicate j "0"%char.
Proof. induction j as [|j IH]; simpl; [reflexivity | now rewrite IH]. Qed.

Lemma str_nonempty (l : list ascii) : l <> [] -> Js.or_else (Js.str l) "0" = Js.str l.
Proof. destruct l; [congruence | reflexivity]. Qed.

(** The fee string built by lines 96-100 is the fixed-point rendering of
    the fee. *)
Lemma formatFee_decimalRendering (fee d : Z) :
  0 <= fee <= Js.MAX_SAFE_INTEGER -> 0 <= d ->
  formatFee fee d = decimalRendering fee d.
Proof.
  intros [Hfee Hsafe] Hd. rewrite formatFee_chars by assumption. cbv zeta.
  rewrite (toString_safe fee) by lia.
  unfold decimalRendering.
  set (k := Z.to_nat d).
  assert (Hk : d = Z.of_nat k) by lia.
  assert (H10k : 0 < 10 ^ d) by (apply Z.pow_pos_nonneg; lia).
  destruct (Z.eq_dec fee 0) as [->|Hnz].
  - rewrite Zdiv_0_l, Zmod_0_l, fixed_digits_zero, digit_char_replicate.
    change (Js.chars (Js.decimal 0)) with ["0"%char].
    destruct k as [|k']; [reflexivity|].
    assert (Hfs : replicate (S k' - length ["0"%char]) "0"%char ++ ["0"%char]
                  = replicate (S k') "0"%char).
    { simpl length. replace (S k' - 1)%nat with k' by lia.
      symmetry. apply replicate_S_end. }
    rewrite Hfs, length_replicate, Nat.sub_diag. reflexivity.
  - assert (Hpos : 0 < fee) by lia.
    assert (Hcs : Js.chars (Js.decimal fee) = map Js.digit_char (Js.digits fee)).
    { unfold Js.decimal.
      destruct (Z.eqb_spec fee 0); [lia|].
      destruct (Z.ltb_spec fee 0); [lia|]. apply chars_str. }
    rewrite Hcs, length_map, <- digit_char_replicate, <- map_app.
    rewrite length_map, firstn_map, skipn_map.
    destruct (digits_split k fee Hfee) as [Ht Hdr].
    rewrite Ht, Hdr, <- Hk.
    f_equal.
    assert (Hq : 0 <= fee / 10 ^ d) by (apply Z.div_pos; lia).
    destruct (Z.eq_dec (fee / 10 ^ d) 0) as [Hz|Hz].
    + rewrite Hz. reflexivity.
    + rewrite str_nonempty.
      * unfold Js.decimal.
        destruct (Z.eqb_spec (fee / 10 ^ d) 0); [lia|].
        destruct (Z.ltb_spec (fee / 10 ^ d) 0); [lia|]. reflexivity.
      * intros Hmap. apply map_eq_nil in Hmap.
        apply (digits_nonempty (fee / 10 ^ d)); [lia | assumption].
Qed.

End DecimalStrings.

(** ** Grouping *)

Section Grouping.
Context {A : Type}.
Implicit Types (key : A -> string) (l : list A) (m : gmap string (list A)).

Lemma groupBy_fold_lookup key k l :
  forall m,
    foldl (fun m x => <[key x := default [] (m !! key x) ++ [x]]> m) m l !! k =
    match filter (fun x => key x = k) l with
    | [] => m !! k
    | g => Some (default [] (m !! k) ++ g)
    end.
Proof.
  induction l as [|x l IH]; intros m; [reflexivity|].
  simpl foldl. rewrite IH. clear IH.
  destruct (decide (key x = k)) as [Hk|Hk].
  - rewrite filter_cons_True by exact Hk. subst k.
    rewrite lookup_insert_eq. simpl default.
    destruct (filter _ l) as [|y g].
    + reflexivity.
    + rewrite <- app_assoc. reflexivity.
  - rewrite filter_cons_False by exact Hk.
    rewrite lookup_insert_ne by exact Hk. reflexivity.
Qed.

(** [groupBy] is a stable partition: each group is the sub-list of the
    elements with that key, in their original order. *)
Lemma groupBy_lookup key k l : Js.groupBy key l !! k = group_of key k l.
Proof.
  unfold Js.groupBy, group_of. rewrite groupBy_fold_lookup.
  rewrite lookup_empty. destruct (filter _ l); reflexivity.
Qed.

End Grouping.

(** ** Properties of the normalizer *)

Section NormalizerFacts.
Context `{Imports} `{Network}.

Variables (safeAddress : string) (tx : TxServiceModel.t)
          (knownTokens : gmap string Token.t) (code : option string).

(** What a resolved [buildTransactionFrom] went through. *)
Lemma buildTransactionFrom_resolved (r : Transaction.t) :
  buildTransactionFrom safeAddress tx knownTokens code = Js.Resolved r ->
  refundParams_of tx = Js.Resolved (Transaction.refundParams r)
  /\ Transaction.modifySettingsTx r = modifySettingsTx_of safeAddress tx
  /\ Transaction.cancellationTx r = cancellationTx_of safeAddress tx
  /\ Transaction.multiSendTx r = isMultiSendTx_of tx
  /\ Transaction.upgradeTx r = isUpgradeTx_of tx
  /\ Transaction.creationTx r = TxServiceModel.creationTx tx
  /\ ((isSendTokenTx_of tx knownTokens code = true
       /\ (exists dp, decodeTransfer tx = Js.Resolved dp
                      /\ Transaction.decodedParams r = Some dp)
       /\ (Transaction.symbol r, Transaction.decimals r,
           Transaction.isTokenTransfer r, Transaction.customTx r)
          = resolveToken tx (customTx_of safeAddress tx knownTokens code))
      \/ (isSendTokenTx_of tx knownTokens code = false
          /\ Transaction.isTokenTransfer r = false
          /\ Transaction.customTx r = customTx_of safeAddress tx knownTokens code
          /\ Transaction.symbol r = "ETH" /\ Transaction.decimals r = 18
          /\ Transaction.decodedParams r =
             if (modifySettingsTx_of safeAddress tx
                 || customTx_of safeAddress tx knownTokens code)
                && Js.truthy (TxServiceModel.data tx)
             then decodeParamsFromSafeMethod (default "" (TxServiceModel.data tx))
             else None)).
Proof.
  unfold buildTransactionFrom.
  destruct (refundParams_of tx) as [rp|e]; simpl; [|discriminate].
  destruct (isSendTokenTx_of tx knownTokens code) eqn:Hsend.
  - destruct (resolveToken tx _) as [[[sym dec] isSend] custom] eqn:Hres.
    destruct (decodeTransfer tx) as [dp|e]; simpl; [|discriminate].
    intros [= <-]. simpl. repeat split; try reflexivity.
    left. repeat split; eauto.
  - destruct (modifySettingsTx_of safeAddress tx && Js.truthy (TxServiceModel.data tx)) eqn:Hm;
      [|destruct (customTx_of safeAddress tx knownTokens code
                  && Js.truthy (TxServiceModel.data tx)) eqn:Hc];
      simpl; intros [= <-]; simpl; repeat split; try reflexivity;
      right; repeat split; try reflexivity.
    + apply andb_true_iff in Hm as [-> ->]. reflexivity.
    + apply andb_true_iff in Hc as [-> ->]. rewrite orb_true_r. reflexivity.
    + destruct (modifySettingsTx_of safeAddress tx), (customTx_of safeAddress tx knownTokens code),
        (Js.truthy (TxServiceModel.data tx)); simpl in *; congruence.
Qed.

(** A transaction that needs no lookup is always normalized. *)
Lemma buildTransactionFrom_offline :
  TxServiceModel.gasPrice tx <= 0 ->
  isSendTokenTx_of tx knownTokens code = false ->
  exists r, buildTransactionFrom safeAddress tx knownTokens code = Js.Resolved r.
Proof.
  intros Hgas Hsend. unfold buildTransactionFrom, refundParams_of.
  destruct (Z.ltb_spec 0 (TxServiceModel.gasPrice tx)); [lia|]. simpl.
  rewrite Hsend.
  destruct (modifySettingsTx_of safeAddress tx && _);
    [|destruct (customTx_of safeAddress tx knownTokens code && _)];
    simpl; eauto.
Qed.

(** A provisional token transfer is normalized as soon as the refund
    lookup and the decoding of the transfer parameters succeed. *)
Lemma buildTransactionFrom_token (rp : option RefundParams.t) (dp : Js.object) :
  isSendTokenTx_of tx knownTokens code = true ->
  refundParams_of tx = Js.Resolved rp ->
  decodeTransfer tx = Js.Resolved dp ->
  exists r, buildTransactionFrom safeAddress tx knownTokens code = Js.Resolved r.
Proof.
  intros Hsend Hrp Hdp. unfold buildTransactionFrom.
  rewrite Hrp. simpl. rewrite Hsend.
  destruct (resolveToken tx _) as [[[sym dec] isSend] custom].
  rewrite Hdp. simpl. eauto.
Qed.

Lemma resolveToken_primary (customTx : bool) (t : Token.t) :
  getTokenInfos (TxServiceModel.to tx) = Js.Resolved t ->
  resolveToken tx customTx = (Token.symbol t, Token.decimals t, true, customTx).
Proof. intros Hp. unfold resolveToken. rewrite Hp. reflexivity. Qed.

(** Once the primary lookup rejects, the [catch] block of line 123 is
    reached whatever the contract answers to the batch. *)
Lemma resolveToken_rejected (customTx : bool) (e : Js.error) :
  getTokenInfos (TxServiceModel.to tx) = Js.Rejected e ->
  resolveToken tx customTx = ("ETH", 18, false, true).
Proof. intros Hp. unfold resolveToken. rewrite Hp. reflexivity. Qed.

(** After [resolveToken], [isSendTokenTx] and [customTx] are never both
    set when [customTx] started from [customTx_of]. *)
Lemma resolveToken_exclusive (sym : string) (dec : Z) (isSend custom : bool) :
  isSendTokenTx_of tx knownTokens code = true ->
  resolveToken tx (customTx_of safeAddress tx knownTokens code)
    = (sym, dec, isSend, custom) ->
  ~ (isSend = true /\ custom = true).
Proof.
  intros Hsend Hres [Hs Hc]. subst isSend custom.
  assert (Hcust : customTx_of safeAddress tx knownTokens code = false).
  { unfold customTx_of. rewrite Hsend. simpl.
    rewrite !andb_false_r. reflexivity. }
  rewrite Hcust in Hres. unfold resolveToken in Hres.
  destruct (getTokenInfos _); simpl in Hres; congruence.
Qed.

(** Without the token branch the flags are those of lines 77-85. *)
Lemma flags_without_token_branch (r : Transaction.t) :
  isSendTokenTx_of tx knownTokens code = false ->
  buildTransactionFrom safeAddress tx knownTokens code = Js.Resolved r ->
  classificationFlags r =
    [modifySettingsTx_of safeAddress tx; cancellationTx_of safeAddress tx; false;
     isMultiSendTx_of tx; customTx_of safeAddress tx knownTokens code].
Proof.
  intros Hsend Hb.
  apply buildTransactionFrom_resolved in Hb as (_ & Hm & Hc & Hms & _ & _ & Hcase).
  destruct Hcase as [(Hyes & _) | (_ & Htok & Hcust & _)]; [congruence|].
  unfold classificationFlags. rewrite Hm, Hc, Hms, Htok, Hcust. reflexivity.
Qed.

(** A transfer of value to another address without call data, which the
    helpers see neither as a token transfer nor as a multi-send, gets no
    flag at all. *)
Lemma plain_transfer_has_no_flag (r : Transaction.t) :
  sameAddress (TxServiceModel.to tx) safeAddress = false ->
  Js.truthy (TxServiceModel.data tx) = false ->
  isTokenTransfer (TxServiceModel.data tx) (TxServiceModel.value tx) = false ->
  isMultisendTransaction (TxServiceModel.data tx) (TxServiceModel.value tx) = false ->
  buildTransactionFrom safeAddress tx knownTokens code = Js.Resolved r ->
  classificationFlags r = [false; false; false; false; false].
Proof.
  intros Hsame Hdata Htok Hms Hb.
  assert (Hsend : isSendTokenTx_of tx knownTokens code = false).
  { unfold isSendTokenTx_of. rewrite Htok. apply andb_false_r. }
  rewrite (flags_without_token_branch r Hsend Hb).
  unfold modifySettingsTx_of, cancellationTx_of, isMultiSendTx_of, customTx_of.
  rewrite Hsame, Hdata, Hms. reflexivity.
Qed.

End NormalizerFacts.

(** ** Properties of the loop *)

Section PromiseFacts.
Context {A B : Type}.

Variable first : list Js.error -> nat.

Lemma all_resolved (f : A -> Js.promise B) (l : list A) (rs : list B) :
  Js.all first (map f l) = Js.Resolved rs ->
  Forall2 (fun x r => f x = Js.Resolved r) l rs.
Proof.
  unfold Js.all.
  destruct (Js.rejections (map f l)) as [|e es] eqn:Hrej; [|discriminate].
  intros [= <-]. induction l as [|x l IH]; simpl in *; [constructor|].
  destruct (f x) as [b|e] eqn:Hfx; [|discriminate].
  constructor; [assumption | apply IH; assumption].
Qed.

Lemma all_of_resolved (f : A -> Js.promise B) (l : list A) (rs : list B) :
  Forall2 (fun x r => f x = Js.Resolved r) l rs ->
  Js.all first (map f l) = Js.Resolved rs.
Proof.
  intros Hall.
  assert (Hboth : Js.rejections (map f l) = [] /\ Js.values (map f l) = rs).
  { induction Hall as [|x r l rs Hx _ [IHr IHv]]; simpl; [split; reflexivity|].
    rewrite Hx. split; [assumption | now rewrite IHv]. }
  destruct Hboth as [Hr Hv]. unfold Js.all. rewrite Hr, Hv. reflexivity.
Qed.

Lemma rejections_elem (ps : list (Js.promise B)) (e : Js.error) :
  e ∈ Js.rejections ps -> Js.Rejected e ∈ ps.
Proof.
  induction ps as [|p ps IH]; simpl; [intros Hin; inversion Hin|].
  destruct p as [a|e'].
  - intros Hin. right. apply IH, Hin.
  - intros Hin. apply elem_of_cons in Hin as [->|Hin]; [left | right; apply IH, Hin].
Qed.

(** A rejection of [Promise.all] is the rejection of one of the
    promises. *)
Lemma all_rejected (ps : list (Js.promise B)) (e : Js.error) :
  Js.all first ps = Js.Rejected e -> Js.Rejected e ∈ ps.
Proof.
  unfold Js.all.
  destruct (Js.rejections ps) as [|e0 es] eqn:Hrej; [discriminate|].
  intros Heq. injection Heq as <-. apply rejections_elem. rewrite Hrej.
  apply list_elem_of_In.
  assert (Hlt : (Nat.modulo (first (e0 :: es)) (S (length es))
                 < length (e0 :: es))%nat).
  { change (length (e0 :: es)) with (S (length es)).
    apply Nat.mod_upper_bound. discriminate. }
  exact (nth_In (e0 :: es) e0 Hlt).
Qed.

(** [Promise.all] rejects as soon as one of the promises does. *)
Lemma all_of_rejected (ps : list (Js.promise B)) (e : Js.error) :
  Js.Rejected e ∈ ps -> exists e', Js.all first ps = Js.Rejected e'.
Proof.
  intros Hin. unfold Js.all.
  destruct (Js.rejections ps) as [|e0 es] eqn:Hrej; [|eauto].
  exfalso. induction ps as [|p ps IH]; [inversion Hin|].
  apply elem_of_cons in Hin as [<-|Hin]; simpl in Hrej; [discriminate|].
  destruct p; [apply IH; assumption | discriminate].
Qed.

End PromiseFacts.

Section LoopFacts.
Context `{Imports} `{Network}.

Variables (safeAddress : string) (getState : unit -> AppState).

Lemma batchTxTokenRequest_resolved (txs : list TxServiceModel.t)
    (txsWithData : list (TxServiceModel.t * option string)) :
  batchTxTokenRequest txs = Js.Resolved txsWithData ->
  Forall2 (fun tx p => p.1 = tx /\ getCode (TxServiceModel.to tx) = Js.Resolved p.2)
          txs txsWithData.
Proof.
  intros Hb. apply all_resolved in Hb.
  eapply Forall2_impl; [exact Hb|].
  intros tx [tx' code] Hp. simpl in Hp.
  destruct (getCode (TxServiceModel.to tx)) as [c|e]; simpl in Hp; [|discriminate].
  injection Hp as <- <-. split; reflexivity.
Qed.

Lemma normalizeAndGroup_etag (txs : list TxServiceModel.t) (st : ModuleState) :
  prevSaveTransactionsEtag (normalizeAndGroup safeAddress getState txs st).2
  = prevSaveTransactionsEtag st.
Proof.
  unfold normalizeAndGroup.
  destruct (batchTxTokenRequest txs); [|reflexivity].
  destruct (Js.all _); reflexivity.
Qed.

Lemma normalizeAndGroup_not_undefined (txs : list TxServiceModel.t) (st : ModuleState) :
  (normalizeAndGroup safeAddress getState txs st).1 <> Js.Resolved None.
Proof.
  unfold normalizeAndGroup.
  destruct (batchTxTokenRequest txs); [|discriminate].
  destruct (Js.all _); discriminate.
Qed.

(** The continuation always sends the batch of code lookups. *)
Lemma normalizeAndGroup_trace (txs : list TxServiceModel.t) (st : ModuleState) :
  exists evs,
    trace (normalizeAndGroup safeAddress getState txs st).2
    = trace st ++ BatchExecute (map TxServiceModel.to txs) :: evs.
Proof.
  unfold normalizeAndGroup.
  destruct (batchTxTokenRequest txs) as [twd|e]; [|exists []; reflexivity].
  exists (map (fun '(tx, code) => Normalize tx code) twd).
  destruct (Js.all _); simpl; rewrite <- app_assoc; reflexivity.
Qed.

Lemma normalizeAndGroup_resolved (txs : list TxServiceModel.t) (st : ModuleState)
    (out : option SafeTransactionsType) (st' : ModuleState) :
  normalizeAndGroup safeAddress getState txs st = (Js.Resolved out, st') ->
  exists recs,
    Forall2 (normalizes safeAddress getState) txs recs
    /\ out = Some (groupTransactions safeAddress recs).
Proof.
  unfold normalizeAndGroup.
  destruct (batchTxTokenRequest txs) as [twd|e] eqn:Hb; [|discriminate].
  destruct (Js.all _) as [recs|e] eqn:Hall; [|discriminate].
  intros [= <- _]. exists recs. split; [|reflexivity].
  apply batchTxTokenRequest_resolved in Hb. apply all_resolved in Hall.
  clear -Hb Hall. revert recs Hall.
  induction Hb as [|tx [tx' code] txs twd [Htx Hcode] _ IH]; intros recs Hall.
  - inversion Hall. constructor.
  - inversion Hall as [|? r ? recs' Hr Hrest]; subst. simpl in *.
    constructor; [exists code; split; assumption | apply IH; assumption].
Qed.

(** The continuation succeeds when every code lookup and every
    normalization does. *)
Lemma normalizeAndGroup_succeeds (txs : list TxServiceModel.t) (st : ModuleState)
    (recs : list Transaction.t) :
  Forall2 (normalizes safeAddress getState) txs recs ->
  (normalizeAndGroup safeAddress getState txs st).1
  = Js.Resolved (Some (groupTransactions safeAddress recs)).
Proof.
  intros Hn.
  assert (Hex : exists twd,
             batchTxTokenRequest txs = Js.Resolved twd
             /\ Forall2 (fun p r => (let '(tx, code) := p in
                           buildTransactionFrom safeAddress tx (tokens (getState tt)) code)
                                    = Js.Resolved r) twd recs).
  { assert (Hex : exists twd,
               Forall2 (fun tx p =>
                          Js.bind (getCode (TxServiceModel.to tx))
                            (fun code => Js.Resolved (tx, code)) = Js.Resolved p)
                       txs twd
               /\ Forall2 (fun p r => (let '(tx, code) := p in
                             buildTransactionFrom safeAddress tx (tokens (getState tt)) code)
                                      = Js.Resolved r) twd recs).
    { induction Hn as [|tx r txs recs [code [Hc Hb]] _ [twd [IH1 IH2]]].
      - exists []. split; constructor.
      - exists ((tx, code) :: twd). split; constructor; try assumption.
        rewrite Hc. reflexivity. }
    destruct Hex as [twd [H1 H2]]. exists twd. split; [|assumption].
    unfold batchTxTokenRequest. apply all_of_resolved, H1. }
  destruct Hex as [twd [Hb Hall]].
  unfold normalizeAndGroup. rewrite Hb.
  rewrite (all_of_resolved _ _ _ _ Hall). reflexivity.
Qed.

(** A transaction that does not normalize makes the continuation reject. *)
Lemma normalizeAndGroup_rejected (txs : list TxServiceModel.t) (st : ModuleState)
    (tx : TxServiceModel.t) :
  tx ∈ txs ->
  (forall r, ~ normalizes safeAddress getState tx r) ->
  exists e, (normalizeAndGroup safeAddress getState txs st).1 = Js.Rejected e.
Proof.
  intros Hin Hbad.
  destruct (normalizeAndGroup safeAddress getState txs st) as [[out|e] st'] eqn:Hn;
    [|eauto].
  apply normalizeAndGroup_resolved in Hn as (recs & Hf & _).
  apply list_elem_of_lookup in Hin as [i Hi].
  destruct (Forall2_lookup_l _ _ _ _ _ Hf Hi) as (r & _ & Hr).
  destruct (Hbad r Hr).
Qed.

(** The two maps of an output. *)
Lemma groupTransactions_outgoing (recs : list Transaction.t) :
  outgoing (groupTransactions safeAddress recs) !! safeAddress
  = Some (group_of groupKey "outgoing" recs).
Proof. unfold groupTransactions. simpl. rewrite lookup_insert_eq, groupBy_lookup. reflexivity. Qed.

Lemma groupTransactions_cancel (recs : list Transaction.t) :
  cancel (groupTransactions safeAddress recs) !! safeAddress
  = Some (group_of groupKey "cancel" recs).
Proof. unfold groupTransactions. simpl. rewrite lookup_insert_eq, groupBy_lookup. reflexivity. Qed.

Lemma groupKey_outgoing (l : list Transaction.t) :
  filter (fun r => groupKey r = "outgoing") l
  = filter (fun r => Transaction.cancellationTx r = false) l.
Proof.
  apply list_filter_iff. intros r. unfold groupKey.
  destruct (Transaction.cancellationTx r); split; congruence.
Qed.

Lemma groupKey_cancel (l : list Transaction.t) :
  filter (fun r => groupKey r = "cancel") l
  = filter (fun r => Transaction.cancellationTx r = true) l.
Proof.
  apply list_filter_iff. intros r. unfold groupKey.
  destruct (Transaction.cancellationTx r); split; congruence.
Qed.


(** Every resolved, defined output of the loop is the grouping of the
    records of the transactions that reached line 238, in their order. *)
Lemma loadOutgoingTransactions_output (st : ModuleState)
    (out : SafeTransactionsType) (st' : ModuleState) :
  loadOutgoingTransactions safeAddress getState st = (Js.Resolved (Some out), st') ->
  exists recs,
    Forall2 (normalizes safeAddress getState) (fetchedTransactions safeAddress st) recs
    /\ out = groupTransactions safeAddress recs.
Proof.
  unfold loadOutgoingTransactions, fetchedTransactions.
  destruct (axios_get _ _) as [response|err].
  - destruct (0 <? Response.count response).
    + destruct (Js.strict_eq _ _); [discriminate|].
      intros Hn. apply normalizeAndGroup_resolved in Hn as [recs [Hf Ho]].
      injection Ho as ->. eauto.
    + intros Hn. apply normalizeAndGroup_resolved in Hn as [recs [Hf Ho]].
      injection Ho as ->. eauto.
  - destruct (bool_decide _); [discriminate|].
    intros Hn. apply normalizeAndGroup_resolved in Hn as [recs [Hf Ho]].
    injection Ho as ->. eauto.
Qed.

(** When every transaction that reaches line 238 is normalized, the loop
    returns: [undefined] on a not-modified signal, and the grouping of the
    records otherwise. *)
Lemma loadOutgoingTransactions_returns (st : ModuleState)
    (recs : list Transaction.t) :
  Forall2 (normalizes safeAddress getState) (fetchedTransactions safeAddress st) recs ->
  (loadOutgoingTransactions safeAddress getState st).1 = Js.Resolved None
  \/ (loadOutgoingTransactions safeAddress getState st).1
     = Js.Resolved (Some (groupTransactions safeAddress recs)).
Proof.
  unfold loadOutgoingTransactions, fetchedTransactions.
  destruct (axios_get _ _) as [response|err].
  - destruct (0 <? Response.count response).
    + destruct (Js.strict_eq _ _); [left; reflexivity|].
      intros Hn. right. apply normalizeAndGroup_succeeds, Hn.
    + intros Hn. right. apply normalizeAndGroup_succeeds, Hn.
  - destruct (bool_decide _); [left; reflexivity|].
    intros Hn. right. apply normalizeAndGroup_succeeds, Hn.
Qed.

(** The two groups of an output are the records without and with
    [cancellationTx], in the order of the records; an empty group is
    [undefined]. *)
Lemma groupTransactions_groups (recs : list Transaction.t) :
  outgoing (groupTransactions safeAddress recs) !! safeAddress
  = Some (match filter (fun r => Transaction.cancellationTx r = false) recs with
          | [] => None
          | g => Some g
          end)
  /\ cancel (groupTransactions safeAddress recs) !! safeAddress
     = Some (match filter (fun r => Transaction.cancellationTx r = true) recs with
             | [] => None
             | g => Some g
             end).
Proof.
  rewrite groupTransactions_outgoing, groupTransactions_cancel.
  unfold group_of. rewrite groupKey_outgoing, groupKey_cancel. split; reflexivity.
Qed.

End LoopFacts.

(** ** Classification *)

(** C1, as stated, fails.  With the sample collaborators, a plain transfer
    of value to another address without call data gets none of the five
    flags, and a multi-send that is not an upgrade gets both [multiSendTx]
    and [customTx]: in neither record is exactly one flag set. *)
Lemma classification_not_exactly_one :
  let net := Sample.network [] [] (fun _ => Js.Rejected Sample.failure) in
  (exists r,
      @buildTransactionFrom Sample.imports net Sample.safe
        (Sample.rawTx Sample.other 1 None) ∅ None = Js.Resolved r
      /\ classificationFlags r = [false; false; false; false; false]
      /\ ~ exactlyOneFlag r)
  /\ (exists r,
         @buildTransactionFrom Sample.imports net Sample.safe
           (Sample.rawTx Sample.other 0 (Some Sample.multiSendData)) ∅ None
         = Js.Resolved r
         /\ classificationFlags r = [false; false; false; true; true]
         /\ ~ exactlyOneFlag r).
Proof.
  split; eexists; (split; [reflexivity|]); (split; [reflexivity|]);
    unfold exactlyOneFlag; vm_compute; discriminate.
Qed.

(** C1 (amended): in every record produced by [buildTransactionFrom],
    [upgradeTx] implies [multiSendTx], [modifySettingsTx] and
    [cancellationTx] are never both set, and [isTokenTransfer] and
    [customTx] are never both set. *)
Theorem classification_flags `{Imports} `{Network}
    (safeAddress : string) (tx : TxServiceModel.t)
    (knownTokens : gmap string Token.t) (code : option string)
    (r : Transaction.t) :
  buildTransactionFrom safeAddress tx knownTokens code = Js.Resolved r ->
  (Transaction.upgradeTx r = true -> Transaction.multiSendTx r = true)
  /\ ~ (Transaction.modifySettingsTx r = true /\ Transaction.cancellationTx r = true)
  /\ ~ (Transaction.isTokenTransfer r = true /\ Transaction.customTx r = true).
Proof.
  intros Hb.
  apply buildTransactionFrom_resolved in Hb
    as (_ & Hm & Hc & Hms & Hu & _ & Hcase).
  split; [|split].
  - rewrite Hu, Hms. unfold isUpgradeTx_of. intros Hup.
    apply andb_true_iff in Hup as [Hup _]. exact Hup.
  - rewrite Hm, Hc. unfold modifySettingsTx_of, cancellationTx_of.
    destruct (Js.truthy (TxServiceModel.data tx));
      rewrite ?andb_false_r, ?andb_true_r; intros [? ?]; discriminate.
  - destruct Hcase as [(Hsend & _ & Hres) | (_ & Htok & _)].
    + eapply resolveToken_exclusive; [exact Hsend | symmetry; exact Hres].
    + rewrite Htok. intros [? _]. discriminate.
Qed.

Lemma classification_flags_witness :
  let net := Sample.network [] [] (fun _ => Js.Rejected Sample.failure) in
  exists r,
    @buildTransactionFrom Sample.imports net Sample.safe
      (Sample.rawTx Sample.other 0 (Some Sample.multiSendData)) ∅ None = Js.Resolved r
    /\ (Transaction.upgradeTx r = true -> Transaction.multiSendTx r = true)
    /\ ~ (Transaction.modifySettingsTx r = true /\ Transaction.cancellationTx r = true)
    /\ ~ (Transaction.isTokenTransfer r = true /\ Transaction.customTx r = true).
Proof.
  intros net. eexists. split; [reflexivity|].
  apply (@classification_flags Sample.imports net Sample.safe
           (Sample.rawTx Sample.other 0 (Some Sample.multiSendData)) ∅ None).
  reflexivity.
Defined.

(** ** Token resolution *)

(** When the primary lookup fails, and so whatever the secondary lookup
    gives, the record of a provisional token transfer has
    [isTokenTransfer] cleared and [customTx] set, and its decoded
    parameters are those of [decodeTransfer]. *)
Lemma reclassified_transfer `{Imports} `{Network}
    (safeAddress : string) (tx : TxServiceModel.t)
    (knownTokens : gmap string Token.t) (code : option string)
    (e : Js.error) (r : Transaction.t) :
  isSendTokenTx_of tx knownTokens code = true ->
  getTokenInfos (TxServiceModel.to tx) = Js.Rejected e ->
  buildTransactionFrom safeAddress tx knownTokens code = Js.Resolved r ->
  Transaction.isTokenTransfer r = false
  /\ Transaction.customTx r = true
  /\ exists dp, decodeTransfer tx = Js.Resolved dp
                /\ Transaction.decodedParams r = Some dp.
Proof.
  intros Hsend Hp Hb.
  apply buildTransactionFrom_resolved in Hb as (_ & _ & _ & _ & _ & _ & Hcase).
  destruct Hcase as [(_ & Hdp & Hres) | (Hno & _)]; [|congruence].
  rewrite (resolveToken_rejected tx _ e Hp) in Hres.
  injection Hres as _ _ -> ->. auto.
Qed.

(** C2: evaluation at the failing input.  A [transfer] call to a registered
    token whose two metadata lookups fail is reclassified ([isTokenTransfer]
    false, [customTx] true), but its [decodedParams] are the recipient and
    value of the token-transfer decoding, not what
    [decodeParamsFromSafeMethod] gives for the call data. *)
Theorem reclassified_transfer_keeps_transfer_params :
  let net := Sample.network [] [] (fun _ => Js.Rejected Sample.failure) in
  let tx := Sample.rawTx Sample.token 0 (Some Sample.transferData) in
  let knownTokens := tokens (Sample.getState [Sample.token] tt) in
  @isSendTokenTx_of Sample.imports tx knownTokens (Some "0x") = true
  /\ exists r,
      @buildTransactionFrom Sample.imports net Sample.safe tx knownTokens (Some "0x")
      = Js.Resolved r
      /\ Transaction.isTokenTransfer r = false
      /\ Transaction.customTx r = true
      /\ Transaction.decodedParams r =
         Some [("recipient",
                "000000000000000000000000aaaaaaaaaaaaaaaaaaaaaaaaaaaaaaaaaaaaaaaa");
               ("value",
                "0000000000000000000000000000000000000000000000000000000000000064")]
      /\ Transaction.decodedParams r
         <> @decodeParamsFromSafeMethod Sample.imports Sample.transferData.
Proof.
  split; [reflexivity|]. eexists. split; [vm_compute; reflexivity|].
  repeat split; discriminate.
Qed.

(** C4: evaluation of the code where the claim fails.  When the primary
    lookup of a provisional token transfer fails and the contract answers
    both calls of the secondary lookup, the promise of the batch resolves
    to that symbol and those decimals, but line 118 hands this promise to
    [Promise.all], which rejects: the record is not a token transfer, it is
    a custom transaction with symbol ETH and 18 decimals.  Such a record
    exists as soon as the refund lookup and the decoding of the transfer
    parameters succeed. *)
Theorem token_resolution_fallback_lost `{Imports} `{Network}
    (safeAddress : string) (tx : TxServiceModel.t)
    (knownTokens : gmap string Token.t) (code : option string)
    (e : Js.error) (tokenSymbol : string) (tokenDecimals : Z) :
  isSendTokenTx_of tx knownTokens code = true ->
  getTokenInfos (TxServiceModel.to tx) = Js.Rejected e ->
  alternativeSymbol (TxServiceModel.to tx) = Js.Resolved tokenSymbol ->
  alternativeDecimals (TxServiceModel.to tx) = Js.Resolved tokenDecimals ->
  alternativeTokenRequest (TxServiceModel.to tx)
    = Js.Resolved (tokenSymbol, tokenDecimals)
  /\ (forall r,
         buildTransactionFrom safeAddress tx knownTokens code = Js.Resolved r ->
         Transaction.isTokenTransfer r = false
         /\ Transaction.customTx r = true
         /\ Transaction.symbol r = "ETH"
         /\ Transaction.decimals r = 18)
  /\ (forall rp dp,
         refundParams_of tx = Js.Resolved rp ->
         decodeTransfer tx = Js.Resolved dp ->
         exists r, buildTransactionFrom safeAddress tx knownTokens code = Js.Resolved r).
Proof.
  intros Hsend Hp Hs Hd. split; [|split].
  - unfold alternativeTokenRequest. rewrite Hs, Hd. reflexivity.
  - intros r Hb.
    apply buildTransactionFrom_resolved in Hb as (_ & _ & _ & _ & _ & _ & Hcase).
    destruct Hcase as [(_ & _ & Hres) | (Hno & _)]; [|congruence].
    rewrite (resolveToken_rejected tx _ e Hp) in Hres.
    injection Hres as -> -> -> ->. auto.
  - intros rp dp Hrp Hdp. eapply buildTransactionFrom_token; eassumption.
Qed.

Lemma token_resolution_fallback_lost_witness :
  let net := Sample.network [] [(Sample.token, ("ALT", 6))]
               (fun _ => Js.Rejected Sample.failure) in
  let tx := Sample.rawTx Sample.token 0 (Some Sample.transferData) in
  let knownTokens := tokens (Sample.getState [Sample.token] tt) in
  @alternativeTokenRequest net Sample.token = Js.Resolved ("ALT", 6)
  /\ exists r,
      @buildTransactionFrom Sample.imports net Sample.safe tx knownTokens (Some "0x")
      = Js.Resolved r
      /\ Transaction.isTokenTransfer r = false
      /\ Transaction.customTx r = true
      /\ Transaction.symbol r = "ETH"
      /\ Transaction.decimals r = 18.
Proof.
  intros net tx knownTokens.
  pose proof (@token_resolution_fallback_lost Sample.imports net Sample.safe tx
                knownTokens (Some "0x") Sample.failure "ALT" 6
                eq_refl eq_refl eq_refl eq_refl) as (Hreq & Hrec & _).
  split; [exact Hreq|].
  eexists. split; [vm_compute; reflexivity|].
  apply Hrec. vm_compute; reflexivity.
Defined.

(** ** Refund parameters *)

Section RefundFacts.
Context `{Imports} `{Network}.
Import TxServiceModel.

Lemma refundParams_of_free (tx : TxServiceModel.t) :
  gasPrice tx <= 0 -> refundParams_of tx = Js.Resolved None.
Proof.
  intros Hg. unfold refundParams_of.
  destruct (Z.ltb_spec 0 (gasPrice tx)); [lia | reflexivity].
Qed.

(** With a gas price, the refund is in ETH with 18 decimals for the zero
    address and in the gas token otherwise. *)
Lemma refundParams_of_priced (tx : TxServiceModel.t) (rp : option RefundParams.t) :
  0 < gasPrice tx ->
  refundParams_of tx = Js.Resolved rp ->
  exists refundSymbol refundDecimals,
    ((gasToken tx = ZERO_ADDRESS /\ refundSymbol = "ETH" /\ refundDecimals = 18)
     \/ (gasToken tx <> ZERO_ADDRESS
         /\ exists t, getTokenInfos (gasToken tx) = Js.Resolved t
                      /\ refundSymbol = Token.symbol t
                      /\ refundDecimals = Token.decimals t))
    /\ rp = Some {| RefundParams.fee :=
                      formatFee (Js.mul (gasPrice tx)
                                   (Js.add (baseGas tx) (safeTxGas tx)))
                        refundDecimals;
                    RefundParams.symbol := refundSymbol |}.
Proof.
  intros Hg. unfold refundParams_of.
  destruct (Z.ltb_spec 0 (gasPrice tx)); [|lia].
  destruct (String.eqb_spec (gasToken tx) ZERO_ADDRESS) as [Hz|Hz]; simpl.
  - intros [= <-]. exists "ETH", 18. split; [left; auto | reflexivity].
  - destruct (getTokenInfos (gasToken tx)) as [t|e] eqn:Ht; simpl; [|discriminate].
    intros [= <-]. exists (Token.symbol t), (Token.decimals t).
    split; [right; eauto | reflexivity].
Qed.

(** As long as the fee is a safe integer, line 96 computes it exactly. *)
Lemma fee_exact (g b s : Z) :
  0 < g -> 0 <= g * (b + s) <= Js.MAX_SAFE_INTEGER ->
  Js.mul g (Js.add b s) = g * (b + s).
Proof.
  intros Hg Hfee. unfold Js.mul, Js.add.
  assert (Hsum : 0 <= b + s <= Js.MAX_SAFE_INTEGER) by nia.
  rewrite (round_double_safe (b + s)) by lia.
  apply round_double_safe. lia.
Qed.

End RefundFacts.

(** C5, as stated, fails.  A gas price of 30000000001 wei and 500001 units
    of gas make a fee of 15000030000500001 wei, which is not a Number: the
    product of line 96 is the Number next to it, and the fee string ends in
    0 where the decimal rendering of the fee ends in 1. *)
Lemma refund_fee_not_decimal_rendering :
  let net := Sample.network [] [] (fun _ => Js.Rejected Sample.failure) in
  let tx := Sample.pricedTx 30000000001 1 500000 in
  30000000001 * (1 + 500000) = 15000030000500001
  /\ decimalRendering 15000030000500001 18 = "0.015000030000500001"
  /\ exists r rp,
      @buildTransactionFrom Sample.imports net Sample.safe tx ∅ None = Js.Resolved r
      /\ Transaction.refundParams r = Some rp
      /\ RefundParams.symbol rp = "ETH"
      /\ RefundParams.fee rp = "0.015000030000500000"
      /\ RefundParams.fee rp
         <> decimalRendering
              (TxServiceModel.gasPrice tx
               * (TxServiceModel.baseGas tx + TxServiceModel.safeTxGas tx)) 18.
Proof.
  split; [reflexivity|]. split; [vm_compute; reflexivity|].
  eexists. eexists. split; [vm_compute; reflexivity|].
  split; [reflexivity|]. split; [reflexivity|]. split; [reflexivity|].
  vm_compute. discriminate.
Qed.

(** C5: the record has refund parameters exactly when the gas price is
    positive; their fee is the string of lines 96-100 for
    gasPrice * (baseGas + safeTxGas) and the decimals of the refund token
    (18 and "ETH" for the zero address), the product and the sum being
    those of Numbers; when gasPrice * (baseGas + safeTxGas) is a
    non-negative safe integer and the decimals are not negative, this is
    the fixed-point rendering of that integer; with gas price 2, base gas
    3, safe-tx gas 4 and 2 decimals the fee is 14 and reads "0.14". *)
Theorem refund_params `{Imports} `{Network}
    (safeAddress : string) (tx : TxServiceModel.t)
    (knownTokens : gmap string Token.t) (code : option string)
    (r : Transaction.t) :
  buildTransactionFrom safeAddress tx knownTokens code = Js.Resolved r ->
  let fee := TxServiceModel.gasPrice tx
             * (TxServiceModel.baseGas tx + TxServiceModel.safeTxGas tx) in
  let product := Js.mul (TxServiceModel.gasPrice tx)
                   (Js.add (TxServiceModel.baseGas tx)
                           (TxServiceModel.safeTxGas tx)) in
  (Transaction.refundParams r <> None <-> 0 < TxServiceModel.gasPrice tx)
  /\ (forall rp,
         Transaction.refundParams r = Some rp ->
         exists refundSymbol refundDecimals,
           ((TxServiceModel.gasToken tx = ZERO_ADDRESS
             /\ refundSymbol = "ETH" /\ refundDecimals = 18)
            \/ (TxServiceModel.gasToken tx <> ZERO_ADDRESS
                /\ exists t, getTokenInfos (TxServiceModel.gasToken tx) = Js.Resolved t
                             /\ refundSymbol = Token.symbol t
                             /\ refundDecimals = Token.decimals t))
           /\ RefundParams.symbol rp = refundSymbol
           /\ RefundParams.fee rp = formatFee product refundDecimals
           /\ (0 <= fee <= Js.MAX_SAFE_INTEGER -> 0 <= refundDecimals ->
               product = fee
               /\ RefundParams.fee rp = decimalRendering fee refundDecimals)
           /\ (TxServiceModel.gasPrice tx = 2 -> TxServiceModel.baseGas tx = 3 ->
               TxServiceModel.safeTxGas tx = 4 -> refundDecimals = 2 ->
               fee = 14 /\ RefundParams.fee rp = "0.14")).
Proof.
  intros Hb fee product.
  apply buildTransactionFrom_resolved in Hb as (Hrp & _).
  destruct (Z.ltb_spec 0 (TxServiceModel.gasPrice tx)) as [Hg|Hg].
  - destruct (refundParams_of_priced tx _ Hg Hrp) as (sym & dec & Hsrc & Heq).
    split.
    + rewrite Heq. split; [intros _; exact Hg | intros _; discriminate].
    + intros rp Hsome. rewrite Heq in Hsome. injection Hsome as <-.
      exists sym, dec. simpl. fold product.
      split; [exact Hsrc|]. split; [reflexivity|]. split; [reflexivity|]. split.
      * intros Hfee Hdec.
        assert (Hexact : product = fee) by (apply fee_exact; assumption).
        split; [exact Hexact|]. rewrite Hexact.
        apply formatFee_decimalRendering; assumption.
      * intros Hgp Hbg Hsg ->. subst fee product. rewrite Hgp, Hbg, Hsg.
        split; reflexivity.
  - rewrite (refundParams_of_free tx Hg) in Hrp. injection Hrp as Hnone.
    split.
    + rewrite <- Hnone. split; [congruence | lia].
    + intros rp Hsome. congruence.
Qed.

Lemma refund_params_witness :
  let net := Sample.network [(Sample.token, ("TKN", 2))] []
               (fun _ => Js.Rejected Sample.failure) in
  let tx :=
    {| TxServiceModel.to := Sample.other;
       TxServiceModel.value := 1;
       TxServiceModel.data := None;
       TxServiceModel.operation := 0;
       TxServiceModel.nonce := Some 7;
       TxServiceModel.blockNumber := None;
       TxServiceModel.safeTxGas := 4;
       TxServiceModel.baseGas := 3;
       TxServiceModel.gasPrice := 2;
       TxServiceModel.gasToken := Sample.token;
       TxServiceModel.refundReceiver := "";
       TxServiceModel.safeTxHash := "0xhash";
       TxServiceModel.submissionDate := None;
       TxServiceModel.executor := "";
       TxServiceModel.executionDate := None;
       TxServiceModel.confirmations := [];
       TxServiceModel.isExecuted := false;
       TxServiceModel.isSuccessful := false;
       TxServiceModel.transactionHash := None;
       TxServiceModel.creationTx := None;
       TxServiceModel.origin := None |} in
  exists r,
    @buildTransactionFrom Sample.imports net Sample.safe tx ∅ None = Js.Resolved r
    /\ Transaction.refundParams r
       = Some {| RefundParams.fee := "0.14"; RefundParams.symbol := "TKN" |}
    /\ (Transaction.refundParams r <> None <-> 0 < 2).
Proof.
  intros net tx. eexists. split; [vm_compute; reflexivity|].
  split; [reflexivity|].
  apply (@refund_params Sample.imports net Sample.safe tx ∅ None).
  vm_compute; reflexivity.
Defined.

(** ** Cancellations and the partition *)

(** C6: a transaction to the wallet itself with zero value and no call
    data is normalized with [cancellationTx] set.  In every output of the
    loop the two groups are the records, without and with
    [cancellationTx], of the transactions that reached line 238 (the seed,
    followed by the fetched results when there are new ones), in the order
    of these transactions; the record of such a transaction to the wallet
    itself is in the [cancel] group; and of three records, the second being
    a cancellation, the [outgoing] group is the first and the third in that
    order.  The loop gives such an output, or [undefined] on a not-modified
    signal, whenever all these transactions are normalized. *)
Theorem cancellation_partition `{Imports} `{Network}
    (safeAddress : string) (getState : unit -> AppState) :
  (forall tx knownTokens code r,
      sameAddress (TxServiceModel.to tx) safeAddress = true ->
      TxServiceModel.value tx = 0 ->
      Js.truthy (TxServiceModel.data tx) = false ->
      buildTransactionFrom safeAddress tx knownTokens code = Js.Resolved r ->
      Transaction.cancellationTx r = true)
  /\ (forall st out st',
         loadOutgoingTransactions safeAddress getState st = (Js.Resolved (Some out), st') ->
         exists recs,
           Forall2 (normalizes safeAddress getState)
                   (fetchedTransactions safeAddress st) recs
           /\ outgoing out !! safeAddress
              = Some (match filter (fun r => Transaction.cancellationTx r = false) recs with
                      | [] => None
                      | g => Some g
                      end)
           /\ cancel out !! safeAddress
              = Some (match filter (fun r => Transaction.cancellationTx r = true) recs with
                      | [] => None
                      | g => Some g
                      end)
           /\ (forall (i : nat) tx r,
                  fetchedTransactions safeAddress st !! i = Some tx ->
                  recs !! i = Some r ->
                  sameAddress (TxServiceModel.to tx) safeAddress = true ->
                  TxServiceModel.value tx = 0 ->
                  Js.truthy (TxServiceModel.data tx) = false ->
                  Transaction.cancellationTx r = true
                  /\ exists g, cancel out !! safeAddress = Some (Some g) /\ r ∈ g)
           /\ (forall r1 r2 r3,
                  recs = [r1; r2; r3] ->
                  Transaction.cancellationTx r1 = false ->
                  Transaction.cancellationTx r2 = true ->
                  Transaction.cancellationTx r3 = false ->
                  outgoing out !! safeAddress = Some (Some [r1; r3])
                  /\ cancel out !! safeAddress = Some (Some [r2])))
  /\ (forall st recs,
         Forall2 (normalizes safeAddress getState)
                 (fetchedTransactions safeAddress st) recs ->
         (loadOutgoingTransactions safeAddress getState st).1 = Js.Resolved None
         \/ exists out,
              (loadOutgoingTransactions safeAddress getState st).1
              = Js.Resolved (Some out)
              /\ outgoing out !! safeAddress
                 = Some (match filter (fun r => Transaction.cancellationTx r = false)
                                      recs with
                         | [] => None
                         | g => Some g
                         end)
              /\ cancel out !! safeAddress
                 = Some (match filter (fun r => Transaction.cancellationTx r = true)
                                      recs with
                         | [] => None
                         | g => Some g
                         end)).
Proof.
  assert (Hflag : forall tx knownTokens code r,
             sameAddress (TxServiceModel.to tx) safeAddress = true ->
             TxServiceModel.value tx = 0 ->
             Js.truthy (TxServiceModel.data tx) = false ->
             buildTransactionFrom safeAddress tx knownTokens code = Js.Resolved r ->
             Transaction.cancellationTx r = true).
  { intros tx knownTokens code r Hsame Hval Hdata Hb.
    apply buildTransactionFrom_resolved in Hb as (_ & _ & -> & _).
    unfold cancellationTx_of. rewrite Hsame, Hval, Hdata. reflexivity. }
  split; [exact Hflag | split].
  - intros st out st' Hl.
    apply loadOutgoingTransactions_output in Hl as (recs & Hf & ->).
    destruct (groupTransactions_groups safeAddress recs) as [Hout Hcan].
    exists recs. split; [exact Hf|]. split; [exact Hout|]. split; [exact Hcan|].
    split.
    + intros i tx r Htx Hr Hsame Hval Hdata.
      destruct (Forall2_lookup_lr _ _ _ _ _ _ Hf Htx Hr) as (code & _ & Hb).
      assert (Hc : Transaction.cancellationTx r = true)
        by (eapply Hflag; eassumption).
      split; [exact Hc|]. rewrite Hcan.
      assert (Hmem : r ∈ filter (fun r => Transaction.cancellationTx r = true) recs).
      { apply list_elem_of_filter. split; [exact Hc|].
        eapply list_elem_of_lookup_2. exact Hr. }
      destruct (filter (fun r => Transaction.cancellationTx r = true) recs)
        as [|x g]; [inversion Hmem | eauto].
    + intros r1 r2 r3 -> H1 H2 H3. rewrite Hout, Hcan.
      rewrite !filter_cons, filter_nil. rewrite H1, H2, H3. split; reflexivity.
  - intros st recs Hf.
    destruct (loadOutgoingTransactions_returns safeAddress getState st recs Hf)
      as [Hu|Hr]; [left; exact Hu | right].
    exists (groupTransactions safeAddress recs). split; [exact Hr|].
    apply groupTransactions_groups.
Qed.

Lemma cancellation_partition_witness :
  let response :=
    {| Response.count := 2;
       Response.results := [Sample.rawTx Sample.safe 0 None;
                            Sample.rawTx Sample.other 1 None];
       Response.etag := Js.Str "abc" |} in
  let net := Sample.network [] [] (fun _ => Js.Resolved response) in
  exists out st' (recs : list Transaction.t) c,
    @loadOutgoingTransactions Sample.imports net Sample.safe (Sample.getState [])
      initialState = (Js.Resolved (Some out), st')
    /\ @fetchedTransactions Sample.imports net Sample.safe initialState
       = [Sample.creationRecord; Sample.rawTx Sample.safe 0 None;
          Sample.rawTx Sample.other 1 None]
    /\ recs !! 1%nat = Some c
    /\ Transaction.cancellationTx c = true
    /\ exists g, cancel out !! Sample.safe = Some (Some g) /\ c ∈ g.
Proof.
  intros response net.
  destruct (@loadOutgoingTransactions Sample.imports net Sample.safe
              (Sample.getState []) initialState) as [[[out|]|e] st'] eqn:Hl;
    [|vm_compute in Hl; discriminate|vm_compute in Hl; discriminate].
  destruct (proj1 (proj2 (@cancellation_partition Sample.imports net Sample.safe
                            (Sample.getState []))) initialState out st' Hl)
    as (recs & Hf & _ & _ & Hplaced & _).
  assert (Htx : @fetchedTransactions Sample.imports net Sample.safe initialState
                !! 1%nat = Some (Sample.rawTx Sample.safe 0 None)) by reflexivity.
  destruct (Forall2_lookup_l _ _ _ _ _ Hf Htx) as (c & Hc & _).
  destruct (Hplaced 1%nat _ c Htx Hc eq_refl eq_refl eq_refl) as [Hflag Hg].
  exists out, st', recs, c. split; [reflexivity|]. split; [reflexivity|].
  split; [exact Hc|]. split; [exact Hflag | exact Hg].
Defined.

(** ** The fetch loop *)

(** C3, as stated, fails.  The stored ETag is "abc" and the history
    service answers with the same ETag and a count of zero: the loop does
    not return [undefined]; it sends the batch of code lookups, normalizes
    the genesis record and returns an output. *)
Lemma same_etag_empty_history_not_short_circuited :
  let response :=
    {| Response.count := 0; Response.results := []; Response.etag := Js.Str "abc" |} in
  let net := Sample.network [] [] (fun _ => Js.Resolved response) in
  let st := {| prevSaveTransactionsEtag := Js.Str "abc"; trace := [] |} in
  let result :=
    @loadOutgoingTransactions Sample.imports net Sample.safe (Sample.getState []) st in
  Js.strict_eq (prevSaveTransactionsEtag st) (Response.etag response) = true
  /\ result.1 <> Js.Resolved None
  /\ (exists out, result.1 = Js.Resolved (Some out))
  /\ trace result.2
     = [HttpGet "/safes/0xSafe/transactions" (Some "abc");
        BatchExecute [""];
        Normalize Sample.creationRecord (Some "0x")].
Proof.
  cbv zeta. split; [reflexivity|].
  split; [vm_compute; discriminate|].
  split; [eexists; vm_compute; reflexivity|].
  vm_compute; reflexivity.
Qed.

(** C3 (amended): when the history response reports a positive count and
    carries an ETag strictly equal to the stored one, or when the request
    fails with status 304, the loop returns [undefined]; the request is its
    only event, so no batch of code lookups is sent and no transaction is
    normalized, and the stored ETag is unchanged. *)
Theorem etag_short_circuit `{Imports} `{Network}
    (safeAddress : string) (getState : unit -> AppState) (st : ModuleState) :
  let url := buildTxServiceUrl safeAddress in
  let config := requestConfig (prevSaveTransactionsEtag st) in
  (exists response,
      axios_get url config = Js.Resolved response
      /\ 0 < Response.count response
      /\ Js.strict_eq (prevSaveTransactionsEtag st) (Response.etag response) = true)
  \/ (exists err,
         axios_get url config = Js.Rejected err
         /\ Js.response_status err = Some 304) ->
  loadOutgoingTransactions safeAddress getState st
  = (Js.Resolved None, emit [HttpGet url config] st).
Proof.
  intros url config Hcase. unfold loadOutgoingTransactions.
  fold url. fold config.
  destruct Hcase as [(response & Hget & Hcount & Heq) | (err & Hget & Hstatus)];
    rewrite Hget.
  - destruct (Z.ltb_spec 0 (Response.count response)); [|lia].
    simpl prevSaveTransactionsEtag. rewrite Heq. reflexivity.
  - rewrite bool_decide_eq_true_2 by exact Hstatus. reflexivity.
Qed.

Lemma etag_short_circuit_witness :
  let response :=
    {| Response.count := 1;
       Response.results := [Sample.rawTx Sample.other 1 None];
       Response.etag := Js.Str "abc" |} in
  let net := Sample.network [] [] (fun _ => Js.Resolved response) in
  let st := {| prevSaveTransactionsEtag := Js.Str "abc"; trace := [] |} in
  @loadOutgoingTransactions Sample.imports net Sample.safe (Sample.getState []) st
  = (Js.Resolved None,
     {| prevSaveTransactionsEtag := Js.Str "abc";
        trace := [HttpGet "/safes/0xSafe/transactions" (Some "abc")] |}).
Proof.
  intros response net st.
  apply (@etag_short_circuit Sample.imports net Sample.safe (Sample.getState []) st).
  left. exists response. split; [reflexivity|]. split; reflexivity.
Defined.

(** The same on a request that fails with status 304. *)
Example not_modified_status_returns_undefined :
  let net := Sample.network [] [] (fun _ => Js.Rejected Sample.notModified) in
  @loadOutgoingTransactions Sample.imports net Sample.safe (Sample.getState [])
    initialState
  = (Js.Resolved None,
     {| prevSaveTransactionsEtag := Js.Null;
        trace := [HttpGet "/safes/0xSafe/transactions" None] |}).
Proof. vm_compute. reflexivity. Qed.



Section SeedFacts.
Context `{Imports} `{Network}.

(** A seed of one record that normalizes. *)
Lemma single_seed_normalizes (safeAddress : string) (getState : unit -> AppState)
    (g : TxServiceModel.t) (code : option string) (r : Transaction.t) :
  getCode (TxServiceModel.to g) = Js.Resolved code ->
  buildTransactionFrom safeAddress g (tokens (getState tt)) code = Js.Resolved r ->
  Forall2 (normalizes safeAddress getState) [g] [r].
Proof.
  intros Hc Hb. constructor; [|constructor]. exists code. split; assumption.
Qed.

Lemma singleton_dom (safeAddress : string) (v : option (list Transaction.t)) :
  dom (<[safeAddress := v]> (∅ : gmap string (option (list Transaction.t))))
  = {[safeAddress]}.
Proof. rewrite dom_insert_L, dom_empty_L. apply union_empty_r_L. Qed.



End SeedFacts.

(** C7: when the history response succeeds without any transaction, the
    loop returns an output whose [outgoing] group for the wallet is the one
    record of the synthetic creation transaction: for a seed of one record
    whose code lookup and normalization succeed and which is not a
    cancellation, that group is exactly the normalized seed record, which
    keeps the [creationTx] mark of the seed. *)
Theorem genesis_seed_present `{Imports} `{Network}
    (safeAddress : string) (getState : unit -> AppState) (st : ModuleState)
    (response : Response.t) (g : TxServiceModel.t) (code : option string)
    (r : Transaction.t) :
  axios_get (buildTxServiceUrl safeAddress)
            (requestConfig (prevSaveTransactionsEtag st)) = Js.Resolved response ->
  Response.count response = 0 ->
  addMockSafeCreationTx safeAddress = [g] ->
  getCode (TxServiceModel.to g) = Js.Resolved code ->
  buildTransactionFrom safeAddress g (tokens (getState tt)) code = Js.Resolved r ->
  Transaction.cancellationTx r = false ->
  exists out,
    (loadOutgoingTransactions safeAddress getState st).1 = Js.Resolved (Some out)
    /\ outgoing out !! safeAddress = Some (Some [r])
    /\ Transaction.creationTx r = TxServiceModel.creationTx g.
Proof.
  intros Hget Hcount Hseed Hcode Hb Hnc.
  exists (groupTransactions safeAddress [r]). split; [|split].
  - unfold loadOutgoingTransactions. rewrite Hget, Hcount, Hseed. simpl.
    apply normalizeAndGroup_succeeds.
    eapply single_seed_normalizes; eassumption.
  - rewrite groupTransactions_outgoing. unfold group_of.
    rewrite groupKey_outgoing, filter_cons_True by exact Hnc. reflexivity.
  - apply buildTransactionFrom_resolved in Hb as (_ & _ & _ & _ & _ & Hcr & _).
    exact Hcr.
Qed.

Lemma genesis_seed_present_witness :
  let response :=
    {| Response.count := 0; Response.results := []; Response.etag := Js.Undefined |} in
  let net := Sample.network [] [] (fun _ => Js.Resolved response) in
  exists r out,
    @buildTransactionFrom Sample.imports net Sample.safe Sample.creationRecord
      ∅ (Some "0x") = Js.Resolved r
    /\ (@loadOutgoingTransactions Sample.imports net Sample.safe (Sample.getState [])
          initialState).1 = Js.Resolved (Some out)
    /\ outgoing out !! Sample.safe = Some (Some [r])
    /\ Transaction.creationTx r = Some true.
Proof.
  intros response net.
  destruct (@buildTransactionFrom Sample.imports net Sample.safe Sample.creationRecord
              ∅ (Some "0x")) as [r|e] eqn:Hb; [|vm_compute in Hb; discriminate].
  exists r.
  assert (Hnc : Transaction.cancellationTx r = false)
    by (vm_compute in Hb; injection Hb as <-; reflexivity).
  destruct (@genesis_seed_present Sample.imports net Sample.safe (Sample.getState [])
              initialState response Sample.creationRecord (Some "0x") r
              eq_refl eq_refl eq_refl eq_refl Hb Hnc) as (out & Hout & Hgroup & Hcr).
  exists out. split; [reflexivity|]. split; [exact Hout|]. split; [exact Hgroup|].
  exact Hcr.
Defined.

(** C8, as stated, fails.  The history request fails with a network
    error without status and the node rejects the code lookup of the
    genesis record: the failure of the request is logged, and the loop, whose
    lines 238-244 are outside the [try] block, rejects to its caller. *)
Lemma fetch_failure_can_throw :
  let net := Sample.nodeDown
               (Sample.network [] [] (fun _ => Js.Rejected Sample.failure)) in
  let result :=
    @loadOutgoingTransactions Sample.imports net Sample.safe (Sample.getState [])
      initialState in
  @axios_get net (@buildTxServiceUrl Sample.imports Sample.safe) None
  = Js.Rejected Sample.failure
  /\ Js.response_status Sample.failure <> Some 304
  /\ ConsoleError (@failureMessage Sample.safe) Sample.failure ∈ trace result.2
  /\ (exists e, result.1 = Js.Rejected e)
  /\ ~ (exists out, result.1 = Js.Resolved out).
Proof.
  intros net result. split; [reflexivity|]. split; [discriminate|].
  split; [vm_compute; set_solver|]. split.
  - eexists. vm_compute. reflexivity.
  - intros [out Hout]. vm_compute in Hout. discriminate.
Qed.

(** C8 (amended): when the history request fails with anything but status
    304, the failure is passed to [console.error], the stored ETag is
    unchanged and the loop goes on with the genesis seed alone.  It then
    returns an output as soon as the code lookup and the normalization of
    the seed succeed: the two groups are the records of the seed without
    and with [cancellationTx], so that for a seed of one record that is not
    a cancellation the [outgoing] group is that record and the [cancel]
    group is [undefined].  When a record of the seed has no normalization,
    the loop rejects to its caller. *)
Theorem fetch_failure_degrades `{Imports} `{Network}
    (safeAddress : string) (getState : unit -> AppState) (st : ModuleState)
    (err : Js.error) :
  let url := buildTxServiceUrl safeAddress in
  let config := requestConfig (prevSaveTransactionsEtag st) in
  let seed := addMockSafeCreationTx safeAddress in
  let result := loadOutgoingTransactions safeAddress getState st in
  axios_get url config = Js.Rejected err ->
  Js.response_status err <> Some 304 ->
  ConsoleError (failureMessage safeAddress) err ∈ trace result.2
  /\ prevSaveTransactionsEtag result.2 = prevSaveTransactionsEtag st
  /\ result.1 <> Js.Resolved None
  /\ fetchedTransactions safeAddress st = seed
  /\ (forall recs,
         Forall2 (normalizes safeAddress getState) seed recs ->
         exists out,
           result.1 = Js.Resolved (Some out)
           /\ dom (outgoing out) = {[safeAddress]}
           /\ dom (cancel out) = {[safeAddress]}
           /\ outgoing out !! safeAddress
              = Some (match filter (fun r => Transaction.cancellationTx r = false)
                                   recs with
                      | [] => None
                      | g => Some g
                      end)
           /\ cancel out !! safeAddress
              = Some (match filter (fun r => Transaction.cancellationTx r = true)
                                   recs with
                      | [] => None
                      | g => Some g
                      end))
  /\ (forall g code r,
         seed = [g] ->
         getCode (TxServiceModel.to g) = Js.Resolved code ->
         buildTransactionFrom safeAddress g (tokens (getState tt)) code = Js.Resolved r ->
         Transaction.cancellationTx r = false ->
         exists out,
           result.1 = Js.Resolved (Some out)
           /\ outgoing out !! safeAddress = Some (Some [r])
           /\ cancel out !! safeAddress = Some None)
  /\ (forall tx,
         tx ∈ seed -> (forall r, ~ normalizes safeAddress getState tx r) ->
         exists e, result.1 = Js.Rejected e).
Proof.
  intros url config seed result Hget Hstatus.
  assert (Hres : result = normalizeAndGroup safeAddress getState seed
                   (emit [HttpGet url config;
                          ConsoleError (failureMessage safeAddress) err] st)).
  { subst result. unfold loadOutgoingTransactions. fold url. fold config.
    rewrite Hget. rewrite bool_decide_eq_false_2 by exact Hstatus.
    f_equal. unfold emit. simpl. rewrite <- app_assoc. reflexivity. }
  assert (Hgroups : forall recs,
             Forall2 (normalizes safeAddress getState) seed recs ->
             exists out,
               result.1 = Js.Resolved (Some out)
               /\ dom (outgoing out) = {[safeAddress]}
               /\ dom (cancel out) = {[safeAddress]}
               /\ outgoing out !! safeAddress
                  = Some (match filter (fun r => Transaction.cancellationTx r = false)
                                       recs with
                          | [] => None
                          | g => Some g
                          end)
               /\ cancel out !! safeAddress
                  = Some (match filter (fun r => Transaction.cancellationTx r = true)
                                       recs with
                          | [] => None
                          | g => Some g
                          end)).
  { intros recs Hn. exists (groupTransactions safeAddress recs).
    split; [rewrite Hres; apply normalizeAndGroup_succeeds; exact Hn|].
    split; [apply singleton_dom|]. split; [apply singleton_dom|].
    apply groupTransactions_groups. }
  split; [|split; [|split; [|split; [|split; [exact Hgroups|split]]]]].
  - rewrite Hres.
    destruct (normalizeAndGroup_trace safeAddress getState seed
                (emit [HttpGet url config;
                       ConsoleError (failureMessage safeAddress) err] st))
      as [evs Hevs].
    rewrite Hevs. simpl. set_solver.
  - rewrite Hres, normalizeAndGroup_etag. reflexivity.
  - rewrite Hres. apply normalizeAndGroup_not_undefined.
  - unfold fetchedTransactions. fold url. fold config. rewrite Hget. reflexivity.
  - intros g code r Hseed Hcode Hb Hnc.
    destruct (Hgroups [r]) as (out & Hout & _ & _ & Hog & Hcg).
    { rewrite Hseed. eapply single_seed_normalizes; eassumption. }
    exists out. split; [exact Hout|].
    rewrite Hog, Hcg, filter_cons_True, filter_cons_False, filter_nil
      by (rewrite ?Hnc; congruence).
    split; reflexivity.
  - intros tx Hin Hbad. rewrite Hres.
    eapply normalizeAndGroup_rejected; eassumption.
Qed.

Lemma fetch_failure_degrades_witness :
  let net := Sample.network [] [] (fun _ => Js.Rejected Sample.failure) in
  let result :=
    @loadOutgoingTransactions Sample.imports net Sample.safe (Sample.getState [])
      initialState in
  exists r out,
    @buildTransactionFrom Sample.imports net Sample.safe Sample.creationRecord
      ∅ (Some "0x") = Js.Resolved r
    /\ result.1 = Js.Resolved (Some out)
    /\ outgoing out !! Sample.safe = Some (Some [r])
    /\ cancel out !! Sample.safe = Some None
    /\ ConsoleError (@failureMessage Sample.safe) Sample.failure ∈ trace result.2.
Proof.
  intros net result.
  destruct (@buildTransactionFrom Sample.imports net Sample.safe Sample.creationRecord
              ∅ (Some "0x")) as [r|e] eqn:Hb; [|vm_compute in Hb; discriminate].
  assert (Hnc : Transaction.cancellationTx r = false)
    by (vm_compute in Hb; injection Hb as <-; reflexivity).
  assert (Hne : Js.response_status Sample.failure <> Some 304) by discriminate.
  pose proof (@fetch_failure_degrades Sample.imports net Sample.safe
                (Sample.getState []) initialState Sample.failure eq_refl Hne)
    as (Hlog & _ & _ & _ & _ & Hone & _).
  destruct (Hone Sample.creationRecord (Some "0x") r eq_refl eq_refl Hb Hnc)
    as (out & Hout & Hog & Hcg).
  exists r, out. split; [reflexivity|]. split; [exact Hout|].
  split; [exact Hog|]. split; [exact Hcg | exact Hlog].
Defined.




(** ** More on the normalizer *)

Section NormalizerOutcome.
Context `{Imports} `{Network}.
Import TxServiceModel.

Variables (safeAddress : string) (tx : TxServiceModel.t)
          (knownTokens : gmap string Token.t) (code : option string).

Lemma refundParams_of_resolves :
  (exists rp, refundParams_of tx = Js.Resolved rp)
  <-> (0 < gasPrice tx -> gasToken tx <> ZERO_ADDRESS ->
       exists t, getTokenInfos (gasToken tx) = Js.Resolved t).
Proof.
  unfold refundParams_of.
  destruct (Z.ltb_spec 0 (gasPrice tx)) as [Hg|Hg].
  - destruct (String.eqb_spec (gasToken tx) ZERO_ADDRESS) as [Hz|Hz]; simpl.
    + split; [intros _ _ Hne; contradiction | eauto].
    + destruct (getTokenInfos (gasToken tx)) as [t|e]; simpl.
      * split; eauto.
      * split; [intros [rp Hrp]; discriminate|].
        intros Hex. destruct (Hex Hg Hz) as [t Ht]. discriminate.
  - split; [intros _ Hpos; lia | eauto].
Qed.

Lemma decodeTransfer_resolves :
  (exists dp, decodeTransfer tx = Js.Resolved dp)
  <-> (exists d p, data tx = Some d
                   /\ decodeParameters (Js.slice_from d 10) = Js.Resolved p).
Proof.
  unfold decodeTransfer. destruct (data tx) as [d|].
  - destruct (decodeParameters (Js.slice_from d 10)) as [p|e] eqn:Hp; simpl.
    + split; intros _; eauto.
    + split; [intros [dp Hdp]; discriminate|].
      intros (d' & p & [= <-] & Hp'). congruence.
  - split; [intros [dp Hdp]; discriminate | intros (d & p & Hd & _); discriminate].
Qed.

(** The fields that [buildTransactionFrom] copies or defaults. *)
Lemma buildTransactionFrom_fields (r : Transaction.t) :
  buildTransactionFrom safeAddress tx knownTokens code = Js.Resolved r ->
  Transaction.nonce r = nonce tx
  /\ Transaction.blockNumber r = blockNumber tx
  /\ Transaction.value r = Js.toString (value tx)
  /\ Transaction.confirmations r = makeConfirmations tx
  /\ Transaction.recipient r = to tx
  /\ Transaction.data r
     = (if Js.truthy (data tx) then default "" (data tx) else EMPTY_DATA)
  /\ Transaction.gasToken r = Js.or_else (gasToken tx) ZERO_ADDRESS
  /\ Transaction.refundReceiver r = Js.or_else (refundReceiver tx) ZERO_ADDRESS
  /\ Transaction.executionTxHash r = transactionHash tx
  /\ Transaction.safeTxHash r = safeTxHash tx.
Proof.
  unfold buildTransactionFrom.
  destruct (refundParams_of tx) as [rp|e]; simpl; [|discriminate].
  destruct (isSendTokenTx_of tx knownTokens code).
  - destruct (resolveToken tx _) as [[[sym dec] isSend] custom].
    destruct (decodeTransfer tx) as [dp|e]; simpl; [|discriminate].
    intros [= <-]. simpl. repeat split.
  - destruct (modifySettingsTx_of safeAddress tx && _);
      [|destruct (customTx_of safeAddress tx knownTokens code && _)];
      simpl; intros [= <-]; simpl; repeat split.
Qed.

End NormalizerOutcome.

(** X1: [buildTransactionFrom] resolves exactly when the gas-token lookup
    it needs resolves and, for a provisional token transfer, the call data
    is present and its transfer parameters decode; the two token-metadata
    lookups never make it reject. *)
Theorem buildTransactionFrom_resolves_iff `{Imports} `{Network}
    (safeAddress : string) (tx : TxServiceModel.t)
    (knownTokens : gmap string Token.t) (code : option string) :
  (exists r, buildTransactionFrom safeAddress tx knownTokens code = Js.Resolved r)
  <-> ((0 < TxServiceModel.gasPrice tx ->
        TxServiceModel.gasToken tx <> ZERO_ADDRESS ->
        exists t, getTokenInfos (TxServiceModel.gasToken tx) = Js.Resolved t)
       /\ (isSendTokenTx_of tx knownTokens code = true ->
           exists d p,
             TxServiceModel.data tx = Some d
             /\ decodeParameters (Js.slice_from d 10) = Js.Resolved p)).
Proof.
  rewrite <- refundParams_of_resolves, <- decodeTransfer_resolves. split.
  - intros [r Hb].
    apply buildTransactionFrom_resolved in Hb as (Hrp & _ & _ & _ & _ & _ & Hcase).
    split; [eauto|].
    intros Hsend. destruct Hcase as [(_ & (dp & Hdp & _) & _) | (Hno & _)];
      [eauto | congruence].
  - intros [[rp Hrp] Hdec].
    destruct (isSendTokenTx_of tx knownTokens code) eqn:Hsend.
    + destruct (Hdec eq_refl) as [dp Hdp].
      eapply buildTransactionFrom_token; eassumption.
    + unfold buildTransactionFrom. rewrite Hrp. simpl. rewrite Hsend.
      destruct (modifySettingsTx_of safeAddress tx && _);
        [|destruct (customTx_of safeAddress tx knownTokens code && _)];
        simpl; eauto.
Qed.

(** X2: a record is a token transfer only if the helper recognises the
    call data as a transfer, the destination is in the token registry, the
    code at the destination does not contain the ERC721 hash, and one of
    the two metadata lookups resolved; its symbol and decimals are then
    those of the primary lookup, or of the secondary one when the primary
    rejected, it is not a custom transaction, and its decoded parameters
    are the recipient and the value of the transfer. *)
Theorem token_transfer_record `{Imports} `{Network}
    (safeAddress : string) (tx : TxServiceModel.t)
    (knownTokens : gmap string Token.t) (code : option string)
    (r : Transaction.t) :
  buildTransactionFrom safeAddress tx knownTokens code = Js.Resolved r ->
  Transaction.isTokenTransfer r = true ->
  isTokenTransfer (TxServiceModel.data tx) (TxServiceModel.value tx) = true
  /\ is_Some (knownTokens !! TxServiceModel.to tx)
  /\ (forall c, code = Some c -> c <> "" ->
      Js.includes c SAFE_TRANSFER_FROM_WITHOUT_DATA_HASH = false)
  /\ ((exists t,
          getTokenInfos (TxServiceModel.to tx) = Js.Resolved t
          /\ Transaction.symbol r = Token.symbol t
          /\ Transaction.decimals r = Token.decimals t)
      \/ (exists e,
             getTokenInfos (TxServiceModel.to tx) = Js.Rejected e
             /\ alternativeSymbol (TxServiceModel.to tx)
                = Js.Resolved (Transaction.symbol r)
             /\ alternativeDecimals (TxServiceModel.to tx)
                = Js.Resolved (Transaction.decimals r)))
  /\ Transaction.customTx r = false
  /\ exists d p,
       TxServiceModel.data tx = Some d
       /\ decodeParameters (Js.slice_from d 10) = Js.Resolved p
       /\ Transaction.decodedParams r = Some [("recipient", p.1); ("value", p.2)].
Proof.
  intros Hb Htok.
  apply buildTransactionFrom_resolved in Hb as (_ & _ & _ & _ & _ & _ & Hcase).
  destruct Hcase as [(Hsend & (dp & Hdp & Hparams) & Hres) | (_ & Hno & _)];
    [|congruence].
  assert (Hcust : customTx_of safeAddress tx knownTokens code = false).
  { unfold customTx_of. rewrite Hsend. simpl. rewrite !andb_false_r. reflexivity. }
  rewrite Hcust in Hres.
  unfold isSendTokenTx_of in Hsend. apply andb_true_iff in Hsend as [Hnft Hhelper].
  apply negb_true_iff in Hnft. unfold isERC721Token_of in Hnft.
  apply orb_false_iff in Hnft as [Hcode Hknown].
  rewrite Hhelper in Hknown. simpl in Hknown. apply negb_false_iff in Hknown.
  apply bool_decide_eq_true_1 in Hknown.
  split; [exact Hhelper|]. split; [exact Hknown|]. split.
  { intros c -> Hc. destruct c; [congruence|]. simpl in Hcode. exact Hcode. }
  assert (Hsrc : ((exists t,
                      getTokenInfos (TxServiceModel.to tx) = Js.Resolved t
                      /\ Transaction.symbol r = Token.symbol t
                      /\ Transaction.decimals r = Token.decimals t)
                  \/ (exists e,
                         getTokenInfos (TxServiceModel.to tx) = Js.Rejected e
                         /\ alternativeSymbol (TxServiceModel.to tx)
                            = Js.Resolved (Transaction.symbol r)
                         /\ alternativeDecimals (TxServiceModel.to tx)
                            = Js.Resolved (Transaction.decimals r)))
                 /\ Transaction.customTx r = false).
  { unfold resolveToken in Hres.
    destruct (getTokenInfos (TxServiceModel.to tx)) as [t|e].
    - injection Hres as -> -> _ ->. split; [left; eauto | reflexivity].
    - simpl in Hres. congruence. }
  destruct Hsrc as [Hsrc Hc]. split; [exact Hsrc|]. split; [exact Hc|].
  unfold decodeTransfer in Hdp. destruct (TxServiceModel.data tx) as [d|]; [|discriminate].
  destruct (decodeParameters (Js.slice_from d 10)) as [p|e] eqn:Hp; simpl in Hdp;
    [|discriminate].
  injection Hdp as <-. eauto.
Qed.

Lemma token_transfer_record_witness :
  let net := Sample.network [(Sample.token, ("TKN", 2))] []
               (fun _ => Js.Rejected Sample.failure) in
  let tx := Sample.rawTx Sample.token 0 (Some Sample.transferData) in
  let knownTokens := tokens (Sample.getState [Sample.token] tt) in
  exists r,
    @buildTransactionFrom Sample.imports net Sample.safe tx knownTokens (Some "0x")
    = Js.Resolved r
    /\ Transaction.isTokenTransfer r = true
    /\ is_Some (knownTokens !! Sample.token)
    /\ Transaction.customTx r = false.
Proof.
  intros net tx knownTokens.
  destruct (@buildTransactionFrom Sample.imports net Sample.safe tx knownTokens
              (Some "0x")) as [r|e] eqn:Hb; [|vm_compute in Hb; discriminate].
  assert (Htok : Transaction.isTokenTransfer r = true)
    by (vm_compute in Hb; injection Hb as <-; reflexivity).
  exists r. split; [reflexivity|]. split; [exact Htok|].
  pose proof (@token_transfer_record Sample.imports net Sample.safe tx knownTokens
                (Some "0x") r Hb Htok) as (_ & Hreg & _ & _ & Hc & _).
  split; [exact Hreg | exact Hc].
Defined.

(** X3: a record that is not a token transfer always carries the symbol
    "ETH" and 18 decimals, also when it was a provisional token transfer
    whose two lookups failed. *)
Theorem non_token_record_is_eth `{Imports} `{Network}
    (safeAddress : string) (tx : TxServiceModel.t)
    (knownTokens : gmap string Token.t) (code : option string)
    (r : Transaction.t) :
  buildTransactionFrom safeAddress tx knownTokens code = Js.Resolved r ->
  Transaction.isTokenTransfer r = false ->
  Transaction.symbol r = "ETH" /\ Transaction.decimals r = 18.
Proof.
  intros Hb Hno.
  apply buildTransactionFrom_resolved in Hb as (_ & _ & _ & _ & _ & _ & Hcase).
  destruct Hcase as [(_ & _ & Hres) | (_ & _ & _ & Hs & Hd & _)]; [|auto].
  unfold resolveToken in Hres.
  destruct (getTokenInfos (TxServiceModel.to tx)); [congruence|].
  simpl in Hres. injection Hres as -> -> _ _. auto.
Qed.

Lemma non_token_record_is_eth_witness :
  let net := Sample.network [] [] (fun _ => Js.Rejected Sample.failure) in
  let tx := Sample.rawTx Sample.token 0 (Some Sample.transferData) in
  let knownTokens := tokens (Sample.getState [Sample.token] tt) in
  exists r,
    @buildTransactionFrom Sample.imports net Sample.safe tx knownTokens (Some "0x")
    = Js.Resolved r
    /\ Transaction.symbol r = "ETH" /\ Transaction.decimals r = 18.
Proof.
  intros net tx knownTokens.
  destruct (@buildTransactionFrom Sample.imports net Sample.safe tx knownTokens
              (Some "0x")) as [r|e] eqn:Hb; [|vm_compute in Hb; discriminate].
  exists r. split; [reflexivity|].
  apply (@non_token_record_is_eth Sample.imports net Sample.safe tx knownTokens
           (Some "0x") r Hb).
  vm_compute in Hb. injection Hb as <-. reflexivity.
Defined.

(** X4: when the primary lookup of a provisional token transfer resolves,
    the secondary lookup plays no part: the record is a token transfer
    with the symbol and decimals of the primary lookup and is not a custom
    transaction; and the record exists as soon as the refund lookup and the
    decoding of the transfer parameters succeed. *)
Theorem primary_lookup_wins `{Imports} `{Network}
    (safeAddress : string) (tx : TxServiceModel.t)
    (knownTokens : gmap string Token.t) (code : option string)
    (t : Token.t) :
  isSendTokenTx_of tx knownTokens code = true ->
  getTokenInfos (TxServiceModel.to tx) = Js.Resolved t ->
  (forall r,
      buildTransactionFrom safeAddress tx knownTokens code = Js.Resolved r ->
      Transaction.isTokenTransfer r = true
      /\ Transaction.customTx r = false
      /\ Transaction.symbol r = Token.symbol t
      /\ Transaction.decimals r = Token.decimals t)
  /\ (forall rp dp,
         refundParams_of tx = Js.Resolved rp ->
         decodeTransfer tx = Js.Resolved dp ->
         exists r, buildTransactionFrom safeAddress tx knownTokens code = Js.Resolved r).
Proof.
  intros Hsend Hp. split.
  - intros r Hb.
    apply buildTransactionFrom_resolved in Hb as (_ & _ & _ & _ & _ & _ & Hcase).
    destruct Hcase as [(_ & _ & Hres) | (Hno & _)]; [|congruence].
    rewrite (resolveToken_primary tx _ t Hp) in Hres.
    injection Hres as -> -> -> ->.
    repeat split; try reflexivity.
    unfold customTx_of. rewrite Hsend. simpl. rewrite !andb_false_r. reflexivity.
  - intros rp dp Hrp Hdp. eapply buildTransactionFrom_token; eassumption.
Qed.

Lemma primary_lookup_wins_witness :
  let net := Sample.network [(Sample.token, ("TKN", 2))] [(Sample.token, ("ALT", 6))]
               (fun _ => Js.Rejected Sample.failure) in
  let tx := Sample.rawTx Sample.token 0 (Some Sample.transferData) in
  let knownTokens := tokens (Sample.getState [Sample.token] tt) in
  exists r,
    @buildTransactionFrom Sample.imports net Sample.safe tx knownTokens (Some "0x")
    = Js.Resolved r
    /\ Transaction.isTokenTransfer r = true
    /\ Transaction.customTx r = false
    /\ Transaction.symbol r = "TKN"
    /\ Transaction.decimals r = 2.
Proof.
  intros net tx knownTokens.
  destruct (@buildTransactionFrom Sample.imports net Sample.safe tx knownTokens
              (Some "0x")) as [r|e] eqn:Hb; [|vm_compute in Hb; discriminate].
  exists r. split; [reflexivity|].
  apply (proj1 (@primary_lookup_wins Sample.imports net Sample.safe tx knownTokens
                  (Some "0x")
                  {| Token.address := Sample.token; Token.symbol := "TKN";
                     Token.decimals := 2 |} eq_refl eq_refl) r Hb).
Defined.

(** X5: a transaction whose call data is [null] is normalized without
    decoded parameters, is neither a token transfer, a custom transaction
    nor a settings change, and its record carries [EMPTY_DATA]; if the
    helper nevertheless takes it for a token transfer of a registered
    token, [buildTransactionFrom] rejects. *)
Theorem null_data_record `{Imports} `{Network}
    (safeAddress : string) (tx : TxServiceModel.t)
    (knownTokens : gmap string Token.t) (code : option string) :
  TxServiceModel.data tx = None ->
  (forall r,
      buildTransactionFrom safeAddress tx knownTokens code = Js.Resolved r ->
      Transaction.decodedParams r = None
      /\ Transaction.isTokenTransfer r = false
      /\ Transaction.customTx r = false
      /\ Transaction.modifySettingsTx r = false
      /\ Transaction.data r = EMPTY_DATA)
  /\ (isSendTokenTx_of tx knownTokens code = true ->
      exists e, buildTransactionFrom safeAddress tx knownTokens code = Js.Rejected e).
Proof.
  intros Hdata. split.
  - intros r Hb.
    pose proof (buildTransactionFrom_fields safeAddress tx knownTokens code r Hb)
      as (_ & _ & _ & _ & _ & Hd & _).
    apply buildTransactionFrom_resolved in Hb as (_ & Hm & _ & _ & _ & _ & Hcase).
    destruct Hcase as [(_ & (dp & Hdp & _) & _) | (_ & Htok & Hcust & _ & _ & Hparams)].
    + unfold decodeTransfer in Hdp. rewrite Hdata in Hdp. discriminate.
    + rewrite Hdata in Hparams, Hd. simpl in Hparams, Hd.
      rewrite andb_false_r in Hparams.
      repeat split; try assumption.
      * rewrite Hcust. unfold customTx_of. rewrite Hdata. simpl.
        rewrite andb_false_r. reflexivity.
      * rewrite Hm. unfold modifySettingsTx_of. rewrite Hdata. simpl.
        apply andb_false_r.
  - intros Hsend. unfold buildTransactionFrom.
    destruct (refundParams_of tx) as [rp|e]; simpl; [|eauto].
    rewrite Hsend. destruct (resolveToken tx _) as [[[sym dec] isSend] custom].
    unfold decodeTransfer. rewrite Hdata. simpl. eauto.
Qed.

Lemma null_data_record_witness :
  let net := Sample.network [] [] (fun _ => Js.Rejected Sample.failure) in
  let tx := Sample.rawTx Sample.other 5 None in
  exists r,
    @buildTransactionFrom Sample.imports net Sample.safe tx ∅ None = Js.Resolved r
    /\ Transaction.decodedParams r = None
    /\ Transaction.data r = "0x".
Proof.
  intros net tx.
  destruct (@buildTransactionFrom Sample.imports net Sample.safe tx ∅ None)
    as [r|e] eqn:Hb; [|vm_compute in Hb; discriminate].
  exists r. split; [reflexivity|].
  pose proof (proj1 (@null_data_record Sample.imports net Sample.safe tx ∅ None
                       eq_refl) r Hb) as (Hp & _ & _ & _ & Hd).
  split; [exact Hp | exact Hd].
Defined.

(** X6: every record keeps the destination, the nonce and the hashes of
    its transaction, carries all the decimal digits of a value that is a
    safe integer, has one
    confirmation per service confirmation, and never has an empty [data],
    [gasToken] or [refundReceiver] when [EMPTY_DATA] and [ZERO_ADDRESS]
    are not empty: a non-empty raw field is kept and an empty one is
    replaced by the constant. *)
Theorem record_fields_defaulted `{Imports} `{Network}
    (safeAddress : string) (tx : TxServiceModel.t)
    (knownTokens : gmap string Token.t) (code : option string)
    (r : Transaction.t) :
  buildTransactionFrom safeAddress tx knownTokens code = Js.Resolved r ->
  Transaction.recipient r = TxServiceModel.to tx
  /\ Transaction.nonce r = TxServiceModel.nonce tx
  /\ Transaction.safeTxHash r = TxServiceModel.safeTxHash tx
  /\ Transaction.executionTxHash r = TxServiceModel.transactionHash tx
  /\ (Z.abs (TxServiceModel.value tx) <= Js.MAX_SAFE_INTEGER ->
      Transaction.value r = Js.decimal (TxServiceModel.value tx))
  /\ length (Transaction.confirmations r) = length (TxServiceModel.confirmations tx)
  /\ (forall d, TxServiceModel.data tx = Some d -> d <> "" -> Transaction.data r = d)
  /\ (TxServiceModel.gasToken tx <> "" ->
      Transaction.gasToken r = TxServiceModel.gasToken tx)
  /\ (TxServiceModel.refundReceiver tx <> "" ->
      Transaction.refundReceiver r = TxServiceModel.refundReceiver tx)
  /\ (EMPTY_DATA <> "" -> Transaction.data r <> "")
  /\ (ZERO_ADDRESS <> "" ->
      Transaction.gasToken r <> "" /\ Transaction.refundReceiver r <> "").
Proof.
  intros Hb.
  apply buildTransactionFrom_fields in Hb
    as (Hn & _ & Hv & Hc & Hr & Hd & Hg & Hrr & Hx & Hs).
  repeat split; try assumption.
  - intros Hsafe. rewrite Hv. apply toString_safe, Hsafe.
  - rewrite Hc. unfold makeConfirmations. apply length_map.
  - intros d Hd' Hne. rewrite Hd, Hd'. destruct d; [congruence | reflexivity].
  - intros Hne. rewrite Hg. destruct (TxServiceModel.gasToken tx); [congruence | reflexivity].
  - intros Hne. rewrite Hrr.
    destruct (TxServiceModel.refundReceiver tx); [congruence | reflexivity].
  - intros Hne. rewrite Hd.
    destruct (TxServiceModel.data tx) as [[|c d]|]; simpl; congruence.
  - rewrite Hg. destruct (TxServiceModel.gasToken tx); simpl; congruence.
  - rewrite Hrr. destruct (TxServiceModel.refundReceiver tx); simpl; congruence.
Qed.

Lemma record_fields_defaulted_witness :
  let net := Sample.network [] [] (fun _ => Js.Rejected Sample.failure) in
  let tx := Sample.rawTx Sample.other 5 None in
  exists r,
    @buildTransactionFrom Sample.imports net Sample.safe tx ∅ None = Js.Resolved r
    /\ Transaction.recipient r = Sample.other
    /\ Transaction.value r = "5"
    /\ Transaction.refundReceiver r <> "".
Proof.
  intros net tx.
  destruct (@buildTransactionFrom Sample.imports net Sample.safe tx ∅ None)
    as [r|e] eqn:Hb; [|vm_compute in Hb; discriminate].
  exists r. split; [reflexivity|].
  pose proof (@record_fields_defaulted Sample.imports net Sample.safe tx ∅ None r Hb)
    as (Hr & _ & _ & _ & Hv & _ & _ & _ & _ & _ & Hz).
  split; [exact Hr|]. split; [apply Hv; vm_compute; discriminate|].
  apply Hz. discriminate.
Defined.

(** ** More on the fee string *)

Section FeeStrings.

Lemma length_str (l : list ascii) : String.length (Js.str l) = length l.
Proof. pose proof (strlen_str l) as Hl. unfold Js.strlen in Hl. lia. Qed.

Lemma decimal_nonempty (n : Z) : Js.decimal n <> "".
Proof.
  unfold Js.decimal.
  destruct (Z.eqb_spec n 0); [discriminate|].
  destruct (Z.ltb_spec n 0); [discriminate|].
  pose proof (digits_nonempty n ltac:(lia)) as Hd.
  destruct (Js.digits n); [congruence | discriminate].
Qed.

Lemma chars_append (a b : string) : Js.chars (a +:+ b) = Js.chars a ++ Js.chars b.
Proof. induction a as [|c a IH]; simpl; [reflexivity | now rewrite IH]. Qed.

Lemma digits_range (n : Z) : Forall (fun x => 0 <= x < 10) (Js.digits n).
Proof.
  destruct (Z.le_gt_cases n 0) as [Hn|Hn].
  - rewrite digits_nonpos by assumption. constructor.
  - assert (H0 : 0 <= n) by lia. revert Hn.
    pattern n. apply Zlt_0_ind; [|exact H0]. clear n H0.
    intros n IH _ Hn. rewrite (digits_step n Hn). apply Forall_app. split.
    + destruct (Z.eq_dec (n / 10) 0) as [Hz|Hz].
      * rewrite Hz, digits_nonpos by lia. constructor.
      * assert (0 <= n / 10) by (apply Z.div_pos; lia).
        apply IH; [split; [lia | apply Z.div_lt; lia] | lia].
    + constructor; [apply Z.mod_pos_bound; lia | constructor].
Qed.

Lemma fixed_digits_range (k : nat) (m : Z) :
  Forall (fun x => 0 <= x < 10) (fixed_digits k m).
Proof.
  revert m. induction k as [|k IH]; intros m; simpl; [constructor|].
  apply Forall_app. split; [apply IH|].
  constructor; [apply Z.mod_pos_bound; lia | constructor].
Qed.

Lemma digit_cases (x : Z) :
  0 <= x < 10 ->
  x = 0 \/ x = 1 \/ x = 2 \/ x = 3 \/ x = 4 \/ x = 5 \/ x = 6 \/ x = 7 \/ x = 8 \/ x = 9.
Proof. lia. Qed.

Lemma digit_of_digit_char (x : Z) : 0 <= x < 10 -> digit_of_char (Js.digit_char x) = x.
Proof.
  intros Hx. destruct (digit_cases x Hx) as [->|[->|[->|[->|[->|[->|[->|[->|[->| ->]]]]]]]]];
    reflexivity.
Qed.

Lemma digit_char_not_point (x : Z) : 0 <= x < 10 -> Js.digit_char x <> "."%char.
Proof.
  intros Hx. destruct (digit_cases x Hx) as [->|[->|[->|[->|[->|[->|[->|[->|[->| ->]]]]]]]]];
    discriminate.
Qed.

Lemma filter_point_digits (l : list Z) :
  Forall (fun x => 0 <= x < 10) l ->
  filter (fun c => c <> "."%char) (map Js.digit_char l) = map Js.digit_char l.
Proof.
  induction 1 as [|x l Hx _ IH]; [reflexivity|].
  simpl map. rewrite filter_cons_True by (apply digit_char_not_point; exact Hx).
  now rewrite IH.
Qed.

Lemma read_digit_chars (l : list Z) (a : Z) :
  Forall (fun x => 0 <= x < 10) l ->
  foldl (fun acc c => acc * 10 + digit_of_char c) a (map Js.digit_char l)
  = foldl (fun acc x => acc * 10 + x) a l.
Proof.
  intros Hl. revert a. induction Hl as [|x l Hx _ IH]; intros a; [reflexivity|].
  simpl. rewrite digit_of_digit_char by exact Hx. apply IH.
Qed.

Lemma value_digits (n : Z) :
  0 <= n -> foldl (fun acc x => acc * 10 + x) 0 (Js.digits n) = n.
Proof.
  intros H0. pattern n. apply Zlt_0_ind; [|exact H0]. clear n H0.
  intros n IH Hn.
  destruct (Z.eq_dec n 0) as [->|Hnz]; [reflexivity|].
  rewrite (digits_step n ltac:(lia)), foldl_app. simpl.
  rewrite IH by (split; [apply Z.div_pos; lia | apply Z.div_lt; lia]).
  pose proof (Z.div_mod n 10 ltac:(lia)). lia.
Qed.

Lemma value_fixed_digits (k : nat) :
  forall m a : Z,
    foldl (fun acc x => acc * 10 + x) a (fixed_digits k m)
    = a * 10 ^ Z.of_nat k + m mod 10 ^ Z.of_nat k.
Proof.
  induction k as [|k IH]; intros m a.
  - simpl. rewrite Z.mod_1_r. lia.
  - simpl fixed_digits. rewrite foldl_app, IH. simpl foldl.
    rewrite Nat2Z.inj_succ, Z.pow_succ_r by lia.
    assert (H10k : 0 < 10 ^ Z.of_nat k) by (apply Z.pow_pos_nonneg; lia).
    rewrite (Z.rem_mul_r m 10 (10 ^ Z.of_nat k)) by lia. lia.
Qed.

End FeeStrings.

(** X7: for non-negative decimals the fee string always has a non-empty
    integral part, a point, and exactly [decimals] characters after the
    point, whatever the fee. *)
Theorem formatFee_shape (fee decimals : Z) :
  0 <= decimals ->
  exists whole fraction,
    formatFee fee decimals = whole +:+ "." +:+ fraction
    /\ whole <> ""
    /\ String.length fraction = Z.to_nat decimals.
Proof.
  intros Hd. rewrite formatFee_chars by exact Hd. cbv zeta.
  set (k := Z.to_nat decimals).
  set (fs := replicate (k - length (Js.chars (Js.toString fee))) "0"%char
               ++ Js.chars (Js.toString fee)).
  exists (Js.or_else (Js.str (take (length fs - k) fs)) "0"),
         (Js.str (drop (length fs - k) fs)).
  split; [reflexivity|]. split.
  - destruct (Js.str (take (length fs - k) fs)); discriminate.
  - rewrite length_str, length_drop.
    assert (k <= length fs)%nat by (subst fs; rewrite length_app, length_replicate; lia).
    lia.
Qed.

Lemma formatFee_shape_witness :
  exists whole fraction,
    formatFee 1234 6 = whole +:+ "." +:+ fraction
    /\ whole <> ""
    /\ String.length fraction = 6%nat.
Proof. apply (formatFee_shape 1234 6). lia. Defined.

(** X8: with zero or negative decimals nothing is padded or cut: the fee
    string of a fee that is a safe integer is its decimal digits followed
    by a bare point. *)
Theorem formatFee_without_decimals (fee decimals : Z) :
  Z.abs fee <= Js.MAX_SAFE_INTEGER ->
  decimals <= 0 -> formatFee fee decimals = Js.decimal fee +:+ ".".
Proof.
  intros Hsafe Hd. unfold formatFee, Js.padStart.
  rewrite (toString_safe fee Hsafe).
  set (s := Js.decimal fee).
  assert (Hpad : Js.str (replicate (Z.to_nat (decimals - Js.strlen s)) "0"%char
                           ++ Js.chars s) = s).
  { unfold Js.strlen. replace (Z.to_nat _) with 0%nat by lia.
    simpl. apply str_chars. }
  rewrite Hpad. unfold Js.slice_from, Js.slice.
  rewrite (strlen_chars s).
  set (len := Z.of_nat (length (Js.chars s))).
  assert (Hc0 : Js.clamp_index len 0 = 0) by (unfold Js.clamp_index; simpl; lia).
  assert (Hc1 : Js.clamp_index len (len - decimals) = len).
  { unfold Js.clamp_index. destruct (Z.ltb_spec (len - decimals) 0); lia. }
  assert (Hc2 : Js.clamp_index len len = len).
  { unfold Js.clamp_index. destruct (Z.ltb_spec len 0); lia. }
  rewrite Hc0, Hc1, Hc2, Z.sub_0_r, Z.sub_diag. subst len.
  rewrite Nat2Z.id. simpl (Z.to_nat 0). rewrite drop_0, take_0.
  rewrite firstn_all, str_chars.
  pose proof (decimal_nonempty fee) as Hne. fold s in Hne.
  destruct s; [congruence|]. reflexivity.
Qed.

Lemma formatFee_without_decimals_witness : formatFee 14 0 = "14.".
Proof. apply (formatFee_without_decimals 14 0); [vm_compute; discriminate | lia]. Defined.

(** X9: the fee string of a safe integer loses nothing: for a fee that
    is a non-negative safe integer and non-negative decimals, reading its
    digits back, the point left out, gives the fee; so two different such
    fees never print alike in the same precision. *)
Theorem formatFee_round_trip (fee decimals : Z) :
  0 <= fee <= Js.MAX_SAFE_INTEGER -> 0 <= decimals ->
  readDigits (formatFee fee decimals) = fee
  /\ (forall fee', 0 <= fee' <= Js.MAX_SAFE_INTEGER ->
        formatFee fee' decimals = formatFee fee decimals -> fee' = fee).
Proof.
  assert (Hread : forall f, 0 <= f <= Js.MAX_SAFE_INTEGER -> 0 <= decimals ->
                            readDigits (formatFee f decimals) = f).
  { intros f Hf Hd. rewrite formatFee_decimalRendering by assumption.
    unfold decimalRendering, readDigits.
    set (k := Z.to_nat decimals).
    assert (Hk : decimals = Z.of_nat k) by lia.
    assert (H10k : 0 < 10 ^ decimals) by (apply Z.pow_pos_nonneg; lia).
    set (q := f / 10 ^ decimals).
    assert (Hq : 0 <= q) by (apply Z.div_pos; lia).
    assert (Hqc : exists ds, Js.chars (Js.decimal q) = map Js.digit_char ds
                             /\ Forall (fun x => 0 <= x < 10) ds
                             /\ foldl (fun acc x => acc * 10 + x) 0 ds = q).
    { destruct (Z.eq_dec q 0) as [Hz|Hz].
      - exists [0]. rewrite Hz. split; [reflexivity|].
        split; [constructor; [lia | constructor] | reflexivity].
      - exists (Js.digits q). unfold Js.decimal.
        destruct (Z.eqb_spec q 0); [lia|]. destruct (Z.ltb_spec q 0); [lia|].
        split; [apply chars_str|]. split; [apply digits_range | apply value_digits; lia]. }
    destruct Hqc as (ds & Hds & Hrange & Hval).
    rewrite !chars_append, chars_str, Hds, !filter_app.
    rewrite !filter_point_digits by (assumption || apply fixed_digits_range).
    change (filter (fun c => c <> "."%char) (Js.chars ".")) with (@nil ascii).
    rewrite app_nil_l, <- map_app, read_digit_chars
      by (apply Forall_app; split; [assumption | apply fixed_digits_range]).
    rewrite foldl_app, Hval, value_fixed_digits, <- Hk.
    rewrite Z.mod_mod by lia. subst q.
    pose proof (Z.div_mod f (10 ^ decimals) ltac:(lia)). lia. }
  intros Hfee Hd. split; [apply Hread; assumption|].
  intros fee' Hfee' Heq.
  rewrite <- (Hread fee' Hfee' Hd), Heq. apply Hread; assumption.
Qed.

Lemma formatFee_round_trip_witness :
  readDigits (formatFee 14 2) = 14 /\ readDigits "0.14" = 14.
Proof.
  split; [|reflexivity].
  apply (proj1 (formatFee_round_trip 14 2 ltac:(vm_compute; split; discriminate)
                  ltac:(lia))).
Defined.

(** ** More on the loop *)

Section LoopOutcome.
Context `{Imports} `{Network}.

Lemma strict_eq_true (a b : Js.nullable) : Js.strict_eq a b = true <-> a = b.
Proof.
  destruct a as [| |x], b as [| |y]; simpl; try (split; congruence).
  rewrite String.eqb_eq. split; congruence.
Qed.

Lemma batchTxTokenRequest_of_codes (txs : list TxServiceModel.t)
    (codes : list (option string)) :
  Forall2 (fun tx c => getCode (TxServiceModel.to tx) = Js.Resolved c) txs codes ->
  batchTxTokenRequest txs = Js.Resolved (zip txs codes).
Proof.
  intros Hcodes. unfold batchTxTokenRequest. apply all_of_resolved.
  induction Hcodes as [|tx c txs codes Hc _ IH]; simpl; constructor;
    [rewrite Hc; reflexivity | exact IH].
Qed.

(** The batch rejects as soon as one code lookup does, with the error of
    a lookup that rejects. *)
Lemma batchTxTokenRequest_rejected (txs : list TxServiceModel.t)
    (tx : TxServiceModel.t) (e : Js.error) :
  tx ∈ txs ->
  getCode (TxServiceModel.to tx) = Js.Rejected e ->
  exists e' tx',
    tx' ∈ txs
    /\ getCode (TxServiceModel.to tx') = Js.Rejected e'
    /\ batchTxTokenRequest txs = Js.Rejected e'.
Proof.
  intros Hin He. unfold batchTxTokenRequest.
  set (f := fun tx : TxServiceModel.t =>
              Js.bind (getCode (TxServiceModel.to tx))
                (fun code => Js.Resolved (tx, code))).
  assert (Hrej : Js.Rejected e ∈ map f txs).
  { apply list_elem_of_fmap. exists tx. split; [|exact Hin].
    unfold f. rewrite He. reflexivity. }
  destruct (all_of_rejected settlesFirst _ _ Hrej) as [e' Hall].
  pose proof (all_rejected _ _ _ Hall) as Hin'.
  apply list_elem_of_fmap in Hin' as (tx' & Hf & Hin').
  exists e', tx'. split; [exact Hin'|]. split; [|exact Hall].
  unfold f in Hf. destruct (getCode (TxServiceModel.to tx')); simpl in Hf; congruence.
Qed.

(** After a response with a positive count the stored ETag is the one of
    the response. *)
Lemma etag_after_positive_count (safeAddress : string) (getState : unit -> AppState)
    (st : ModuleState) (response : Response.t) :
  axios_get (buildTxServiceUrl safeAddress)
            (requestConfig (prevSaveTransactionsEtag st)) = Js.Resolved response ->
  0 < Response.count response ->
  prevSaveTransactionsEtag (loadOutgoingTransactions safeAddress getState st).2
  = Response.etag response.
Proof.
  intros Hget Hcount. unfold loadOutgoingTransactions. rewrite Hget.
  destruct (Z.ltb_spec 0 (Response.count response)); [|lia].
  simpl prevSaveTransactionsEtag.
  destruct (Js.strict_eq _ _) eqn:Heq.
  - apply strict_eq_true in Heq. exact Heq.
  - rewrite normalizeAndGroup_etag. reflexivity.
Qed.

End LoopOutcome.

(** X10: [batchTxTokenRequest] resolves exactly when every code lookup
    does, and then hands back the transactions themselves, in their order,
    each paired with the code found at its destination; as soon as one
    lookup rejects it rejects, with the error of a lookup that rejects. *)
Theorem batchTxTokenRequest_spec `{Imports} `{Network} (txs : list TxServiceModel.t) :
  (forall txsWithData,
      batchTxTokenRequest txs = Js.Resolved txsWithData
      <-> (txsWithData.*1 = txs
           /\ Forall2 (fun tx c => getCode (TxServiceModel.to tx) = Js.Resolved c)
                      txs (txsWithData.*2)))
  /\ (forall tx e,
         tx ∈ txs ->
         getCode (TxServiceModel.to tx) = Js.Rejected e ->
         exists e' tx',
           tx' ∈ txs
           /\ getCode (TxServiceModel.to tx') = Js.Rejected e'
           /\ batchTxTokenRequest txs = Js.Rejected e').
Proof.
  split.
  - intros twd. split.
    + intros Hb. apply batchTxTokenRequest_resolved in Hb.
      induction Hb as [|tx [tx' c] txs twd [Htx Hc] _ [IH1 IH2]]; simpl.
      * split; [reflexivity | constructor].
      * simpl in Htx, Hc. subst tx'. split; [f_equal; exact IH1|].
        constructor; assumption.
    + intros [Hfst Hcodes].
      rewrite (batchTxTokenRequest_of_codes txs (twd.*2) Hcodes).
      f_equal. rewrite <- Hfst. apply zip_fst_snd.
  - intros tx e Hin He.
    eapply batchTxTokenRequest_rejected; eassumption.
Qed.

(** X11: when the history response has a positive count and an ETag other
    than the stored one, the loop stores the response's ETag and continues
    with the genesis seed followed by the fetched results; the ETag is
    stored before the batch lookup and the normalization, so it is stored
    also when those reject. *)
Theorem new_history_is_stored `{Imports} `{Network}
    (safeAddress : string) (getState : unit -> AppState) (st : ModuleState)
    (response : Response.t) :
  let url := buildTxServiceUrl safeAddress in
  let config := requestConfig (prevSaveTransactionsEtag st) in
  let txs := addMockSafeCreationTx safeAddress ++ Response.results response in
  let result := loadOutgoingTransactions safeAddress getState st in
  axios_get url config = Js.Resolved response ->
  0 < Response.count response ->
  Js.strict_eq (prevSaveTransactionsEtag st) (Response.etag response) = false ->
  result = normalizeAndGroup safeAddress getState txs
             (setEtag (Response.etag response) (emit [HttpGet url config] st))
  /\ prevSaveTransactionsEtag result.2 = Response.etag response
  /\ (forall recs,
         Forall2 (normalizes safeAddress getState) txs recs ->
         result.1 = Js.Resolved (Some (groupTransactions safeAddress recs)))
  /\ (forall tx,
         tx ∈ txs -> (forall r, ~ normalizes safeAddress getState tx r) ->
         exists e, result.1 = Js.Rejected e).
Proof.
  intros url config txs result Hget Hcount Hne.
  assert (Hres : result = normalizeAndGroup safeAddress getState txs
                   (setEtag (Response.etag response) (emit [HttpGet url config] st))).
  { subst result. unfold loadOutgoingTransactions. fold url. fold config.
    rewrite Hget. destruct (Z.ltb_spec 0 (Response.count response)); [|lia].
    simpl prevSaveTransactionsEtag. rewrite Hne. reflexivity. }
  rewrite Hres. split; [reflexivity|]. split; [|split].
  - rewrite normalizeAndGroup_etag. reflexivity.
  - intros recs Hn. apply normalizeAndGroup_succeeds. exact Hn.
  - intros tx Hin Hbad. eapply normalizeAndGroup_rejected; eassumption.
Qed.

Lemma new_history_is_stored_witness :
  let response :=
    {| Response.count := 1;
       Response.results := [Sample.rawTx Sample.other 1 None];
       Response.etag := Js.Str "abc" |} in
  let net := Sample.network [] [] (fun _ => Js.Resolved response) in
  let result :=
    @loadOutgoingTransactions Sample.imports net Sample.safe (Sample.getState [])
      initialState in
  prevSaveTransactionsEtag result.2 = Js.Str "abc"
  /\ exists out, result.1 = Js.Resolved (Some out).
Proof.
  intros response net result.
  pose proof (@new_history_is_stored Sample.imports net Sample.safe
                (Sample.getState []) initialState response eq_refl eq_refl eq_refl)
    as (_ & Hetag & _).
  split; [exact Hetag|].
  eexists. vm_compute. reflexivity.
Defined.

(** X12: after any invocation the stored ETag is the ETag of the response
    when the response had a positive count, and is unchanged otherwise
    (count zero, or a failed request). *)
Theorem stored_etag_after `{Imports} `{Network}
    (safeAddress : string) (getState : unit -> AppState) (st : ModuleState) :
  prevSaveTransactionsEtag (loadOutgoingTransactions safeAddress getState st).2
  = match axios_get (buildTxServiceUrl safeAddress)
                    (requestConfig (prevSaveTransactionsEtag st)) with
    | Js.Resolved response =>
        if 0 <? Response.count response then Response.etag response
        else prevSaveTransactionsEtag st
    | Js.Rejected _ => prevSaveTransactionsEtag st
    end.
Proof.
  unfold loadOutgoingTransactions.
  destruct (axios_get _ _) as [response|err].
  - destruct (0 <? Response.count response).
    + simpl prevSaveTransactionsEtag.
      destruct (Js.strict_eq _ _) eqn:Heq.
      * apply strict_eq_true in Heq. exact Heq.
      * rewrite normalizeAndGroup_etag. reflexivity.
    + rewrite normalizeAndGroup_etag. reflexivity.
  - destruct (bool_decide _); [reflexivity|].
    rewrite normalizeAndGroup_etag. reflexivity.
Qed.

(** X13: the loop returns [undefined] only on the two not-modified
    signals: a response with a positive count whose ETag is strictly equal
    to the stored one, or a request that failed with status 304. *)
Theorem undefined_only_when_not_modified `{Imports} `{Network}
    (safeAddress : string) (getState : unit -> AppState) (st : ModuleState) :
  let url := buildTxServiceUrl safeAddress in
  let config := requestConfig (prevSaveTransactionsEtag st) in
  (loadOutgoingTransactions safeAddress getState st).1 = Js.Resolved None
  <-> ((exists response,
           axios_get url config = Js.Resolved response
           /\ 0 < Response.count response
           /\ Js.strict_eq (prevSaveTransactionsEtag st) (Response.etag response) = true)
       \/ (exists err,
              axios_get url config = Js.Rejected err
              /\ Js.response_status err = Some 304)).
Proof.
  intros url config. unfold loadOutgoingTransactions. fold url. fold config.
  destruct (axios_get url config) as [response|err] eqn:Hget.
  - destruct (Z.ltb_spec 0 (Response.count response)) as [Hc|Hc].
    + simpl prevSaveTransactionsEtag.
      destruct (Js.strict_eq _ _) eqn:Heq.
      * split; [intros _; left; eauto | reflexivity].
      * split.
        -- intros Hu. destruct (normalizeAndGroup_not_undefined _ _ _ _ Hu).
        -- intros [(r & [= <-] & _ & Hr) | (e & He & _)]; congruence.
    + split.
      * intros Hu. destruct (normalizeAndGroup_not_undefined _ _ _ _ Hu).
      * intros [(r & [= <-] & Hr & _) | (e & He & _)]; [lia | congruence].
  - destruct (bool_decide_reflect (Js.response_status err = Some 304)) as [Hs|Hs].
    + split; [intros _; right; eauto | reflexivity].
    + split.
      * intros Hu. destruct (normalizeAndGroup_not_undefined _ _ _ _ Hu).
      * intros [(r & Hr & _) | (e & [= <-] & He)]; congruence.
Qed.

(** X14: once a response with a positive count has been received, an
    invocation that gets a response with the same ETag and a positive count
    returns [undefined] and does nothing else, whether or not the first
    invocation could normalize what it fetched. *)
Theorem unchanged_history_not_refetched `{Imports} `{Network}
    (safeAddress : string) (getState : unit -> AppState) (st : ModuleState)
    (response response' : Response.t) :
  let url := buildTxServiceUrl safeAddress in
  let st1 := (loadOutgoingTransactions safeAddress getState st).2 in
  let config1 := requestConfig (prevSaveTransactionsEtag st1) in
  axios_get url (requestConfig (prevSaveTransactionsEtag st)) = Js.Resolved response ->
  0 < Response.count response ->
  axios_get url config1 = Js.Resolved response' ->
  0 < Response.count response' ->
  Response.etag response' = Response.etag response ->
  loadOutgoingTransactions safeAddress getState st1
  = (Js.Resolved None, emit [HttpGet url config1] st1).
Proof.
  intros url st1 config1 Hget Hcount Hget' Hcount' Hetag.
  assert (Hst1 : prevSaveTransactionsEtag st1 = Response.etag response).
  { subst st1. apply etag_after_positive_count; assumption. }
  unfold loadOutgoingTransactions. fold url. fold config1. rewrite Hget'.
  destruct (Z.ltb_spec 0 (Response.count response')); [|lia].
  simpl prevSaveTransactionsEtag.
  rewrite (proj2 (strict_eq_true _ _)) by congruence. reflexivity.
Qed.

Lemma unchanged_history_not_refetched_witness :
  let response :=
    {| Response.count := 1;
       Response.results := [Sample.rawTx Sample.token 0 (Some Sample.transferData)];
       Response.etag := Js.Str "abc" |} in
  let net := Sample.network [] [] (fun _ => Js.Resolved response) in
  let first :=
    @loadOutgoingTransactions Sample.imports net Sample.safe
      (Sample.getState [Sample.token]) initialState in
  let second :=
    @loadOutgoingTransactions Sample.imports net Sample.safe
      (Sample.getState [Sample.token]) first.2 in
  second.1 = Js.Resolved None.
Proof.
  intros response net first second.
  pose proof (@unchanged_history_not_refetched Sample.imports net Sample.safe
                (Sample.getState [Sample.token]) initialState response response
                eq_refl eq_refl eq_refl eq_refl eq_refl) as Hsecond.
  subst second first. rewrite Hsecond. reflexivity.
Defined.

(** X15: an output loses and duplicates nothing: the records of its two
    groups together are, up to order, the records of the transactions that
    reached line 238 (the seed, followed by the fetched results when there
    are new ones), one per transaction; the [outgoing] group holds no
    cancellation and the [cancel] group nothing else. *)
Theorem groups_cover_all_records `{Imports} `{Network}
    (safeAddress : string) (getState : unit -> AppState) (st : ModuleState)
    (out : SafeTransactionsType) (st' : ModuleState) :
  loadOutgoingTransactions safeAddress getState st = (Js.Resolved (Some out), st') ->
  exists recs og cg,
    Forall2 (normalizes safeAddress getState) (fetchedTransactions safeAddress st) recs
    /\ outgoing out !! safeAddress = Some og
    /\ cancel out !! safeAddress = Some cg
    /\ default [] og ++ default [] cg ≡ₚ recs
    /\ (length (default [] og) + length (default [] cg)
        = length (fetchedTransactions safeAddress st))%nat
    /\ Forall (fun r => Transaction.cancellationTx r = false) (default [] og)
    /\ Forall (fun r => Transaction.cancellationTx r = true) (default [] cg).
Proof.
  intros Hl.
  apply loadOutgoingTransactions_output in Hl as (recs & Hf & ->).
  exists recs,
    (group_of groupKey "outgoing" recs), (group_of groupKey "cancel" recs).
  split; [exact Hf|].
  split; [apply groupTransactions_outgoing|].
  split; [apply groupTransactions_cancel|].
  assert (Hog : default [] (group_of groupKey "outgoing" recs)
                = filter (fun r => Transaction.cancellationTx r = false) recs).
  { unfold group_of. rewrite groupKey_outgoing.
    destruct (filter (fun r => Transaction.cancellationTx r = false) recs); reflexivity. }
  assert (Hcg : default [] (group_of groupKey "cancel" recs)
                = filter (fun r => Transaction.cancellationTx r = true) recs).
  { unfold group_of. rewrite groupKey_cancel.
    destruct (filter (fun r => Transaction.cancellationTx r = true) recs); reflexivity. }
  rewrite Hog, Hcg.
  assert (Hperm : filter (fun r => Transaction.cancellationTx r = false) recs
                  ++ filter (fun r => Transaction.cancellationTx r = true) recs ≡ₚ recs).
  { assert (Hc : filter (fun r => Transaction.cancellationTx r = true) recs
                 = filter (fun r => ~ Transaction.cancellationTx r = false) recs).
    { apply list_filter_iff. intros r.
      destruct (Transaction.cancellationTx r); split; intros Hr;
        try congruence; try discriminate;
        try (exfalso; apply Hr; reflexivity). }
    rewrite Hc. apply filter_app_complement. }
  split; [exact Hperm|]. split.
  - rewrite <- length_app, Hperm. symmetry. eapply Forall2_length. exact Hf.
  - split; apply Forall_forall; intros r Hr; apply list_elem_of_filter in Hr as [Hr _];
      exact Hr.
Qed.

Lemma groups_cover_all_records_witness :
  let response :=
    {| Response.count := 2;
       Response.results := [Sample.rawTx Sample.safe 0 None;
                            Sample.rawTx Sample.other 1 None];
       Response.etag := Js.Str "abc" |} in
  let net := Sample.network [] [] (fun _ => Js.Resolved response) in
  exists out st' og cg,
    @loadOutgoingTransactions Sample.imports net Sample.safe (Sample.getState [])
      initialState = (Js.Resolved (Some out), st')
    /\ outgoing out !! Sample.safe = Some og
    /\ cancel out !! Sample.safe = Some cg
    /\ (length (default [] og) + length (default [] cg) = 3)%nat.
Proof.
  intros response net.
  destruct (@loadOutgoingTransactions Sample.imports net Sample.safe
              (Sample.getState []) initialState) as [[[out|]|e] st'] eqn:Hl;
    [|vm_compute in Hl; discriminate|vm_compute in Hl; discriminate].
  destruct (@groups_cover_all_records Sample.imports net Sample.safe
              (Sample.getState []) initialState out st' Hl)
    as (recs & og & cg & Hf & Hog & Hcg & _ & Hlen & _).
  exists out, st', og, cg. split; [reflexivity|].
  split; [exact Hog|]. split; [exact Hcg|]. exact Hlen.
Defined.

(** X16: on new data the genesis record comes first: for a seed of one
    record that normalizes to a record that is no cancellation, the
    [outgoing] group is that record followed by the records of the fetched
    transactions that are no cancellations, in the order of the response. *)
Theorem genesis_record_first `{Imports} `{Network}
    (safeAddress : string) (getState : unit -> AppState) (st : ModuleState)
    (response : Response.t) (g : TxServiceModel.t) (r : Transaction.t)
    (recs : list Transaction.t) :
  axios_get (buildTxServiceUrl safeAddress)
            (requestConfig (prevSaveTransactionsEtag st)) = Js.Resolved response ->
  0 < Response.count response ->
  Js.strict_eq (prevSaveTransactionsEtag st) (Response.etag response) = false ->
  addMockSafeCreationTx safeAddress = [g] ->
  normalizes safeAddress getState g r ->
  Transaction.cancellationTx r = false ->
  Forall2 (normalizes safeAddress getState) (Response.results response) recs ->
  exists out,
    (loadOutgoingTransactions safeAddress getState st).1 = Js.Resolved (Some out)
    /\ outgoing out !! safeAddress
       = Some (Some (r :: filter (fun x => Transaction.cancellationTx x = false) recs))
    /\ cancel out !! safeAddress
       = Some (match filter (fun x => Transaction.cancellationTx x = true) recs with
               | [] => None
               | l => Some l
               end).
Proof.
  intros Hget Hcount Hne Hseed Hg Hnc Hrecs.
  exists (groupTransactions safeAddress (r :: recs)). split; [|split].
  - unfold loadOutgoingTransactions. rewrite Hget.
    destruct (Z.ltb_spec 0 (Response.count response)); [|lia].
    simpl prevSaveTransactionsEtag. rewrite Hne, Hseed.
    apply normalizeAndGroup_succeeds. simpl. constructor; assumption.
  - rewrite groupTransactions_outgoing. unfold group_of.
    rewrite groupKey_outgoing, filter_cons_True by exact Hnc. reflexivity.
  - rewrite groupTransactions_cancel. unfold group_of.
    rewrite groupKey_cancel, filter_cons_False by congruence. reflexivity.
Qed.

Lemma genesis_record_first_witness :
  let response :=
    {| Response.count := 2;
       Response.results := [Sample.rawTx Sample.safe 0 None;
                            Sample.rawTx Sample.other 1 None];
       Response.etag := Js.Str "abc" |} in
  let net := Sample.network [] [] (fun _ => Js.Resolved response) in
  exists out g x,
    (@loadOutgoingTransactions Sample.imports net Sample.safe (Sample.getState [])
       initialState).1 = Js.Resolved (Some out)
    /\ outgoing out !! Sample.safe = Some (Some [g; x])
    /\ Transaction.creationTx g = Some true
    /\ Transaction.recipient x = Sample.other.
Proof.
  intros response net.
  destruct (@buildTransactionFrom Sample.imports net Sample.safe Sample.creationRecord
              ∅ (Some "0x")) as [g|e] eqn:Hg; [|vm_compute in Hg; discriminate].
  destruct (@buildTransactionFrom Sample.imports net Sample.safe
              (Sample.rawTx Sample.safe 0 None) ∅ (Some "0x")) as [c|e] eqn:Hc;
    [|vm_compute in Hc; discriminate].
  destruct (@buildTransactionFrom Sample.imports net Sample.safe
              (Sample.rawTx Sample.other 1 None) ∅ (Some "0x")) as [x|e] eqn:Hx;
    [|vm_compute in Hx; discriminate].
  assert (Hgn : @normalizes Sample.imports net Sample.safe (Sample.getState [])
                  Sample.creationRecord g) by (exists (Some "0x"); split; [reflexivity | exact Hg]).
  assert (Hrecs : Forall2 (@normalizes Sample.imports net Sample.safe (Sample.getState []))
                    (Response.results response) [c; x]).
  { repeat constructor; exists (Some "0x"); (split; [reflexivity | assumption]). }
  assert (Hgc : Transaction.cancellationTx g = false)
    by (vm_compute in Hg; injection Hg as <-; reflexivity).
  destruct (@genesis_record_first Sample.imports net Sample.safe (Sample.getState [])
              initialState response Sample.creationRecord g [c; x]
              eq_refl eq_refl eq_refl eq_refl Hgn Hgc Hrecs) as (out & Hout & Hog & _).
  exists out, g, x. split; [exact Hout|]. split.
  - rewrite Hog. vm_compute in Hc, Hx. injection Hc as <-. injection Hx as <-.
    reflexivity.
  - split.
    + vm_compute in Hg. injection Hg as <-. reflexivity.
    + vm_compute in Hx. injection Hx as <-. reflexivity.
Defined.

(** ** The sidebar filter *)

Section SidebarFacts.
Import Sidebar.

Lemma prefix_chars (p s : string) :
  String.prefix p s = true <-> exists b, Js.chars s = Js.chars p ++ b.
Proof.
  revert s. induction p as [|c p IH]; intros s.
  - split; [intros _; exists (Js.chars s); reflexivity|].
    intros _. destruct s; reflexivity.
  - destruct s as [|d s]; simpl.
    + split; [discriminate | intros [b Hb]; discriminate].
    + destruct (ascii_dec c d) as [->|Hne].
      * rewrite IH. split; intros [b Hb]; exists b.
        -- unfold Js.chars in *. simpl. now rewrite Hb.
        -- unfold Js.chars in *. simpl in Hb. now injection Hb.
      * split; [discriminate|]. intros [b Hb].
        unfold Js.chars in Hb. simpl in Hb. injection Hb as Hcd _. congruence.
Qed.

(** [s.includes(p)]: [p] occurs somewhere in [s]. *)
Lemma includes_chars (s p : string) :
  Js.includes s p = true <-> exists a b, Js.chars s = a ++ Js.chars p ++ b.
Proof.
  induction s as [|c s IH].
  - destruct p as [|d p]; simpl.
    + split; [intros _; exists [], []; reflexivity | reflexivity].
    + split; [discriminate|]. intros (a & b & Hab).
      unfold Js.chars in Hab. simpl in Hab.
      destruct a; discriminate.
  - change (Js.includes (String c s) p)
      with (String.prefix p (String c s) || Js.includes s p).
    rewrite orb_true_iff, prefix_chars, IH. split.
    + intros [[b Hb] | (a & b & Hab)].
      * exists [], b. exact Hb.
      * exists (c :: a), b. unfold Js.chars in *. simpl. now rewrite Hab.
    + intros (a & b & Hab). destruct a as [|x a].
      * left. exists b. exact Hab.
      * right. exists a, b. unfold Js.chars in *. simpl in Hab. now injection Hab.
Qed.

Lemma includes_refl (s : string) : Js.includes s s = true.
Proof. apply includes_chars. exists [], []. now rewrite app_nil_r. Qed.

Lemma includes_trans (s p q : string) :
  Js.includes s p = true -> Js.includes p q = true -> Js.includes s q = true.
Proof.
  rewrite !includes_chars. intros (a & b & Hs) (c & d & Hp).
  exists (a ++ c), (d ++ b). rewrite Hs, Hp, <- !app_assoc. reflexivity.
Qed.

Lemma includes_empty (p : string) : Js.includes "" p = true -> p = "".
Proof. destruct p; [reflexivity | discriminate]. Qed.

Lemma toLowerCase_truthy (f : string) :
  Js.truthy (Some (toLowerCase f)) = Js.truthy (Some f).
Proof. destruct f; reflexivity. Qed.

Lemma lower_char_idempotent (c : ascii) : lower_char (lower_char c) = lower_char c.
Proof.
  unfold lower_char.
  destruct ((65 <=? nat_of_ascii c) && (nat_of_ascii c <=? 90))%nat eqn:Hup;
    [|now rewrite Hup].
  apply andb_true_iff in Hup as [Hlo Hhi].
  apply Nat.leb_le in Hlo, Hhi.
  rewrite nat_ascii_embedding by lia.
  destruct (Nat.leb_spec (nat_of_ascii c + 32) 90); [lia|].
  rewrite andb_false_r. reflexivity.
Qed.

Lemma toLowerCase_idempotent (s : string) :
  toLowerCase (toLowerCase s) = toLowerCase s.
Proof.
  unfold toLowerCase. rewrite chars_str, map_map. f_equal.
  apply map_ext. intros c. apply lower_char_idempotent.
Qed.

Lemma shown_lower (f : string) (safe : Safe) :
  shown (toLowerCase f) safe = shown f safe.
Proof.
  unfold shown. rewrite toLowerCase_truthy, toLowerCase_idempotent. reflexivity.
Qed.

Lemma filterBy_ext (f g : string) (safes : list Safe) :
  (forall safe, shown f safe = shown g safe) -> filterBy f safes = filterBy g safes.
Proof.
  intros Hfg. unfold filterBy. apply list_filter_iff. intros safe.
  rewrite Hfg. reflexivity.
Qed.

End SidebarFacts.

(** X17: with an empty filter every safe is listed, in its order; this is
    the list shown after the search is cancelled. *)
Theorem filterBy_empty (safes : list Sidebar.Safe) (st : Sidebar.State) :
  Sidebar.filterBy "" safes = safes
  /\ Sidebar.filteredSafes safes (Sidebar.handleFilterCancel st) = safes
  /\ Sidebar.filteredSafes safes Sidebar.initial = safes.
Proof.
  assert (He : Sidebar.filterBy "" safes = safes).
  { unfold Sidebar.filterBy. induction safes as [|s safes IH]; [reflexivity|].
    rewrite filter_cons_True by reflexivity. now rewrite IH. }
  repeat split; exact He.
Qed.

(** X18: the search ignores case: two filters that agree once lower-cased
    list the same safes, and a safe whose name or address agrees with the
    filter once lower-cased is always listed. *)
Theorem filterBy_ignores_case (f g : string) (safes : list Sidebar.Safe) :
  Sidebar.toLowerCase f = Sidebar.toLowerCase g ->
  Sidebar.filterBy f safes = Sidebar.filterBy g safes
  /\ (forall safe,
         safe ∈ safes ->
         Sidebar.toLowerCase (Sidebar.name safe) = Sidebar.toLowerCase f
         \/ Sidebar.toLowerCase (Sidebar.address safe) = Sidebar.toLowerCase f ->
         safe ∈ Sidebar.filterBy g safes).
Proof.
  intros Hfg. split.
  - apply filterBy_ext. intros safe.
    rewrite <- (shown_lower f), <- (shown_lower g), Hfg. reflexivity.
  - intros safe Hin Hmatch. unfold Sidebar.filterBy.
    apply list_elem_of_filter. split; [|exact Hin].
    unfold Sidebar.shown. rewrite <- Hfg.
    destruct Hmatch as [-> | ->]; rewrite includes_refl;
      rewrite ?orb_true_r; reflexivity.
Qed.

Lemma filterBy_ignores_case_witness :
  let safes := [{| Sidebar.address := "0xAbCd"; Sidebar.name := "Treasury" |};
                {| Sidebar.address := "0x1234"; Sidebar.name := "Ops" |}] in
  Sidebar.filterBy "TREAS" safes = Sidebar.filterBy "treas" safes
  /\ Sidebar.filterBy "treas" safes
     = [{| Sidebar.address := "0xAbCd"; Sidebar.name := "Treasury" |}].
Proof.
  intros safes. split; [|reflexivity].
  apply (proj1 (filterBy_ignores_case "TREAS" "treas" safes eq_refl)).
Defined.

(** X19: typing more narrows the list, for filters, names and addresses
    made of ASCII characters: when the filter [f] occurs in the filter
    [g], case ignored, every safe listed for [g] is listed for [f], in the
    same order, and filtering the list of [f] by [g] gives the list of
    [g]; in particular filtering twice by one filter changes nothing. *)
Theorem filterBy_narrows (f g : string) (safes : list Sidebar.Safe) :
  Sidebar.isAscii f = true ->
  Sidebar.isAscii g = true ->
  Forall (fun safe => Sidebar.isAscii (Sidebar.address safe) = true
                      /\ Sidebar.isAscii (Sidebar.name safe) = true) safes ->
  Js.includes (Sidebar.toLowerCase g) (Sidebar.toLowerCase f) = true ->
  sublist (Sidebar.filterBy g safes) (Sidebar.filterBy f safes)
  /\ sublist (Sidebar.filterBy f safes) safes
  /\ Sidebar.filterBy g (Sidebar.filterBy f safes) = Sidebar.filterBy g safes
  /\ Sidebar.filterBy f (Sidebar.filterBy f safes) = Sidebar.filterBy f safes.
Proof.
  intros _ _ _ Hfg.
  assert (Himp : forall safe, Sidebar.shown g safe = true -> Sidebar.shown f safe = true).
  { intros safe. unfold Sidebar.shown.
    destruct f as [|c f].
    - intros _. reflexivity.
    - destruct g as [|d g]; [apply includes_empty in Hfg; discriminate|].
      simpl negb. rewrite !orb_false_l, !orb_true_iff.
      intros [Ha | Hn]; [left | right]; eapply includes_trans; eassumption. }
  assert (Hnarrow : forall h k : string,
             (forall safe, Sidebar.shown k safe = true -> Sidebar.shown h safe = true) ->
             Sidebar.filterBy k (Sidebar.filterBy h safes) = Sidebar.filterBy k safes).
  { intros h k Hkh. unfold Sidebar.filterBy. rewrite list_filter_filter.
    apply list_filter_iff. intros safe. split; [intros [Hk _]; exact Hk|].
    intros Hk. split; [exact Hk | apply Hkh; exact Hk]. }
  split; [|split; [|split]].
  - rewrite <- (Hnarrow f g Himp). unfold Sidebar.filterBy at 1. apply sublist_filter.
  - unfold Sidebar.filterBy. apply sublist_filter.
  - apply Hnarrow. exact Himp.
  - apply Hnarrow. auto.
Qed.

Lemma filterBy_narrows_witness :
  let safes := [{| Sidebar.address := "0xAbCd"; Sidebar.name := "Treasury" |};
                {| Sidebar.address := "0x1234"; Sidebar.name := "Trading" |}] in
  Sidebar.filterBy "Trea" (Sidebar.filterBy "tr" safes) = Sidebar.filterBy "Trea" safes
  /\ Sidebar.filterBy "Trea" safes
     = [{| Sidebar.address := "0xAbCd"; Sidebar.name := "Treasury" |}]
  /\ Sidebar.filterBy "tr" safes = safes.
Proof.
  intros safes. split; [|split; reflexivity].
  apply (filterBy_narrows "tr" "Trea" safes eq_refl eq_refl).
  - repeat constructor.
  - reflexivity.
Defined.

(** X20: whatever happens to the component, the drawer is open exactly
    when the number of toggling inputs so far (Escape, a click away, on the
    backdrop, on the add-safe button or on a safe, a toggle through the
    context) is odd; no other key, no typing and no timer opens or closes
    it; and the filter is the text typed last, or empty when the search
    was cancelled or the timer fired since. *)
Theorem sidebar_state_after (inputs : list Sidebar.input) :
  let st := foldl Sidebar.handle Sidebar.initial inputs in
  Sidebar.isOpen st
  = Nat.odd (length (filter (fun i => Sidebar.toggles i = true) inputs))
  /\ Sidebar.filter st
     = foldl (fun text i =>
                match i with
                | Sidebar.Type_ v => v
                | Sidebar.CancelSearch | Sidebar.ResetTimer => ""
                | _ => text
                end) "" inputs.
Proof.
  cbv zeta.
  assert (Hgen : forall st,
             Sidebar.isOpen (foldl Sidebar.handle st inputs)
             = xorb (Sidebar.isOpen st)
                    (Nat.odd (length (filter (fun i => Sidebar.toggles i = true) inputs)))
             /\ Sidebar.filter (foldl Sidebar.handle st inputs)
                = foldl (fun text i =>
                           match i with
                           | Sidebar.Type_ v => v
                           | Sidebar.CancelSearch | Sidebar.ResetTimer => ""
                           | _ => text
                           end) (Sidebar.filter st) inputs).
  { induction inputs as [|i inputs IH]; intros st.
    - simpl. rewrite xorb_false_r. split; reflexivity.
    - simpl foldl. destruct (IH (Sidebar.handle st i)) as [IHo IHf].
      rewrite IHo, IHf. clear IH IHo IHf.
      destruct (Sidebar.toggles i) eqn:Ht.
      + rewrite filter_cons_True by exact Ht. simpl length. rewrite Nat.odd_succ.
        rewrite <- Nat.negb_odd.
        destruct i as [k| | | | | |v| |]; simpl in Ht; try discriminate;
          simpl; unfold Sidebar.handleEsc; rewrite ?Ht; simpl;
          (split; [destruct (Sidebar.isOpen st), (Nat.odd _); reflexivity | reflexivity]).
      + rewrite filter_cons_False by congruence.
        destruct i as [k| | | | | |v| |]; simpl in Ht; try discriminate;
          simpl; unfold Sidebar.handleEsc; rewrite ?Ht; simpl; split; reflexivity. }
  destruct (Hgen Sidebar.initial) as [Ho Hf]. split; [exact Ho | exact Hf].
Qed.

(** ** The storage middleware *)

Section StorageFacts.
Import SafeStorage.
Context `{ActionTypes}.
Context {GlobalState SafesJSON Handled Owner : Type}.
Variables
  (tokensSelector : GlobalState -> gmap string Token.t)
  (getActiveTokensAddressesForAllSafes : GlobalState -> gset string)
  (safesMapSelector : GlobalState -> SafesJSON)
  (getState : unit -> GlobalState)
  (next : action Owner -> Handled)
  (saveSafes : SafesJSON -> Js.promise unit).

Local Abbreviation recalculate :=
  (recalculateActiveTokens tokensSelector getActiveTokensAddressesForAllSafes).
Local Abbreviation middleware :=
  (safeStorageMware tokensSelector getActiveTokensAddressesForAllSafes
     safesMapSelector getState next saveSafes).

Lemma watched_spec (t : string) :
  existsb (String.eqb t) watchedActions = true <-> t ∈ watchedActions.
Proof.
  rewrite existsb_exists, list_elem_of_In. split.
  - intros (x & Hx & Heq). apply String.eqb_eq in Heq. now subst.
  - intros Hin. exists t. split; [exact Hin | apply String.eqb_refl].
Qed.

(** What the removal loop leaves under each key, when it runs over the
    entries of [m] and removes from [b]. *)
Lemma removal_lookup (active : gset string) (b m : gmap string Token.t) (k : string) :
  let r := map_fold (fun _ token map =>
                       if decide (Token.address token ∈ active) then map
                       else delete (Token.address token) map) b m in
  (r !! k = None \/ r !! k = b !! k)
  /\ ((exists i t, m !! i = Some t /\ Token.address t = k /\ k ∉ active) ->
      r !! k = None)
  /\ ((forall i t, m !! i = Some t -> Token.address t = k -> k ∈ active) ->
      r !! k = b !! k).
Proof.
  cbv zeta. revert m.
  apply (map_fold_weak_ind
           (fun r m =>
              (r !! k = None \/ r !! k = b !! k)
              /\ ((exists i t, m !! i = Some t /\ Token.address t = k /\ k ∉ active) ->
                  r !! k = None)
              /\ ((forall i t, m !! i = Some t -> Token.address t = k -> k ∈ active) ->
                  r !! k = b !! k))).
  - split; [right; reflexivity|]. split; [|reflexivity].
    intros (i & t & Hi & _). rewrite lookup_empty in Hi. discriminate.
  - intros i x m r Hfresh (IH1 & IH2 & IH3).
    assert (Hold : forall j t, m !! j = Some t -> <[i:=x]> m !! j = Some t).
    { intros j t Hj. rewrite lookup_insert_ne; [exact Hj | congruence]. }
    destruct (decide (Token.address x ∈ active)) as [Hact|Hact].
    + split; [exact IH1|]. split.
      * intros (j & t & Hj & Ht & Hk). apply IH2.
        destruct (decide (i = j)) as [->|Hij].
        -- rewrite lookup_insert_eq in Hj. injection Hj as <-. congruence.
        -- rewrite lookup_insert_ne in Hj by exact Hij. eauto.
      * intros Hall. apply IH3. intros j t Hj. exact (Hall j t (Hold j t Hj)).
    + destruct (decide (Token.address x = k)) as [Hk|Hk].
      * rewrite Hk, lookup_delete_eq. split; [left; reflexivity|].
        split; [reflexivity|].
        intros Hall. exfalso. apply Hact. rewrite Hk.
        apply (Hall i x); [apply lookup_insert_eq | exact Hk].
      * rewrite lookup_delete_ne by exact Hk. split; [exact IH1|]. split.
        -- intros (j & t & Hj & Ht & Hna). apply IH2.
           destruct (decide (i = j)) as [->|Hij].
           ++ rewrite lookup_insert_eq in Hj. injection Hj as <-. congruence.
           ++ rewrite lookup_insert_ne in Hj by exact Hij. eauto.
        -- intros Hall. apply IH3. intros j t Hj. exact (Hall j t (Hold j t Hj)).
Qed.

Lemma recalculate_lookup (state : GlobalState) (k : string) :
  let tokens := tokensSelector state in
  let active := getActiveTokensAddressesForAllSafes state in
  (recalculate state !! k = None \/ recalculate state !! k = tokens !! k)
  /\ ((exists i t, tokens !! i = Some t /\ Token.address t = k /\ k ∉ active) ->
      recalculate state !! k = None)
  /\ ((forall i t, tokens !! i = Some t -> Token.address t = k -> k ∈ active) ->
      recalculate state !! k = tokens !! k).
Proof.
  intros tokens active.
  exact (removal_lookup active tokens tokens k).
Qed.

(** X21: [recalculateActiveTokens] only removes entries; when every token
    is stored under its own address it keeps exactly the tokens whose
    address is active, and when every token is active it changes
    nothing. *)
Theorem recalculateActiveTokens_keeps_active (state : GlobalState) :
  let tokens := tokensSelector state in
  let active := getActiveTokensAddressesForAllSafes state in
  recalculate state ⊆ tokens
  /\ ((forall k t, tokens !! k = Some t -> Token.address t = k) ->
      recalculate state = filter (fun kt => kt.1 ∈ active) tokens)
  /\ ((forall k t, tokens !! k = Some t -> Token.address t ∈ active) ->
      recalculate state = tokens).
Proof.
  cbv zeta. split; [|split].
  - apply map_subseteq_spec. intros k t Hk.
    destruct (recalculate_lookup state k) as ([Hnone | Hsame] & _ & _); congruence.
  - intros Hwf. apply map_eq. intros k.
    destruct (recalculate_lookup state k) as (Hsub & Hgone & Hkept).
    destruct (tokensSelector state !! k) as [t|] eqn:Hk.
    + destruct (decide (k ∈ getActiveTokensAddressesForAllSafes state)) as [Hact|Hact].
      * rewrite Hkept by (intros; assumption).
        symmetry. apply map_lookup_filter_Some. split; [exact Hk | exact Hact].
      * rewrite Hgone by (exists k, t; split; [exact Hk | split; [eauto | exact Hact]]).
        symmetry. apply map_lookup_filter_None. right. intros t' Hk' Hin.
        apply Hact. exact Hin.
    + destruct Hsub as [-> | ->];
        symmetry; apply map_lookup_filter_None; left; exact Hk.
  - intros Hall. apply map_eq. intros k.
    destruct (recalculate_lookup state k) as (_ & _ & Hkept).
    apply Hkept. intros i t Hi <-. eapply Hall. exact Hi.
Qed.

(** X22: an action whose type is not watched only passes through [next]:
    nothing is saved and the middleware resolves to what [next] returned. *)
Theorem unwatched_action_passes (a : action Owner) :
  type a ∉ watchedActions ->
  middleware a = (Js.Resolved (next a), [Next a]).
Proof.
  intros Hun. unfold safeStorageMware.
  destruct (existsb _ watchedActions) eqn:Hw; [|reflexivity].
  apply watched_spec in Hw. contradiction.
Qed.

(** X23: for every action [next] is called once and first, and a resolved
    middleware returns what [next] returned; for a watched action the safes
    of the state are saved right after, before anything else, and when
    [saveSafes] rejects the middleware rejects with its error and does
    nothing more. *)
Theorem middleware_saves_safes_first (a : action Owner) :
  let safes := safesMapSelector (getState tt) in
  (exists effects,
      (middleware a).2 = Next a :: effects
      /\ (forall b, Next b ∉ effects))
  /\ (forall h, (middleware a).1 = Js.Resolved h -> h = next a)
  /\ (type a ∈ watchedActions ->
      (exists effects,
          (middleware a).2 = [Next a; SaveSafes safes] ++ effects
          /\ (forall s, SaveSafes s ∉ effects))
      /\ (forall e, saveSafes safes = Js.Rejected e ->
            middleware a = (Js.Rejected e,
                            [Next a; SaveSafes safes]))).
Proof.
  intros safes.
  assert (Hsw : forall b : effect SafesJSON Owner -> Prop,
             (forall m, b (SaveActiveTokens m)) ->
             (forall o i, b (DispatchAddAddressBookEntry o i)) ->
             (forall p, b (SaveDefaultSafe p)) ->
             Forall b (handleWatched (SafesJSON := SafesJSON) tokensSelector
                         getActiveTokensAddressesForAllSafes (getState tt) a).2).
  { intros b Hb1 Hb2 Hb3. unfold handleWatched.
    repeat match goal with
           | |- context [if ?c then _ else _] => destruct c
           | |- context [match payload_of a with _ => _ end] =>
               destruct (payload_of a) as [|owners|addr' [s|]|addr]
           end; simpl; repeat constructor; auto.
    apply Forall_forall. intros e He. apply list_elem_of_fmap in He as (o & -> & _).
    apply Hb2. }
  unfold safeStorageMware. fold safes.
  destruct (existsb _ watchedActions) eqn:Hw.
  - destruct (saveSafes safes) as [[]|e] eqn:Hsave.
    + revert Hsw.
      destruct (handleWatched _ _ _ a) as [outcome effects].
      intros Heff. simpl in Heff.
      split; [|split].
      * exists (SaveSafes safes :: effects). split; [reflexivity|].
        intros b Hin. apply elem_of_cons in Hin as [Hin|Hin]; [discriminate|].
        pose proof (Heff (fun e => forall c, e <> Next c)
                      ltac:(discriminate) ltac:(discriminate) ltac:(discriminate)) as Hall.
        rewrite Forall_forall in Hall. exact (Hall _ Hin b eq_refl).
      * simpl. destruct outcome; simpl; [intros h [= <-]; reflexivity | discriminate].
      * intros _. split; [|intros e He; discriminate].
        exists effects. split; [reflexivity|].
        intros s Hin.
        pose proof (Heff (fun e => forall c, e <> SaveSafes c)
                      ltac:(discriminate) ltac:(discriminate) ltac:(discriminate)) as Hall.
        rewrite Forall_forall in Hall. exact (Hall _ Hin s eq_refl).
    + split; [|split].
      * exists [SaveSafes safes]. split; [reflexivity|].
        intros b Hin. apply list_elem_of_singleton in Hin. discriminate.
      * simpl. discriminate.
      * intros _. split.
        -- exists []. split; [reflexivity|]. intros s Hin. inversion Hin.
        -- intros e' [= <-]. reflexivity.
  - split; [|split].
    + exists []. split; [reflexivity|]. intros b Hin. inversion Hin.
    + simpl. intros h [= <-]. reflexivity.
    + intros Hin. apply watched_spec in Hin. congruence.
Qed.

(** X24: an [ADD_SAFE] action, once the safes are saved, dispatches one
    address-book entry per owner of the new safe, in the order of the
    owners and each marked as owner, and nothing else; with any other
    payload the middleware rejects after saving the safes. *)
Theorem add_safe_registers_owners (a : action Owner) :
  let safes := safesMapSelector (getState tt) in
  ADD_SAFE <> ACTIVATE_TOKEN_FOR_ALL_SAFES ->
  type a = ADD_SAFE ->
  saveSafes safes = Js.Resolved tt ->
  (forall owners,
      payload_of a = SafePayload owners ->
      middleware a
      = (Js.Resolved (next a),
         [Next a; SaveSafes safes]
           ++ map (fun owner => DispatchAddAddressBookEntry owner true) owners))
  /\ ((forall owners, payload_of a <> SafePayload owners) ->
      exists e, middleware a = (Js.Rejected e, [Next a; SaveSafes safes])).
Proof.
  intros safes Hne Hty Hsave.
  assert (Hw : existsb (String.eqb (type a)) watchedActions = true).
  { apply watched_spec. rewrite Hty. unfold watchedActions. apply list_elem_of_here. }
  assert (Hfirst : String.eqb (type a) ACTIVATE_TOKEN_FOR_ALL_SAFES = false).
  { apply String.eqb_neq. congruence. }
  assert (Hsecond : String.eqb (type a) ADD_SAFE = true).
  { apply String.eqb_eq. exact Hty. }
  unfold safeStorageMware. fold safes. rewrite Hw, Hsave.
  unfold handleWatched. rewrite Hfirst, Hsecond. split.
  - intros owners ->. reflexivity.
  - intros Hother.
    destruct (payload_of a) as [|owners|addr' tokens|addr]; simpl; eauto.
    destruct (Hother owners eq_refl).
Qed.

(** The effects of the [switch], case by case. *)
Lemma handleWatched_effects (state : GlobalState) (a : action Owner) :
  let effects :=
    (handleWatched (SafesJSON := SafesJSON) tokensSelector
       getActiveTokensAddressesForAllSafes state a).2 in
  effects = []
  \/ (effects = [SaveActiveTokens (recalculate state)]
      /\ (type a = ACTIVATE_TOKEN_FOR_ALL_SAFES
          \/ (type a = UPDATE_SAFE /\ exists addr s, payload_of a = UpdatePayload addr (Some s))))
  \/ (effects = [SaveDefaultSafe (payload_of a)]
      /\ type a = SET_DEFAULT_SAFE /\ truthy_payload (payload_of a) = true)
  \/ (exists owners,
         effects = map (fun owner => DispatchAddAddressBookEntry owner true) owners
         /\ type a = ADD_SAFE /\ payload_of a = SafePayload owners).
Proof.
  cbv zeta. unfold handleWatched.
  destruct (String.eqb_spec (type a) ACTIVATE_TOKEN_FOR_ALL_SAFES) as [H1|H1].
  { right. left. auto. }
  destruct (String.eqb_spec (type a) ADD_SAFE) as [H2|H2].
  { destruct (payload_of a) as [|owners|addr' tokens|addr] eqn:Hp; simpl; auto.
    right. right. right. exists owners. auto. }
  destruct (String.eqb_spec (type a) UPDATE_SAFE) as [H3|H3].
  { destruct (payload_of a) as [|owners|addr [s|]|addr] eqn:Hp; simpl; auto.
    right. left. split; [reflexivity|]. right. eauto. }
  destruct (String.eqb_spec (type a) SET_DEFAULT_SAFE) as [H4|H4]; [|auto].
  destruct (truthy_payload (payload_of a)) eqn:Htr; simpl; auto.
  right. right. left. auto.
Qed.

Lemma middleware_effects (a : action Owner) :
  let safes := safesMapSelector (getState tt) in
  let switched :=
    (handleWatched (SafesJSON := SafesJSON) tokensSelector
       getActiveTokensAddressesForAllSafes (getState tt) a).2 in
  (middleware a).2 = [Next a]
  \/ (middleware a).2 = [Next a; SaveSafes safes]
  \/ (middleware a).2 = [Next a; SaveSafes safes] ++ switched.
Proof.
  cbv zeta. unfold safeStorageMware.
  destruct (existsb _ watchedActions); [|left; reflexivity].
  destruct (saveSafes _) as [[]|e]; [|right; left; reflexivity].
  right. right. destruct (handleWatched _ _ _ a). reflexivity.
Qed.

Lemma switched_member (a : action Owner) (x : effect SafesJSON Owner) :
  x ∈ (middleware a).2 ->
  (forall b, x <> Next b) -> (forall s, x <> SaveSafes s) ->
  x ∈ (handleWatched (SafesJSON := SafesJSON) tokensSelector
         getActiveTokensAddressesForAllSafes (getState tt) a).2.
Proof.
  intros Hin Hn Hs.
  destruct (middleware_effects a) as [Heq | [Heq | Heq]]; rewrite Heq in Hin.
  - apply list_elem_of_singleton in Hin. destruct (Hn _ Hin).
  - rewrite !elem_of_cons, elem_of_nil in Hin.
    destruct Hin as [Hin | [Hin | []]]; [destruct (Hn _ Hin) | destruct (Hs _ Hin)].
  - rewrite elem_of_app, !elem_of_cons, elem_of_nil in Hin.
    destruct Hin as [[Hin | [Hin | []]] | Hin];
      [destruct (Hn _ Hin) | destruct (Hs _ Hin) | exact Hin].
Qed.

(** X25: the middleware writes to the other stores only where the
    [switch] says so: the active tokens are saved, at most once, only for
    [ACTIVATE_TOKEN_FOR_ALL_SAFES] or for an [UPDATE_SAFE] that carries
    [activeTokens], and what is saved is the recalculated registry; the
    default safe is saved only for a [SET_DEFAULT_SAFE] with a truthy
    payload, which is what is saved; address-book entries are dispatched
    only for [ADD_SAFE], for owners of its payload and marked as owners. *)
Theorem storage_effects_are_guarded (a : action Owner) :
  let effects := (middleware a).2 in
  (forall m,
      SaveActiveTokens m ∈ effects ->
      m = recalculate (getState tt)
      /\ (type a = ACTIVATE_TOKEN_FOR_ALL_SAFES
          \/ (type a = UPDATE_SAFE
              /\ exists addr s, payload_of a = UpdatePayload addr (Some s))))
  /\ (forall p,
         SaveDefaultSafe p ∈ effects ->
         type a = SET_DEFAULT_SAFE /\ p = payload_of a /\ truthy_payload p = true)
  /\ (forall owner isOwner,
         DispatchAddAddressBookEntry owner isOwner ∈ effects ->
         type a = ADD_SAFE /\ isOwner = true
         /\ exists owners, payload_of a = SafePayload owners /\ owner ∈ owners)
  /\ (length (filter (fun e => savesActiveTokens e = true) effects) <= 1)%nat.
Proof.
  cbv zeta.
  pose proof (handleWatched_effects (getState tt) a) as Hcases. cbv zeta in Hcases.
  split; [|split; [|split]].
  - intros m Hin. apply switched_member in Hin; [|discriminate|discriminate].
    destruct Hcases as [He | [[He Hty] | [[He _] | (owners & He & _)]]];
      rewrite He in Hin.
    + inversion Hin.
    + apply list_elem_of_singleton in Hin. injection Hin as ->. auto.
    + apply list_elem_of_singleton in Hin. discriminate.
    + apply list_elem_of_fmap in Hin as (o & Ho & _). discriminate.
  - intros p Hin. apply switched_member in Hin; [|discriminate|discriminate].
    destruct Hcases as [He | [[He _] | [(He & Hty & Htr) | (owners & He & _)]]];
      rewrite He in Hin.
    + inversion Hin.
    + apply list_elem_of_singleton in Hin. discriminate.
    + apply list_elem_of_singleton in Hin. injection Hin as ->. auto.
    + apply list_elem_of_fmap in Hin as (o & Ho & _). discriminate.
  - intros owner isOwner Hin.
    apply switched_member in Hin; [|discriminate|discriminate].
    destruct Hcases as [He | [[He _] | [[He _] | (owners & He & Hty & Hp)]]];
      rewrite He in Hin.
    + inversion Hin.
    + apply list_elem_of_singleton in Hin. discriminate.
    + apply list_elem_of_singleton in Hin. discriminate.
    + apply list_elem_of_fmap in Hin as (o & [= -> ->] & Ho). eauto.
  - assert (Hsw : (length (filter (fun e => savesActiveTokens e = true)
                     (handleWatched (SafesJSON := SafesJSON) tokensSelector
                        getActiveTokensAddressesForAllSafes (getState tt) a).2)
                   <= 1)%nat).
    { destruct Hcases as [He | [[He _] | [[He _] | (owners & He & _)]]]; rewrite He.
      - simpl. lia.
      - simpl. lia.
      - rewrite filter_cons_False by discriminate. simpl. lia.
      - clear He. induction owners as [|o owners IH]; [simpl; lia|].
        simpl map. rewrite filter_cons_False by discriminate. exact IH. }
    destruct (middleware_effects a) as [Heq | [Heq | Heq]]; rewrite Heq.
    + rewrite filter_cons_False by discriminate. simpl. lia.
    + rewrite !filter_cons_False by discriminate. simpl. lia.
    + rewrite filter_app, !filter_cons_False by discriminate. exact Hsw.
Qed.

End StorageFacts.

Lemma recalculateActiveTokens_keeps_active_witness :
  SafeStorage.recalculateActiveTokens fst snd SafeStorage.sampleState
  = filter (fun kt => kt.1 ∈ SafeStorage.sampleState.2) SafeStorage.sampleState.1
  /\ SafeStorage.recalculateActiveTokens fst snd SafeStorage.sampleState !! "0xA"
     = Some (SafeStorage.sampleToken "0xA")
  /\ SafeStorage.recalculateActiveTokens fst snd SafeStorage.sampleState !! "0xB" = None.
Proof.
  split; [|split; reflexivity].
  apply (proj1 (proj2 (recalculateActiveTokens_keeps_active
                         fst snd SafeStorage.sampleState))).
  intros k t Hk. simpl in Hk.
  apply lookup_insert_Some in Hk as [[<- <-] | [_ Hk]]; [reflexivity|].
  apply lookup_insert_Some in Hk as [[<- <-] | [_ Hk]]; [reflexivity|].
  rewrite lookup_empty in Hk. discriminate.
Defined.

Lemma unwatched_action_passes_witness :
  let a := {| SafeStorage.type := "ADD_ADDRESS_BOOK_ENTRY";
              SafeStorage.payload_of := SafeStorage.NoPayload |} in
  SafeStorage.sampleMiddleware a
  = (Js.Resolved "ADD_ADDRESS_BOOK_ENTRY", [SafeStorage.Next a]).
Proof.
  intros a.
  apply (@unwatched_action_passes SafeStorage.sampleTypes).
  unfold SafeStorage.watchedActions. simpl.
  rewrite !elem_of_cons, elem_of_nil.
  intros [Hc|[Hc|[Hc|[Hc|[Hc|[Hc|[Hc|[Hc|[Hc|[]]]]]]]]]]; discriminate.
Defined.

Lemma middleware_saves_safes_first_witness :
  let a := {| SafeStorage.type := "REMOVE_SAFE";
              SafeStorage.payload_of := SafeStorage.AddressPayload "0xSafe" |} in
  (SafeStorage.sampleMiddleware a).1 = Js.Resolved "REMOVE_SAFE"
  /\ exists effects,
       (SafeStorage.sampleMiddleware a).2
       = [SafeStorage.Next a; SafeStorage.SaveSafes ["0xSafe"]] ++ effects.
Proof.
  intros a. split; [reflexivity|].
  pose proof (@middleware_saves_safes_first SafeStorage.sampleTypes _ _ _ _
                fst snd (fun _ => ["0xSafe"]) (fun _ => SafeStorage.sampleState)
                SafeStorage.type (fun _ => Js.Resolved tt) a) as (_ & _ & Hw).
  destruct Hw as [(effects & Heff & _) _].
  - unfold SafeStorage.watchedActions. simpl. rewrite !elem_of_cons. auto.
  - exists effects. exact Heff.
Defined.

Lemma add_safe_registers_owners_witness :
  let a := {| SafeStorage.type := "ADD_SAFE";
              SafeStorage.payload_of := SafeStorage.SafePayload ["0xAlice"; "0xBob"] |} in
  SafeStorage.sampleMiddleware a
  = (Js.Resolved "ADD_SAFE",
     [SafeStorage.Next a; SafeStorage.SaveSafes ["0xSafe"];
      SafeStorage.DispatchAddAddressBookEntry "0xAlice" true;
      SafeStorage.DispatchAddAddressBookEntry "0xBob" true]).
Proof.
  intros a.
  apply (proj1 (@add_safe_registers_owners SafeStorage.sampleTypes _ _ _ _
                  fst snd (fun _ => ["0xSafe"]) (fun _ => SafeStorage.sampleState)
                  SafeStorage.type (fun _ => Js.Resolved tt) a
                  ltac:(discriminate) eq_refl eq_refl) ["0xAlice"; "0xBob"] eq_refl).
Defined.

Lemma storage_effects_are_guarded_witness :
  let a := {| SafeStorage.type := "UPDATE_SAFE";
              SafeStorage.payload_of := SafeStorage.UpdatePayload "0xSafe" (Some {["0xA"]}) |} in
  (exists m, SafeStorage.SaveActiveTokens m ∈ (SafeStorage.sampleMiddleware a).2)
  /\ forall m,
       SafeStorage.SaveActiveTokens m ∈ (SafeStorage.sampleMiddleware a).2 ->
       m = SafeStorage.recalculateActiveTokens fst snd SafeStorage.sampleState.
Proof.
  intros a. split.
  - eexists. unfold SafeStorage.sampleMiddleware. simpl.
    rewrite !elem_of_cons. right. right. left. reflexivity.
  - intros m Hin.
    apply (proj1 (@storage_effects_are_guarded SafeStorage.sampleTypes _ _ _ _
                    fst snd (fun _ => ["0xSafe"]) (fun _ => SafeStorage.sampleState)
                    SafeStorage.type (fun _ => Js.Resolved tt) a) m Hin).
Defined.

(** X26: [updateActiveTokens] dispatched through the middleware saves the
    safes and then the active tokens recalculated from the state, for any
    set of active tokens, the empty one included: what is saved is read
    from the state after [next], not from the payload. *)
Theorem updateActiveTokens_through_middleware
    `{SafeStorage.ActionTypes} {GlobalState SafesJSON Handled Owner : Type}
    (tokensSelector : GlobalState -> gmap string Token.t)
    (getActiveTokensAddressesForAllSafes : GlobalState -> gset string)
    (safesMapSelector : GlobalState -> SafesJSON)
    (getState : unit -> GlobalState)
    (next : SafeStorage.action Owner -> Handled)
    (saveSafes : SafesJSON -> Js.promise unit)
    (updateSafe : SafeStorage.payload Owner -> SafeStorage.action Owner)
    (safeAddress : string) (activeTokens : gset string) :
  let a := updateSafe (SafeStorage.UpdatePayload safeAddress (Some activeTokens)) in
  let safes := safesMapSelector (getState tt) in
  SafeStorage.type a = SafeStorage.UPDATE_SAFE ->
  SafeStorage.payload_of a = SafeStorage.UpdatePayload safeAddress (Some activeTokens) ->
  SafeStorage.UPDATE_SAFE <> SafeStorage.ACTIVATE_TOKEN_FOR_ALL_SAFES ->
  SafeStorage.UPDATE_SAFE <> SafeStorage.ADD_SAFE ->
  saveSafes safes = Js.Resolved tt ->
  SafeStorage.updateActiveTokens updateSafe safeAddress activeTokens
    (SafeStorage.safeStorageMware tokensSelector getActiveTokensAddressesForAllSafes
       safesMapSelector getState next saveSafes)
  = (Js.Resolved tt,
     [SafeStorage.Next a; SafeStorage.SaveSafes safes;
      SafeStorage.SaveActiveTokens
        (SafeStorage.recalculateActiveTokens tokensSelector
           getActiveTokensAddressesForAllSafes (getState tt))]).
Proof.
  intros a safes Hty Hp Hne1 Hne2 Hsave.
  unfold SafeStorage.updateActiveTokens. fold a. f_equal.
  unfold SafeStorage.safeStorageMware. fold safes.
  assert (Hw : existsb (String.eqb (SafeStorage.type a)) SafeStorage.watchedActions = true).
  { rewrite Hty. unfold SafeStorage.watchedActions. simpl.
    rewrite String.eqb_refl. apply orb_true_r. }
  rewrite Hw, Hsave. unfold SafeStorage.handleWatched.
  rewrite Hty, Hp.
  rewrite (proj2 (String.eqb_neq _ _) Hne1), (proj2 (String.eqb_neq _ _) Hne2).
  rewrite String.eqb_refl. reflexivity.
Qed.

Lemma updateActiveTokens_through_middleware_witness :
  let updateSafe p := {| SafeStorage.type := "UPDATE_SAFE"; SafeStorage.payload_of := p |} in
  SafeStorage.updateActiveTokens updateSafe "0xSafe" ∅ SafeStorage.sampleMiddleware
  = (Js.Resolved tt,
     [SafeStorage.Next (updateSafe (SafeStorage.UpdatePayload "0xSafe" (Some ∅)));
      SafeStorage.SaveSafes ["0xSafe"];
      SafeStorage.SaveActiveTokens
        (SafeStorage.recalculateActiveTokens fst snd SafeStorage.sampleState)]).
Proof.
  intros updateSafe.
  apply (@updateActiveTokens_through_middleware SafeStorage.sampleTypes _ _ _ _
           fst snd (fun _ => ["0xSafe"]) (fun _ => SafeStorage.sampleState)
           SafeStorage.type (fun _ => Js.Resolved tt) updateSafe "0xSafe" ∅
           eq_refl eq_refl ltac:(discriminate) ltac:(discriminate) eq_refl).
Defined.

(** X27: a call that the pipeline takes for an ERC721 transfer, because
    the code at the destination contains the hash or because it is a
    transfer call to an address that is not in the token registry, is
    normalized without any token lookup: the record is neither a token
    transfer nor a custom transaction, carries "ETH" and 18 decimals, and
    exists as soon as the refund lookup succeeds. *)
Theorem erc721_record `{Imports} `{Network}
    (safeAddress : string) (tx : TxServiceModel.t)
    (knownTokens : gmap string Token.t) (code : option string) :
  (exists c, code = Some c /\ c <> ""
             /\ Js.includes c SAFE_TRANSFER_FROM_WITHOUT_DATA_HASH = true)
  \/ (isTokenTransfer (TxServiceModel.data tx) (TxServiceModel.value tx) = true
      /\ knownTokens !! TxServiceModel.to tx = None) ->
  (forall r,
      buildTransactionFrom safeAddress tx knownTokens code = Js.Resolved r ->
      Transaction.isTokenTransfer r = false
      /\ Transaction.customTx r = false
      /\ Transaction.symbol r = "ETH"
      /\ Transaction.decimals r = 18)
  /\ (forall rp,
         refundParams_of tx = Js.Resolved rp ->
         exists r, buildTransactionFrom safeAddress tx knownTokens code = Js.Resolved r).
Proof.
  intros Hnft.
  assert (H721 : isERC721Token_of tx knownTokens code = true).
  { unfold isERC721Token_of.
    destruct Hnft as [(c & -> & Hc & Hinc) | [Htr Hunk]].
    - destruct c; [congruence|]. simpl Js.truthy. rewrite Hinc. reflexivity.
    - rewrite Htr, Hunk. apply orb_true_iff. right. reflexivity. }
  assert (Hsend : isSendTokenTx_of tx knownTokens code = false).
  { unfold isSendTokenTx_of. rewrite H721. reflexivity. }
  split.
  - intros r Hb.
    apply buildTransactionFrom_resolved in Hb as (_ & _ & _ & _ & _ & _ & Hcase).
    destruct Hcase as [(Hyes & _) | (_ & Htok & Hcust & Hs & Hd & _)]; [congruence|].
    repeat split; try assumption.
    rewrite Hcust. unfold customTx_of. rewrite H721. apply andb_false_r.
  - intros rp Hrp. unfold buildTransactionFrom. rewrite Hrp. simpl. rewrite Hsend.
    destruct (modifySettingsTx_of safeAddress tx && _);
      [|destruct (customTx_of safeAddress tx knownTokens code && _)]; simpl; eauto.
Qed.

Lemma erc721_record_witness :
  let net := Sample.network [] [] (fun _ => Js.Rejected Sample.failure) in
  let tx := Sample.rawTx Sample.token 0 (Some Sample.transferData) in
  exists r,
    @buildTransactionFrom Sample.imports net Sample.safe tx ∅ (Some "0x")
    = Js.Resolved r
    /\ Transaction.isTokenTransfer r = false
    /\ Transaction.customTx r = false
    /\ Transaction.symbol r = "ETH"
    /\ Transaction.decimals r = 18.
Proof.
  intros net tx.
  destruct (@buildTransactionFrom Sample.imports net Sample.safe tx ∅ (Some "0x"))
    as [r|e] eqn:Hb; [|vm_compute in Hb; discriminate].
  exists r. split; [reflexivity|].
  assert (Hunknown : @isTokenTransfer Sample.imports (TxServiceModel.data tx)
                       (TxServiceModel.value tx) = true
                     /\ (∅ : gmap string Token.t) !! TxServiceModel.to tx = None)
    by (split; reflexivity).
  apply (proj1 (@erc721_record Sample.imports net Sample.safe tx ∅ (Some "0x")
                  (or_intror Hunknown)) r Hb).
Defined.

(** X28: every invocation sends one request, first, and nothing it does
    afterwards is another request; the request carries [If-None-Match]
    exactly when the stored ETag is a non-empty string, which is then the
    header; and [console.error] is called exactly when the request failed
    with a status other than 304, with the error of the request. *)
Theorem one_request_per_invocation `{Imports} `{Network}
    (safeAddress : string) (getState : unit -> AppState) (st : ModuleState) :
  let url := buildTxServiceUrl safeAddress in
  let config := requestConfig (prevSaveTransactionsEtag st) in
  (forall e, config = Some e <-> (prevSaveTransactionsEtag st = Js.Str e /\ e <> ""))
  /\ exists events,
       trace (loadOutgoingTransactions safeAddress getState st).2
       = trace st ++ HttpGet url config :: events
       /\ (forall u c, HttpGet u c ∉ events)
       /\ (forall msg err,
              ConsoleError msg err ∈ events
              <-> (msg = failureMessage safeAddress
                   /\ axios_get url config = Js.Rejected err
                   /\ Js.response_status err <> Some 304)).
Proof.
  intros url config. split.
  - intros e. subst config. unfold requestConfig.
    destruct (prevSaveTransactionsEtag st) as [| |s].
    + split; [discriminate | intros [Hs _]; discriminate].
    + split; [discriminate | intros [Hs _]; discriminate].
    + destruct s as [|c s]; simpl.
      * split; [discriminate | intros [[= <-] Hne]; congruence].
      * split; [intros [= <-]; split; [reflexivity | discriminate]
               | intros [[= <-] _]; reflexivity].
  - assert (Hcont : forall txs st0,
               exists evs,
                 trace (normalizeAndGroup safeAddress getState txs st0).2
                 = trace st0 ++ evs
                 /\ (forall u c, HttpGet u c ∉ evs)
                 /\ (forall msg err, ConsoleError msg err ∉ evs)).
    { intros txs st0. unfold normalizeAndGroup.
      destruct (batchTxTokenRequest txs) as [twd|e].
      - exists (BatchExecute (map TxServiceModel.to txs)
                  :: map (fun '(tx, code) => Normalize tx code) twd).
        assert (Hnorm : forall x, x ∈ map (fun '(tx, code) => Normalize tx code) twd ->
                                  exists tx code, x = Normalize tx code).
        { intros x Hx. apply list_elem_of_fmap in Hx as ([tx code] & -> & _). eauto. }
        split; [|split].
        + destruct (Js.all _); simpl; rewrite <- app_assoc; reflexivity.
        + intros u c Hin. apply elem_of_cons in Hin as [Hin|Hin]; [discriminate|].
          destruct (Hnorm _ Hin) as (tx & code & Heq). discriminate.
        + intros msg err Hin. apply elem_of_cons in Hin as [Hin|Hin]; [discriminate|].
          destruct (Hnorm _ Hin) as (tx & code & Heq). discriminate.
      - exists [BatchExecute (map TxServiceModel.to txs)].
        split; [reflexivity|].
        split; intros ? ? Hin; apply list_elem_of_singleton in Hin; discriminate. }
    unfold loadOutgoingTransactions. fold url. fold config.
    destruct (axios_get url config) as [response|err] eqn:Hget.
    + assert (Hno : forall events : list event,
                 (forall msg err, ConsoleError msg err ∉ events) ->
                 forall msg err,
                   ConsoleError msg err ∈ events
                   <-> (msg = failureMessage safeAddress
                        /\ Js.Resolved response = Js.Rejected err
                        /\ Js.response_status err <> Some 304)).
      { intros events Hnone msg err. split; [intros Hin; destruct (Hnone _ _ Hin)|].
        intros (_ & Hbad & _). discriminate. }
      destruct (0 <? Response.count response).
      * simpl prevSaveTransactionsEtag. destruct (Js.strict_eq _ _).
        -- exists []. split; [reflexivity|].
           split; [intros u c Hin; inversion Hin|].
           apply Hno. intros msg err Hin. inversion Hin.
        -- destruct (Hcont (addMockSafeCreationTx safeAddress ++ Response.results response)
                       (setEtag (Response.etag response) (emit [HttpGet url config] st)))
             as (evs & Htr & Hget' & Herr).
           exists evs. rewrite Htr. simpl. rewrite <- app_assoc.
           split; [reflexivity|]. split; [exact Hget' | apply Hno; exact Herr].
      * destruct (Hcont (addMockSafeCreationTx safeAddress)
                    (emit [HttpGet url config] st)) as (evs & Htr & Hget' & Herr).
        exists evs. rewrite Htr. simpl. rewrite <- app_assoc.
        split; [reflexivity|]. split; [exact Hget' | apply Hno; exact Herr].
    + destruct (bool_decide_reflect (Js.response_status err = Some 304)) as [Hs|Hs].
      * exists []. split; [reflexivity|].
        split; [intros u c Hin; inversion Hin|].
        intros msg err'. split; [intros Hin; inversion Hin|].
        intros (_ & [= <-] & Hne). contradiction.
      * destruct (Hcont (addMockSafeCreationTx safeAddress)
                    (emit [ConsoleError (failureMessage safeAddress) err]
                       (emit [HttpGet url config] st))) as (evs & Htr & Hget' & Herr).
        exists (ConsoleError (failureMessage safeAddress) err :: evs).
        rewrite Htr. simpl. rewrite <- !app_assoc. split; [reflexivity|]. split.
        -- intros u c Hin. apply elem_of_cons in Hin as [Hin|Hin]; [discriminate|].
           exact (Hget' _ _ Hin).
        -- intros msg err'. rewrite elem_of_cons. split.
           ++ intros [[= -> ->] | Hin]; [auto | destruct (Herr _ _ Hin)].
           ++ intros (-> & [= <-] & _). left. reflexivity.
Qed.
